(** * typeorm-dbml-generator: metadata extraction and DBML serialization

    A shallow embedding of the extractor classes (ColumnExtractor,
    RelationExtractor, ConstraintExtractor, MetadataExtractor) and of the
    generator classes (TypeMapper, TableGenerator, RelationGenerator,
    DBMLGenerator), followed by the properties of the schema specification
    that concern them.

    Conventions of the embedding:
    - a JavaScript string is a [string]; the model covers ASCII text, so
      case conversion and the character classes of the regular expressions
      ([A-Z], \w, \s) are the ASCII ones;
    - an optional field [f?: T] is an [option T]; a condition written on a
      value in the source ([if (x)], [x || d]) goes through the truthiness
      functions of module [Js];
    - a [Map] is an insertion-ordered association list ([Js.Map]);
    - objects that the source mutates are passed and returned explicitly;
    - the properties of [Object.prototype], which a property read on an
      object literal falls back on, are an explicit argument of the
      generators ([Js.ObjectPrototype]);
    - a call that can raise returns an [Outcome]. *)

From Stdlib Require Import String Ascii List ZArith Bool Lia DecimalString.
Import ListNotations.
Open Scope list_scope.
Open Scope string_scope.

(* ================================================================== *)
(** ** JavaScript primitives used by the source *)
(* ================================================================== *)

Module Js.

Definition code (c : ascii) : nat := nat_of_ascii c.

Definition between (lo hi : nat) (c : ascii) : bool :=
  (lo <=? code c)%nat && (code c <=? hi)%nat.

Definition isUpper : ascii -> bool := between 65 90.
Definition isLower : ascii -> bool := between 97 122.
Definition isDigit : ascii -> bool := between 48 57.
Definition isHexLetterLower : ascii -> bool := between 97 102.
Definition isHexLetterUpper : ascii -> bool := between 65 70.

(** The class \w of a regular expression: [A-Za-z0-9_]. *)
Definition isWordChar (c : ascii) : bool :=
  isUpper c || isLower c || isDigit c || (code c =? 95)%nat.

(** The class \s, and the characters removed by [trim]: tab, line feed,
    vertical tab, form feed, carriage return and space. *)
Definition isSpace (c : ascii) : bool :=
  between 9 13 c || (code c =? 32)%nat.

Definition dquote : ascii := ascii_of_nat 34.
Definition squote : ascii := ascii_of_nat 39.
Definition backslash : ascii := ascii_of_nat 92.
Definition backtick : ascii := ascii_of_nat 96.
Definition newline : string := String (ascii_of_nat 10) EmptyString.

Definition lowerChar (c : ascii) : ascii :=
  if isUpper c then ascii_of_nat (code c + 32) else c.
Definition upperChar (c : ascii) : ascii :=
  if isLower c then ascii_of_nat (code c - 32) else c.

Fixpoint mapChars (f : ascii -> ascii) (s : string) : string :=
  match s with
  | EmptyString => EmptyString
  | String c s' => String (f c) (mapChars f s')
  end.

Definition toLowerCase : string -> string := mapChars lowerChar.
Definition toUpperCase : string -> string := mapChars upperChar.

Fixpoint filterChars (keep : ascii -> bool) (s : string) : string :=
  match s with
  | EmptyString => EmptyString
  | String c s' =>
      if keep c then String c (filterChars keep s') else filterChars keep s'
  end.

Fixpoint existsChar (p : ascii -> bool) (s : string) : bool :=
  match s with
  | EmptyString => false
  | String c s' => p c || existsChar p s'
  end.

(** Removal of every single and double quote character, the source's
    replace with the quote class and the empty string. *)
Definition stripQuotes : string -> string :=
  filterChars (fun c => negb (Ascii.eqb c squote || Ascii.eqb c dquote)).

(** [s.includes(sub)] *)
Fixpoint includes (sub s : string) : bool :=
  String.prefix sub s ||
  match s with
  | EmptyString => false
  | String _ s' => includes sub s'
  end.

Fixpoint rev_onto (s acc : string) : string :=
  match s with
  | EmptyString => acc
  | String c s' => rev_onto s' (String c acc)
  end.
Definition reverse (s : string) : string := rev_onto s EmptyString.

Fixpoint trimStart (s : string) : string :=
  match s with
  | EmptyString => EmptyString
  | String c s' => if isSpace c then trimStart s' else s
  end.
Definition trimEnd (s : string) : string := reverse (trimStart (reverse s)).
Definition trim (s : string) : string := trimEnd (trimStart s).

(** [s.endsWith(suffix)] and [s.slice(0, -n)]. *)
Definition endsWith (suffix s : string) : bool :=
  String.prefix (reverse suffix) (reverse s).
Definition sliceOffEnd (n : nat) (s : string) : string :=
  String.substring 0 (String.length s - n) s.

(** [parts.join(sep)] *)
Definition join (sep : string) (parts : list string) : string :=
  String.concat sep parts.

(** Truthiness of the values the source tests. *)
Definition truthyString (s : string) : bool :=
  negb (String.eqb s EmptyString).
Definition truthyOptString (o : option string) : bool :=
  match o with Some s => truthyString s | None => false end.
Definition truthyOptBool (o : option bool) : bool :=
  match o with Some b => b | None => false end.
Definition isDefined {A} (o : option A) : bool :=
  match o with Some _ => true | None => false end.

(** [o || d] on an optional string. *)
Definition orElse (o : option string) (d : string) : string :=
  match o with
  | Some s => if truthyString s then s else d
  | None => d
  end.

(** A number as the source meets it: the result of [parseInt], which is
    NaN, Infinity with a sign, or a double that is an integer.  Numbers
    with a fraction do not occur.  A [Num z] written by hand with an
    integer that is no double stands for the double nearest to it. *)
Inductive Number : Type :=
| NaN
| Num (z : Z)
| Infinity (negative : bool).

Definition truthyNumber (n : Number) : bool :=
  match n with
  | NaN => false
  | Num z => negb (z =? 0)%Z
  | Infinity _ => true
  end.
Definition truthyOptNumber (o : option Number) : bool :=
  match o with Some n => truthyNumber n | None => false end.

(** The Number value for a positive integer: rounded to 53 significant
    bits, a tie going to the even mantissa; [None] is Infinity. *)
Definition roundToDouble (z : Z) : option Z :=
  let bits := (Z.log2 z + 1)%Z in
  let rounded :=
    if (bits <=? 53)%Z then z
    else
      let shift := (bits - 53)%Z in
      let mantissa := Z.shiftr z shift in
      let rest := (z - Z.shiftl mantissa shift)%Z in
      let half := Z.shiftl 1 (shift - 1) in
      let mantissa :=
        if (half <? rest)%Z || ((rest =? half)%Z && Z.odd mantissa)
        then (mantissa + 1)%Z else mantissa in
      Z.shiftl mantissa shift in
  if (rounded <? 2 ^ 1024)%Z then Some rounded else None.

Definition readsAs (x v : Z) : bool :=
  (0 <? v)%Z
  && match roundToDouble v with
     | Some y => (y =? x)%Z
     | None => false
     end.

(** The integer with the fewest significant digits that reads back as the
    double x, looked for among the multiples of 10^e next to x, from the
    exponent e downwards; of two that read back as x the closer one, and
    the one with the even digits when they are as close. *)
Fixpoint shortestFrom (e : nat) (x : Z) : Z :=
  let p := (10 ^ Z.of_nat e)%Z in
  let lo := (x / p * p)%Z in
  let hi := (lo + p)%Z in
  let next :=
    match e with
    | O => x
    | S e' => shortestFrom e' x
    end in
  match readsAs x lo, readsAs x hi with
  | true, true =>
      if (x - lo <? hi - x)%Z then lo
      else if (hi - x <? x - lo)%Z then hi
      else if Z.even (lo / p) then lo else hi
  | true, false => lo
  | false, true => hi
  | false, false => next
  end.

Definition decimal (z : Z) : string :=
  NilZero.string_of_int (Z.to_int z).

Fixpoint dropZeros (reversed : string) : string :=
  match reversed with
  | String c s' => if Ascii.eqb c "0" then dropZeros s' else reversed
  | EmptyString => reversed
  end.

(** Number::toString of a positive integer double: the digits in full
    below 10^21, with an exponent from there on. *)
Definition positiveToString (x : Z) : string :=
  let digits := decimal (shortestFrom (String.length (decimal x)) x) in
  let n := String.length digits in
  if (n <=? 21)%nat then digits
  else
    match reverse (dropZeros (reverse digits)) with
    | String d EmptyString =>
        String d EmptyString ++ "e+" ++ decimal (Z.of_nat (n - 1))
    | String d more =>
        String d EmptyString ++ "." ++ more ++ "e+"
          ++ decimal (Z.of_nat (n - 1))
    | EmptyString => digits
    end.

(** The Number value for an integer: the nearest double (Node.js reads
    every digit; the language allows an engine to drop decimal digits
    after the twentieth). *)
Definition numberOf (z : Z) : Number :=
  match roundToDouble (Z.abs z) with
  | Some x => Num (if (z <? 0)%Z then - x else x)
  | None => Infinity (z <? 0)%Z
  end.

(** Template-literal conversion of a number. *)
Definition numberToString (n : Number) : string :=
  let signed (negative : bool) (text : string) :=
    if negative then "-" ++ text else text in
  match n with
  | NaN => "NaN"
  | Infinity negative => signed negative "Infinity"
  | Num z =>
      match numberOf z with
      | Num x =>
          if (x =? 0)%Z then "0"
          else signed (x <? 0)%Z (positiveToString (Z.abs x))
      | Infinity negative => signed negative "Infinity"
      | NaN => "NaN"
      end
  end.

Definition digitValue (radix : nat) (c : ascii) : option Z :=
  let v :=
    if isDigit c then Some (code c - 48)%nat
    else if isHexLetterLower c then Some (code c - 87)%nat
    else if isHexLetterUpper c then Some (code c - 55)%nat
    else None in
  match v with
  | Some d => if (d <? radix)%nat then Some (Z.of_nat d) else None
  | None => None
  end.

(** Longest prefix of digits in the radix, accumulated left to right;
    [None] when the prefix is empty. *)
Fixpoint readDigits (radix : nat) (acc : option Z) (s : string) : option Z :=
  match s with
  | EmptyString => acc
  | String c s' =>
      match digitValue radix c with
      | Some d =>
          let prev := match acc with Some a => a | None => 0%Z end in
          readDigits radix (Some (prev * Z.of_nat radix + d)%Z) s'
      | None => acc
      end
  end.

(** [parseInt(s)] without a radix argument: leading white space, a sign,
    a [0x] or [0X] prefix for base 16, then the digits; the result is the
    Number value for the integer the digits write. *)
Definition parseInt (s : string) : Number :=
  let s1 := trimStart s in
  let '(neg, s2) :=
    match s1 with
    | String c r =>
        if Ascii.eqb c "-" then (true, r)
        else if Ascii.eqb c "+" then (false, r)
        else (false, s1)
    | EmptyString => (false, s1)
    end in
  let '(radix, s3) :=
    match s2 with
    | String z (String x r) =>
        if Ascii.eqb z "0" && (Ascii.eqb x "x" || Ascii.eqb x "X")
        then (16%nat, r) else (10%nat, s2)
    | _ => (10%nat, s2)
    end in
  match readDigits radix None s3 with
  | Some v => numberOf (if neg then - v else v)%Z
  | None => NaN
  end.

(** An insertion-ordered [Map<string, V>]: [set] on a present key
    replaces the value in place, on an absent key appends. *)
Module Map.
Definition t (V : Type) : Type := list (string * V).

Definition empty {V} : t V := [].

Fixpoint get {V} (m : t V) (k : string) : option V :=
  match m with
  | [] => None
  | (k', v) :: m' => if String.eqb k' k then Some v else get m' k
  end.

Definition has {V} (m : t V) (k : string) : bool := isDefined (get m k).

Fixpoint set {V} (m : t V) (k : string) (v : V) : t V :=
  match m with
  | [] => [(k, v)]
  | (k', v') :: m' =>
      if String.eqb k' k then (k', v) :: m' else (k', v') :: set m' k v
  end.

Definition keys {V} (m : t V) : list string := map fst m.
Definition values {V} (m : t V) : list V := map snd m.
End Map.

(** What a property read on an object gives when it is not one of the
    strings the object literal lists: a string all the same, or a value
    of another type (a function, an object, a number), of which the model
    keeps whether it is truthy and the text its string conversion
    gives. *)
Inductive Value : Type :=
| Str (s : string)
| NotString (truthy : bool) (text : string).

Definition truthy (v : Value) : bool :=
  match v with
  | Str s => truthyString s
  | NotString b _ => b
  end.

(** String conversion, as a template literal, [+] with a string and
    [join] apply it. *)
Definition toString (v : Value) : string :=
  match v with
  | Str s => s
  | NotString _ text => text
  end.

(** The properties of [Object.prototype], which every object literal
    inherits.  They are ambient state: any code of the process can add or
    replace one. *)
Definition ObjectPrototype : Type := Map.t Value.

Definition nativeFunction (name : string) : Value :=
  NotString true ("function " ++ name ++ "() { [native code] }").

(** The properties an unmodified Node.js process starts with, with the
    text Node.js gives for a native function; [__proto__] reads as the
    prototype object itself. *)
Definition objectPrototype : ObjectPrototype :=
  [ ("constructor", nativeFunction "Object");
    ("__defineGetter__", nativeFunction "__defineGetter__");
    ("__defineSetter__", nativeFunction "__defineSetter__");
    ("hasOwnProperty", nativeFunction "hasOwnProperty");
    ("__lookupGetter__", nativeFunction "__lookupGetter__");
    ("__lookupSetter__", nativeFunction "__lookupSetter__");
    ("isPrototypeOf", nativeFunction "isPrototypeOf");
    ("propertyIsEnumerable", nativeFunction "propertyIsEnumerable");
    ("toString", nativeFunction "toString");
    ("valueOf", nativeFunction "valueOf");
    ("__proto__", NotString true "[object Object]");
    ("toLocaleString", nativeFunction "toLocaleString") ].

(** The own property of an object literal: the last entry written for
    the key. *)
Fixpoint lookupLast (m : list (string * string)) (k : string) : option string :=
  match m with
  | [] => None
  | (k', v) :: m' =>
      match lookupLast m' k with
      | Some v' => Some v'
      | None => if String.eqb k' k then Some v else None
      end
  end.

(** [literal[key]]: the own property, and without one the inherited
    one. *)
Definition readProperty (literal : list (string * string))
  (ambient : ObjectPrototype) (key : string) : option Value :=
  match lookupLast literal key with
  | Some v => Some (Str v)
  | None => Map.get ambient key
  end.

(** [v || d] on the value read and a string. *)
Definition valueOrElse (o : option Value) (d : string) : Value :=
  match o with
  | Some v => if truthy v then v else Str d
  | None => Str d
  end.

End Js.

(* ================================================================== *)
(** ** The parsed declarations handed over by ts-morph *)
(* ================================================================== *)

(** The node kinds the extractors distinguish. *)
Inductive SyntaxKind : Type :=
| StringLiteral
| ArrayLiteralExpression
| ObjectLiteralExpression
| ArrowFunction
| PropertyAssignment
| ShorthandPropertyAssignment
| EnumDeclaration
| OtherKind.

Definition SyntaxKind_eqb (a b : SyntaxKind) : bool :=
  match a, b with
  | StringLiteral, StringLiteral
  | ArrayLiteralExpression, ArrayLiteralExpression
  | ObjectLiteralExpression, ObjectLiteralExpression
  | ArrowFunction, ArrowFunction
  | PropertyAssignment, PropertyAssignment
  | ShorthandPropertyAssignment, ShorthandPropertyAssignment
  | EnumDeclaration, EnumDeclaration
  | OtherKind, OtherKind => true
  | _, _ => false
  end.

(** A member of an enum declaration: its name and the text of its
    initializer when it has one. *)
Record EnumMember : Type := mkEnumMember {
  memberName : string;
  memberInitializer : option string
}.

(** A declaration of a symbol: an enum declaration with its members, or
    any other declaration (interface, class, variable). *)
Inductive Declaration : Type :=
| EnumDecl (members : list EnumMember)
| OtherDecl.

(** What [getType().getSymbol()] gives for an expression. *)
Record TsSymbol : Type := mkSymbol {
  symbolName : string;
  symbolDeclarations : list Declaration
}.

(** A decorator argument or an initializer.  Every node carries its source
    text ([getText()], which for a string literal includes the quotes) and
    the symbol of its type when it has one.  An object literal has its
    members; [OtherExpr] is an expression of any further kind that has no
    method [getProperties] (an identifier, a call, a property access, a
    number).  A member of an object literal is a property assignment, a
    shorthand assignment (which has a name and never an initializer), or
    [OtherMember]: a spread, a method or an accessor, which lack
    [getName] or [getInitializer]. *)
#[local] Unset Elimination Schemes.
Inductive Expression : Type :=
| StringLit (text : string) (sym : option TsSymbol)
| ArrayLit (text : string) (sym : option TsSymbol) (elements : list Expression)
| ObjectLit (text : string) (sym : option TsSymbol)
    (properties : list ObjectMember)
| ArrowFn (text : string) (sym : option TsSymbol) (bodyText : string)
| OtherExpr (text : string) (sym : option TsSymbol)
with ObjectMember : Type :=
| PropAssign (name : string) (initializer : option Expression)
| ShorthandAssign (name : string)
| OtherMember.
#[local] Set Elimination Schemes.

Definition getKind (e : Expression) : SyntaxKind :=
  match e with
  | StringLit _ _ => StringLiteral
  | ArrayLit _ _ _ => ArrayLiteralExpression
  | ObjectLit _ _ _ => ObjectLiteralExpression
  | ArrowFn _ _ _ => ArrowFunction
  | OtherExpr _ _ => OtherKind
  end.

Definition getText (e : Expression) : string :=
  match e with
  | StringLit t _ | ArrayLit t _ _ | ObjectLit t _ _
  | ArrowFn t _ _ | OtherExpr t _ => t
  end.

Definition getTypeSymbol (e : Expression) : option TsSymbol :=
  match e with
  | StringLit _ s | ArrayLit _ s _ | ObjectLit _ s _
  | ArrowFn _ s _ | OtherExpr _ s => s
  end.

Definition memberKind (m : ObjectMember) : SyntaxKind :=
  match m with
  | PropAssign _ _ => PropertyAssignment
  | ShorthandAssign _ => ShorthandPropertyAssignment
  | OtherMember => OtherKind
  end.

(** The property assignments of an object literal that have an
    initializer, in order: what the loops over [getProperties()] act on
    after their kind test and their two [continue] guards. *)
Fixpoint assignments (ms : list ObjectMember) : list (string * Expression) :=
  match ms with
  | [] => []
  | PropAssign n (Some e) :: ms' => (n, e) :: assignments ms'
  | _ :: ms' => assignments ms'
  end.

Record Decorator : Type := mkDecorator {
  decoratorName : string;
  decoratorArguments : list Expression
}.

(** A JSDoc block: [Some s] when [getComment()] is a string. *)
Definition JsDoc : Type := option string.

Record PropertyDeclaration : Type := mkProperty {
  propertyGetName : string;
  propertyDecorators : list Decorator;
  propertyTypeText : string;
  propertyJsDocs : list JsDoc
}.

Record ClassDeclaration : Type := mkClass {
  classGetName : option string;
  classDecorators : list Decorator;
  classProperties : list PropertyDeclaration;
  classJsDocs : list JsDoc
}.

(** [decorators.find((d) => names.includes(d.getName()))] *)
Definition findDecorator (names : list string) (ds : list Decorator)
  : option Decorator :=
  find (fun d => existsb (String.eqb (decoratorName d)) names) ds.

(** [jsDocs.length > 0] and [typeof jsDocs[0].getComment() === 'string'] *)
Definition firstDocComment (docs : list JsDoc) : option string :=
  match docs with
  | Some s :: _ => Some s
  | _ => None
  end.

(** [toSnakeCase], the same private method in every extractor and in
    RelationGenerator: an underscore before each capital, lower case, and
    one leading underscore removed. *)
Fixpoint underscoreCapitals (s : string) : string :=
  match s with
  | EmptyString => EmptyString
  | String c s' =>
      if Js.isUpper c then String "_" (String c (underscoreCapitals s'))
      else String c (underscoreCapitals s')
  end.

Definition dropLeadingUnderscore (s : string) : string :=
  match s with
  | String c s' => if Ascii.eqb c "_" then s' else s
  | EmptyString => s
  end.

Definition toSnakeCase (str : string) : string :=
  dropLeadingUnderscore (Js.toLowerCase (underscoreCapitals str)).

(** [escapeIdentifier], the same private method in the three generators. *)
Definition escapeIdentifier (identifier : string) : string :=
  if Js.existsChar (fun c => negb (Js.isWordChar c)) identifier
  then String Js.dquote (identifier ++ String Js.dquote EmptyString)
  else identifier.

(* ================================================================== *)
(** ** The metadata interfaces *)
(* ================================================================== *)

(** Modelled from the spec: the interface EnumMetadata, whose file is not
    among the sources: a canonical name and an ordered value list, the two
    fields the column extractor writes and the generator reads. *)
Record EnumMetadata : Type := mkEnum {
  enumMetaName : string;
  enumMetaValues : list string
}.

Inductive GenerationStrategy : Type := increment | uuid | rowid.

Module ColumnMetadata.
Record t : Type := mk {
  propertyName : string;
  columnName : string;
  type : string;
  isPrimary : bool;
  isGenerated : bool;
  generationStrategy : option GenerationStrategy;
  isNullable : bool;
  isUnique : bool;
  length : option Js.Number;
  precision : option Js.Number;
  scale : option Js.Number;
  default : option string;
  enumName : option string;
  enumValues : option (list string);
  isArray : option bool;
  isCreateDate : option bool;
  isUpdateDate : option bool;
  isDeleteDate : option bool;
  isVersion : option bool;
  comment : option string
}.

(** Field assignments [metadata.f = v]. *)
Definition set_columnName v (m : t) : t :=
  let 'mk a _ c d e f g h i j k l n o p q r s u w := m in
  mk a v c d e f g h i j k l n o p q r s u w.
Definition set_type v (m : t) : t :=
  let 'mk a b _ d e f g h i j k l n o p q r s u w := m in
  mk a b v d e f g h i j k l n o p q r s u w.
Definition set_isPrimary v (m : t) : t :=
  let 'mk a b c _ e f g h i j k l n o p q r s u w := m in
  mk a b c v e f g h i j k l n o p q r s u w.
Definition set_isGenerated v (m : t) : t :=
  let 'mk a b c d _ f g h i j k l n o p q r s u w := m in
  mk a b c d v f g h i j k l n o p q r s u w.
Definition set_generationStrategy v (m : t) : t :=
  let 'mk a b c d e _ g h i j k l n o p q r s u w := m in
  mk a b c d e (Some v) g h i j k l n o p q r s u w.
Definition set_isNullable v (m : t) : t :=
  let 'mk a b c d e f _ h i j k l n o p q r s u w := m in
  mk a b c d e f v h i j k l n o p q r s u w.
Definition set_isUnique v (m : t) : t :=
  let 'mk a b c d e f g _ i j k l n o p q r s u w := m in
  mk a b c d e f g v i j k l n o p q r s u w.
Definition set_length v (m : t) : t :=
  let 'mk a b c d e f g h _ j k l n o p q r s u w := m in
  mk a b c d e f g h (Some v) j k l n o p q r s u w.
Definition set_precision v (m : t) : t :=
  let 'mk a b c d e f g h i _ k l n o p q r s u w := m in
  mk a b c d e f g h i (Some v) k l n o p q r s u w.
Definition set_scale v (m : t) : t :=
  let 'mk a b c d e f g h i j _ l n o p q r s u w := m in
  mk a b c d e f g h i j (Some v) l n o p q r s u w.
Definition set_default v (m : t) : t :=
  let 'mk a b c d e f g h i j k _ n o p q r s u w := m in
  mk a b c d e f g h i j k (Some v) n o p q r s u w.
Definition set_enumName v (m : t) : t :=
  let 'mk a b c d e f g h i j k l _ o p q r s u w := m in
  mk a b c d e f g h i j k l (Some v) o p q r s u w.
Definition set_enumValues v (m : t) : t :=
  let 'mk a b c d e f g h i j k l n _ p q r s u w := m in
  mk a b c d e f g h i j k l n (Some v) p q r s u w.
Definition set_isArray v (m : t) : t :=
  let 'mk a b c d e f g h i j k l n o _ q r s u w := m in
  mk a b c d e f g h i j k l n o (Some v) q r s u w.
Definition set_comment v (m : t) : t :=
  let 'mk a b c d e f g h i j k l n o p q r s u _ := m in
  mk a b c d e f g h i j k l n o p q r s u (Some v).
End ColumnMetadata.

(** Modelled from the spec: the interface JoinColumnMetadata, whose file
    is not among the sources: a name and a referenced column, both
    optional, as the relation extractor starts from the empty object. *)
Module JoinColumnMetadata.
Record t : Type := mk {
  name : option string;
  referencedColumnName : option string
}.
Definition empty : t := mk None None.
Definition set_name v (j : t) : t := mk (Some v) (referencedColumnName j).
Definition set_referencedColumnName v (j : t) : t := mk (name j) (Some v).
End JoinColumnMetadata.

Module JoinTableMetadata.
Record t : Type := mk {
  name : option string;
  joinColumns : option (list JoinColumnMetadata.t);
  inverseJoinColumns : option (list JoinColumnMetadata.t)
}.
Definition set_name v (j : t) : t :=
  mk (Some v) (joinColumns j) (inverseJoinColumns j).
Definition set_joinColumns v (j : t) : t :=
  mk (name j) (Some v) (inverseJoinColumns j).
Definition set_inverseJoinColumns v (j : t) : t :=
  mk (name j) (joinColumns j) (Some v).
End JoinTableMetadata.

Inductive RelationType : Type :=
| one_to_one | many_to_one | one_to_many | many_to_many.

Module RelationMetadata.
Record t : Type := mk {
  propertyName : string;
  type : RelationType;
  target : string;
  inverseSide : option string;
  joinColumn : option JoinColumnMetadata.t;
  joinTable : option JoinTableMetadata.t;
  onDelete : option string;
  onUpdate : option string
}.
Definition set_target v (r : t) : t :=
  mk (propertyName r) (type r) v (inverseSide r) (joinColumn r)
     (joinTable r) (onDelete r) (onUpdate r).
Definition set_joinColumn v (r : t) : t :=
  mk (propertyName r) (type r) (target r) (inverseSide r) (Some v)
     (joinTable r) (onDelete r) (onUpdate r).
Definition set_joinTable v (r : t) : t :=
  mk (propertyName r) (type r) (target r) (inverseSide r) (joinColumn r)
     (Some v) (onDelete r) (onUpdate r).
End RelationMetadata.

Module IndexMetadata.
Record t : Type := mk {
  name : option string;
  columns : list string;
  isUnique : bool;
  isSpatial : option bool;
  isFulltext : option bool;
  where_ : option string;
  type : option string
}.
Definition set_name v (m : t) : t :=
  mk (Some v) (columns m) (isUnique m) (isSpatial m) (isFulltext m)
     (where_ m) (type m).
Definition set_columns v (m : t) : t :=
  mk (name m) v (isUnique m) (isSpatial m) (isFulltext m) (where_ m) (type m).
Definition set_isUnique v (m : t) : t :=
  mk (name m) (columns m) v (isSpatial m) (isFulltext m) (where_ m) (type m).
Definition set_isSpatial v (m : t) : t :=
  mk (name m) (columns m) (isUnique m) (Some v) (isFulltext m) (where_ m)
     (type m).
Definition set_isFulltext v (m : t) : t :=
  mk (name m) (columns m) (isUnique m) (isSpatial m) (Some v) (where_ m)
     (type m).
Definition set_where v (m : t) : t :=
  mk (name m) (columns m) (isUnique m) (isSpatial m) (isFulltext m) (Some v)
     (type m).
Definition set_type v (m : t) : t :=
  mk (name m) (columns m) (isUnique m) (isSpatial m) (isFulltext m)
     (where_ m) (Some v).
End IndexMetadata.

(** Modelled from the spec: the interfaces UniqueMetadata (optional name,
    column list) and CheckMetadata (expression text, optional name), whose
    files are not among the sources. *)
Module UniqueMetadata.
Record t : Type := mk {
  name : option string;
  columns : list string
}.
End UniqueMetadata.

Module CheckMetadata.
Record t : Type := mk {
  expression : string;
  name : option string
}.
End CheckMetadata.

Module InheritanceMetadata.
Record t : Type := mk {
  pattern : string;
  discriminatorColumn : option string;
  discriminatorValue : option string
}.
End InheritanceMetadata.

Module EntityMetadata.
Record t : Type := mk {
  name : string;
  tableName : string;
  schema : option string;
  columns : list ColumnMetadata.t;
  relations : list RelationMetadata.t;
  indexes : list IndexMetadata.t;
  uniques : list UniqueMetadata.t;
  checks : list CheckMetadata.t;
  note : option string;
  inheritance : option InheritanceMetadata.t
}.
Definition set_relations v (e : t) : t :=
  mk (name e) (tableName e) (schema e) (columns e) v (indexes e)
     (uniques e) (checks e) (note e) (inheritance e).
End EntityMetadata.

Module JoinTableEntity.
Record t : Type := mk {
  name : string;
  schema : option string;
  columns : list ColumnMetadata.t;
  indexes : list IndexMetadata.t
}.
End JoinTableEntity.

Module DBMLSchema.
Record t : Type := mk {
  entities : list EntityMetadata.t;
  enums : list EnumMetadata;
  joinTables : list JoinTableEntity.t
}.
End DBMLSchema.

Inductive TableGrouping : Type := grouping_schema | grouping_none.

(** GeneratorOptions as the caller passes them (every field optional) and
    as the generator keeps them ([Required<GeneratorOptions>]). *)
Module GeneratorOptions.
Record t : Type := mk {
  includeSchemas : option bool;
  includeIndexes : option bool;
  includeNotes : option bool;
  includeEnums : option bool;
  tableGrouping : option TableGrouping;
  projectName : option string
}.
End GeneratorOptions.

Module RequiredOptions.
Record t : Type := mk {
  includeSchemas : bool;
  includeIndexes : bool;
  includeNotes : bool;
  includeEnums : bool;
  tableGrouping : TableGrouping;
  projectName : string
}.
End RequiredOptions.

(* ================================================================== *)
(** ** TypeMapper *)
(* ================================================================== *)

Module TypeMapper.

(** The object literal [typeMap] of [getBaseType], entries in source order
    (the key number is written twice; the later entry is the one an object
    literal keeps). *)
Definition typeMap : list (string * string) :=
  [ ("varchar", "varchar"); ("character varying", "varchar");
    ("char", "char"); ("character", "char"); ("text", "text");
    ("string", "varchar");
    ("int", "integer"); ("integer", "integer"); ("int2", "smallint");
    ("int4", "integer"); ("int8", "bigint"); ("smallint", "smallint");
    ("bigint", "bigint"); ("decimal", "decimal"); ("numeric", "numeric");
    ("real", "real"); ("float", "float"); ("float4", "real");
    ("float8", "double precision"); ("double", "double precision");
    ("double precision", "double precision"); ("money", "money");
    ("number", "numeric");
    ("boolean", "boolean"); ("bool", "boolean");
    ("date", "date"); ("time", "time"); ("time without time zone", "time");
    ("time with time zone", "timetz"); ("timestamp", "timestamp");
    ("timestamp without time zone", "timestamp");
    ("timestamp with time zone", "timestamptz");
    ("timestamptz", "timestamptz"); ("datetime", "timestamp");
    ("interval", "interval");
    ("uuid", "uuid");
    ("bytea", "bytea"); ("blob", "bytea"); ("binary", "bytea");
    ("varbinary", "bytea");
    ("json", "json"); ("jsonb", "jsonb");
    ("xml", "xml");
    ("inet", "inet"); ("cidr", "cidr"); ("macaddr", "macaddr");
    ("point", "point"); ("line", "line"); ("lseg", "lseg"); ("box", "box");
    ("path", "path"); ("polygon", "polygon"); ("circle", "circle");
    ("int4range", "int4range"); ("int8range", "int8range");
    ("numrange", "numrange"); ("tsrange", "tsrange");
    ("tstzrange", "tstzrange"); ("daterange", "daterange");
    ("tsvector", "tsvector"); ("tsquery", "tsquery"); ("bit", "bit");
    ("varbit", "varbit"); ("bit varying", "varbit");
    ("tinyint", "tinyint"); ("mediumint", "mediumint"); ("year", "year");
    ("tinytext", "tinytext"); ("mediumtext", "mediumtext");
    ("longtext", "longtext"); ("enum", "enum"); ("set", "set");
    ("nvarchar", "nvarchar"); ("nchar", "nchar"); ("ntext", "ntext");
    ("uniqueidentifier", "uuid");
    ("number", "number"); ("varchar2", "varchar2");
    ("nvarchar2", "nvarchar2"); ("clob", "clob"); ("nclob", "nclob");
    ("raw", "raw"); ("long", "long") ].

(** [getBaseType]: [typeMap[type] || type] finds the entries of the
    literal and, for a type that is none of its keys, what the object
    prototype has under that name. *)
Definition getBaseType (ambient : Js.ObjectPrototype) (typeormType : string)
  : Js.Value :=
  let type := Js.toLowerCase typeormType in
  Js.valueOrElse (Js.readProperty typeMap ambient type) type.

Definition lengthTypes : list string :=
  [ "varchar"; "character varying"; "char"; "character"; "nvarchar"; "nchar";
    "varchar2"; "nvarchar2"; "bit"; "varbit"; "binary"; "varbinary" ].

Definition supportsLength (type : string) : bool :=
  existsb (String.eqb (Js.toLowerCase type)) lengthTypes.

(** The suffix [mapType] appends after the array notation; it is empty
    exactly when neither branch appends. *)
Definition sizeSuffix (column : ColumnMetadata.t) : string :=
  if Js.truthyOptNumber (ColumnMetadata.length column)
     && supportsLength (ColumnMetadata.type column)
  then
    match ColumnMetadata.length column with
    | Some n => "(" ++ Js.numberToString n ++ ")"
    | None => ""
    end
  else
    match ColumnMetadata.precision column with
    | Some p =>
        match ColumnMetadata.scale column with
        | Some s =>
            "(" ++ Js.numberToString p ++ "," ++ Js.numberToString s ++ ")"
        | None => "(" ++ Js.numberToString p ++ ")"
        end
    | None => ""
    end.

(** [mapType]: what [getBaseType] gave is returned as it is when nothing
    is appended, and becomes a string with the first [+=]. *)
Definition mapType (ambient : Js.ObjectPrototype) (column : ColumnMetadata.t)
  : Js.Value :=
  if Js.truthyOptString (ColumnMetadata.enumName column)
  then match ColumnMetadata.enumName column with
       | Some n => Js.Str n
       | None => Js.Str ""
       end
  else
    let dbmlType := getBaseType ambient (ColumnMetadata.type column) in
    let dbmlType :=
      if Js.truthyOptBool (ColumnMetadata.isArray column)
      then Js.Str (Js.toString dbmlType ++ "[]") else dbmlType in
    match sizeSuffix column with
    | EmptyString => dbmlType
    | suffix => Js.Str (Js.toString dbmlType ++ suffix)
    end.

Definition precisionTypes : list string :=
  [ "decimal"; "numeric"; "number"; "float"; "real"; "double";
    "double precision"; "time"; "timestamp" ].

(** [supportsPrecision]: a private method that no other method calls. *)
Definition supportsPrecision (type : string) : bool :=
  existsb (String.eqb (Js.toLowerCase type)) precisionTypes.

Definition defaultTypes : list (string * string) :=
  [ ("string", "varchar"); ("number", "integer"); ("boolean", "boolean");
    ("Date", "timestamp"); ("Buffer", "bytea") ].

(** [getDefaultTypeForTsType]: a public method that nothing in the
    repository calls. *)
Definition getDefaultTypeForTsType (ambient : Js.ObjectPrototype)
  (tsType : string) : Js.Value :=
  Js.valueOrElse (Js.readProperty defaultTypes ambient tsType) "varchar".

End TypeMapper.

(* ================================================================== *)
(** ** TableGenerator *)
(* ================================================================== *)

Module TableGenerator.

(** The instance: the options it was constructed with (the type mapper it
    also holds has no state). *)
Record t : Type := mk { options : RequiredOptions.t }.

Definition quote1 (s : string) : string :=
  String Js.squote (s ++ String Js.squote EmptyString).
Definition quote2 (s : string) : string :=
  String Js.dquote (s ++ String Js.dquote EmptyString).
Definition backticked (s : string) : string :=
  String Js.backtick (s ++ String Js.backtick EmptyString).

(** [escapeNote]: a backslash before every single quote. *)
Fixpoint escapeNote (note : string) : string :=
  match note with
  | EmptyString => EmptyString
  | String c s' =>
      if Ascii.eqb c Js.squote
      then String Js.backslash (String c (escapeNote s'))
      else String c (escapeNote s')
  end.

Definition formatDefaultValue (defaultValue : string)
  (column : ColumnMetadata.t) : string :=
  if Js.includes "(" defaultValue
     || Js.includes "now" (Js.toLowerCase defaultValue)
  then backticked defaultValue
  else if String.eqb (ColumnMetadata.type column) "varchar"
          || String.eqb (ColumnMetadata.type column) "text"
          || Js.truthyOptString (ColumnMetadata.enumName column)
  then quote1 defaultValue
  else if String.eqb (ColumnMetadata.type column) "boolean"
  then Js.toLowerCase defaultValue
  else defaultValue.

(** The list [settings] of [generateColumnSettings], built by its
    successive pushes. *)
Definition columnSettings (self : t) (column : ColumnMetadata.t)
  : list string :=
  List.concat
    [ if ColumnMetadata.isPrimary column then
        if ColumnMetadata.isGenerated column
           && match ColumnMetadata.generationStrategy column with
              | Some increment => true
              | _ => false
              end
        then ["pk"; "increment"]
        else ["pk"]
      else [];
      if ColumnMetadata.isUnique column
         && negb (ColumnMetadata.isPrimary column)
      then ["unique"] else [];
      if negb (ColumnMetadata.isNullable column) then ["not null"] else [];
      match ColumnMetadata.default column with
      | Some d => ["default: " ++ formatDefaultValue d column]
      | None => []
      end;
      if Js.truthyOptBool (ColumnMetadata.isCreateDate column)
         || Js.truthyOptBool (ColumnMetadata.isUpdateDate column)
      then ["default: " ++ backticked "now()"] else [];
      if RequiredOptions.includeNotes (options self)
         && Js.truthyOptString (ColumnMetadata.comment column)
      then match ColumnMetadata.comment column with
           | Some c => ["note: " ++ quote1 (escapeNote c)]
           | None => []
           end
      else [] ].

Definition bracketed (settings : list string) : string :=
  "[" ++ Js.join ", " settings ++ "]".

Definition generateColumnSettings (self : t) (column : ColumnMetadata.t)
  : string :=
  let settings := columnSettings self column in
  match settings with
  | [] => ""
  | _ => bracketed settings
  end.

(** [generateColumn]: [parts.join] converts what [mapType] returned to a
    string. *)
Definition generateColumn (ambient : Js.ObjectPrototype) (self : t)
  (column : ColumnMetadata.t) : string :=
  let settings := generateColumnSettings self column in
  Js.join " "
    (escapeIdentifier (ColumnMetadata.columnName column)
     :: Js.toString (TypeMapper.mapType ambient column)
     :: (if Js.truthyString settings then [settings] else [])).

Definition generateIndex (index : IndexMetadata.t) : string :=
  let columnsPart :=
    match IndexMetadata.columns index with
    | [c] => escapeIdentifier c
    | cs => "(" ++ Js.join ", " (map escapeIdentifier cs) ++ ")"
    end in
  let settings :=
    List.concat
      [ if IndexMetadata.isUnique index then ["unique"] else [];
        if Js.truthyOptString (IndexMetadata.name index)
        then match IndexMetadata.name index with
             | Some n => ["name: " ++ quote1 n]
             | None => []
             end
        else [];
        if Js.truthyOptString (IndexMetadata.type index)
        then match IndexMetadata.type index with
             | Some ty => ["type: " ++ ty]
             | None => []
             end
        else [];
        if Js.truthyOptString (IndexMetadata.where_ index)
        then match IndexMetadata.where_ index with
             | Some w => ["where: " ++ quote1 w]
             | None => []
             end
        else [] ] in
  Js.join " "
    (columnsPart :: match settings with
                    | [] => []
                    | _ => [bracketed settings]
                    end).

Definition generateTableDeclaration (self : t) (entity : EntityMetadata.t)
  : string :=
  let opts :=
    List.concat
      [ if RequiredOptions.includeSchemas (options self)
           && Js.truthyOptString (EntityMetadata.schema entity)
        then match EntityMetadata.schema entity with
             | Some s => ["schema: " ++ quote2 s]
             | None => []
             end
        else [];
        if RequiredOptions.includeNotes (options self)
           && Js.truthyOptString (EntityMetadata.note entity)
        then match EntityMetadata.note entity with
             | Some n => ["note: " ++ quote1 (escapeNote n)]
             | None => []
             end
        else [] ] in
  "Table " ++ escapeIdentifier (EntityMetadata.tableName entity)
  ++ (match opts with
      | [] => ""
      | _ => " " ++ bracketed opts
      end)
  ++ " {".

Definition generateTable (ambient : Js.ObjectPrototype) (self : t)
  (entity : EntityMetadata.t) : string :=
  let columns :=
    map (generateColumn ambient self) (EntityMetadata.columns entity) in
  let lines :=
    List.concat
      [ [generateTableDeclaration self entity];
        map (fun c => "  " ++ c) columns;
        if RequiredOptions.includeIndexes (options self)
           && negb (Nat.eqb (List.length (EntityMetadata.indexes entity)) 0)
        then List.concat
               [ [""; "  Indexes {"];
                 map (fun index => "    " ++ generateIndex index)
                   (EntityMetadata.indexes entity);
                 ["  }"] ]
        else [];
        ["}"] ] in
  Js.join Js.newline lines.

End TableGenerator.

(* ================================================================== *)
(** ** RelationGenerator *)
(* ================================================================== *)

Module RelationGenerator.

Definition actionMap : list (string * string) :=
  [ ("CASCADE", "cascade"); ("SET NULL", "set null");
    ("SET DEFAULT", "set default"); ("RESTRICT", "restrict");
    ("NO ACTION", "no action") ].

(** [formatCascadeAction]: [actionMap[action] || action.toLowerCase()],
    with the inherited properties as in [getBaseType]. *)
Definition formatCascadeAction (ambient : Js.ObjectPrototype)
  (action : string) : Js.Value :=
  Js.valueOrElse (Js.readProperty actionMap ambient action)
    (Js.toLowerCase action).

Definition generateRelationOptions (ambient : Js.ObjectPrototype)
  (relation : RelationMetadata.t) : option string :=
  let options :=
    List.concat
      [ if Js.truthyOptString (RelationMetadata.onDelete relation)
        then match RelationMetadata.onDelete relation with
             | Some a =>
                 ["delete: " ++ Js.toString (formatCascadeAction ambient a)]
             | None => []
             end
        else [];
        if Js.truthyOptString (RelationMetadata.onUpdate relation)
        then match RelationMetadata.onUpdate relation with
             | Some a =>
                 ["update: " ++ Js.toString (formatCascadeAction ambient a)]
             | None => []
             end
        else [] ] in
  match options with
  | [] => None
  | _ => Some (TableGenerator.bracketed options)
  end.

(** [relation.joinColumn?.name] and [relation.joinColumn?.referencedColumnName] *)
Definition joinColumnName (j : option JoinColumnMetadata.t) : option string :=
  match j with
  | Some c => JoinColumnMetadata.name c
  | None => None
  end.
Definition joinColumnReferenced (j : option JoinColumnMetadata.t)
  : option string :=
  match j with
  | Some c => JoinColumnMetadata.referencedColumnName c
  | None => None
  end.

(** The line shared by [generateManyToOne] and [generateOneToOne], which
    differ in the symbol between the two ends. *)
Definition referenceLine (ambient : Js.ObjectPrototype) (symbol : string)
  (entity : EntityMetadata.t) (relation : RelationMetadata.t) : string :=
  let fromTable := EntityMetadata.tableName entity in
  let toTable := RelationMetadata.target relation in
  let joinColumnName :=
    Js.orElse (joinColumnName (RelationMetadata.joinColumn relation))
      (toSnakeCase (RelationMetadata.propertyName relation) ++ "_id") in
  let referencedColumnName :=
    Js.orElse (joinColumnReferenced (RelationMetadata.joinColumn relation))
      "id" in
  let options := generateRelationOptions ambient relation in
  Js.join " "
    (("Ref: " ++ escapeIdentifier fromTable ++ "."
        ++ escapeIdentifier joinColumnName)
     :: symbol
     :: (escapeIdentifier toTable ++ "."
           ++ escapeIdentifier referencedColumnName)
     :: match options with
        | Some o => if Js.truthyString o then [o] else []
        | None => []
        end).

Definition generateManyToOne (ambient : Js.ObjectPrototype)
  (entity : EntityMetadata.t) (relation : RelationMetadata.t) : string :=
  referenceLine ambient ">" entity relation.

Definition generateOneToOne (ambient : Js.ObjectPrototype)
  (entity : EntityMetadata.t) (relation : RelationMetadata.t)
  : option string :=
  match RelationMetadata.joinColumn relation with
  | None => None
  | Some _ => Some (referenceLine ambient "-" entity relation)
  end.

(** [cols?.[0]] *)
Definition firstJoinColumn (cols : option (list JoinColumnMetadata.t))
  : option JoinColumnMetadata.t :=
  match cols with
  | Some (c :: _) => Some c
  | _ => None
  end.

Definition generateManyToMany (entity : EntityMetadata.t)
  (relation : RelationMetadata.t) : option string :=
  match RelationMetadata.joinTable relation with
  | None => None
  | Some joinTable =>
      let fromTable := EntityMetadata.tableName entity in
      let toTable := RelationMetadata.target relation in
      let joinTableName :=
        Js.orElse (JoinTableMetadata.name joinTable)
          (toSnakeCase fromTable ++ "_" ++ toSnakeCase toTable) in
      let fromJoinColumn :=
        firstJoinColumn (JoinTableMetadata.joinColumns joinTable) in
      let toJoinColumn :=
        firstJoinColumn (JoinTableMetadata.inverseJoinColumns joinTable) in
      let fromColumnName :=
        Js.orElse (joinColumnName fromJoinColumn)
          (toSnakeCase fromTable ++ "_id") in
      let fromReferencedColumn :=
        Js.orElse (joinColumnReferenced fromJoinColumn) "id" in
      let toColumnName :=
        Js.orElse (joinColumnName toJoinColumn)
          (toSnakeCase toTable ++ "_id") in
      let toReferencedColumn :=
        Js.orElse (joinColumnReferenced toJoinColumn) "id" in
      Some (Js.join Js.newline
        [ "Ref: " ++ escapeIdentifier joinTableName ++ "."
            ++ escapeIdentifier fromColumnName ++ " > "
            ++ escapeIdentifier fromTable ++ "."
            ++ escapeIdentifier fromReferencedColumn;
          "Ref: " ++ escapeIdentifier joinTableName ++ "."
            ++ escapeIdentifier toColumnName ++ " > "
            ++ escapeIdentifier toTable ++ "."
            ++ escapeIdentifier toReferencedColumn ])
  end.

Definition generateRelation (ambient : Js.ObjectPrototype)
  (entity : EntityMetadata.t) (relation : RelationMetadata.t)
  : option string :=
  match RelationMetadata.type relation with
  | many_to_one => Some (generateManyToOne ambient entity relation)
  | one_to_many => None
  | one_to_one => generateOneToOne ambient entity relation
  | many_to_many => generateManyToMany entity relation
  end.

(** The array [refs] of [generateRelations]: one entry per relation whose
    reference text is a non-empty string, in entity-then-relation order. *)
Definition relationRefs (ambient : Js.ObjectPrototype)
  (entities : list EntityMetadata.t) : list string :=
  flat_map
    (fun entity =>
       flat_map
         (fun relation =>
            match generateRelation ambient entity relation with
            | Some ref => if Js.truthyString ref then [ref] else []
            | None => []
            end)
         (EntityMetadata.relations entity))
    entities.

Definition generateRelations (ambient : Js.ObjectPrototype)
  (entities : list EntityMetadata.t) : string :=
  match relationRefs ambient entities with
  | [] => ""
  | refs => Js.join Js.newline refs
  end.

End RelationGenerator.

(* ================================================================== *)
(** ** DBMLGenerator *)
(* ================================================================== *)

(** A method of an object whose fields it may assign: the instance goes in
    and the instance after the call comes out with the result. *)
Definition Method (Self A B : Type) : Type := Self -> A -> B * Self.

(** The outcome of a call that can raise: the value returned, or the
    TypeError of a call of a method that the object does not have. *)
Inductive Outcome (A : Type) : Type :=
| Returns (a : A)
| TypeError.
Arguments Returns {A} a.
Arguments TypeError {A}.

Module DBMLGenerator.

Record t : Type := mk {
  tableGenerator : TableGenerator.t;
  options : RequiredOptions.t
}.

Definition withDefault {A} (o : option A) (d : A) : A :=
  match o with Some a => a | None => d end.

(** The constructor: [options?.f ?? default] for every field. *)
Definition new (opts : option GeneratorOptions.t) : t :=
  let field {A} (f : GeneratorOptions.t -> option A) : option A :=
    match opts with Some o => f o | None => None end in
  let required :=
    RequiredOptions.mk
      (withDefault (field GeneratorOptions.includeSchemas) true)
      (withDefault (field GeneratorOptions.includeIndexes) true)
      (withDefault (field GeneratorOptions.includeNotes) true)
      (withDefault (field GeneratorOptions.includeEnums) true)
      (withDefault (field GeneratorOptions.tableGrouping) grouping_schema)
      (withDefault (field GeneratorOptions.projectName) "Database Schema") in
  mk (TableGenerator.mk required) required.

Definition generateProjectHeader (self : t) : string :=
  "Project " ++ escapeIdentifier (RequiredOptions.projectName (options self))
  ++ " {" ++ Js.newline
  ++ "  database_type: 'PostgreSQL'" ++ Js.newline
  ++ "  Note: 'Generated from TypeORM entities'" ++ Js.newline
  ++ "}".

Definition block (keyword name : string) (items : list string) : string :=
  keyword ++ " " ++ escapeIdentifier name ++ " {" ++ Js.newline
  ++ Js.join Js.newline (map (fun v => "  " ++ escapeIdentifier v) items)
  ++ Js.newline ++ "}".

Definition generateEnums (enums : list EnumMetadata) : string :=
  Js.join (Js.newline ++ Js.newline)
    (map (fun enumMeta =>
            block "Enum" (enumMetaName enumMeta) (enumMetaValues enumMeta))
       enums).

Definition generateTables (ambient : Js.ObjectPrototype) (self : t)
  (entities : list EntityMetadata.t) : string :=
  Js.join (Js.newline ++ Js.newline)
    (map (TableGenerator.generateTable ambient (tableGenerator self))
       entities).

(** The map [schemaGroups] after the loop over the entities. *)
Definition schemaGroups (entities : list EntityMetadata.t)
  : Js.Map.t (list string) :=
  fold_left
    (fun groups entity =>
       let schema := Js.orElse (EntityMetadata.schema entity) "public" in
       let groups :=
         if Js.Map.has groups schema then groups
         else Js.Map.set groups schema [] in
       match Js.Map.get groups schema with
       | Some tables =>
           Js.Map.set groups schema
             (tables ++ [EntityMetadata.tableName entity])%list
       | None => groups
       end)
    entities Js.Map.empty.

Definition generateTableGroups (entities : list EntityMetadata.t) : string :=
  let groups :=
    flat_map
      (fun entry =>
         match snd entry with
         | [] => []
         | tables => [block "TableGroup" (fst entry) tables]
         end)
      (schemaGroups entities) in
  Js.join (Js.newline ++ Js.newline) groups.

(** The array [sections] of [generate] before the final filter. *)
Definition sections (ambient : Js.ObjectPrototype) (self : t)
  (schema : DBMLSchema.t) : list string :=
  let o := options self in
  let tablesSection :=
    generateTables ambient self (DBMLSchema.entities schema) in
  let relationsSection :=
    RelationGenerator.generateRelations ambient
      (DBMLSchema.entities schema) in
  List.concat
    [ if Js.truthyString (RequiredOptions.projectName o)
      then [generateProjectHeader self] else [];
      if RequiredOptions.includeEnums o
         && negb (Nat.eqb (List.length (DBMLSchema.enums schema)) 0)
      then [generateEnums (DBMLSchema.enums schema)] else [];
      if Js.truthyString tablesSection then [tablesSection] else [];
      if Js.truthyString relationsSection then [relationsSection] else [];
      if RequiredOptions.includeSchemas o
         && match RequiredOptions.tableGrouping o with
            | grouping_schema => true
            | grouping_none => false
            end
      then
        let tableGroupsSection :=
          generateTableGroups (DBMLSchema.entities schema) in
        if Js.truthyString tableGroupsSection then [tableGroupsSection]
        else []
      else [] ].

(** [generate]: no field of the generator is assigned, so the instance
    comes out as it went in; the object prototype is read, through the
    type mapper and the relation generator, and not written. *)
Definition generate (ambient : Js.ObjectPrototype)
  : Method t DBMLSchema.t string :=
  fun self schema =>
    (Js.join (Js.newline ++ Js.newline)
       (filter (fun s => Js.truthyString (Js.trim s))
          (sections ambient self schema)),
     self).

(** [getOptions]: a copy of the options. *)
Definition getOptions (self : t) : RequiredOptions.t := options self.

End DBMLGenerator.

(** [schemaToDBML] of the public API. *)
Definition schemaToDBML (ambient : Js.ObjectPrototype) (schema : DBMLSchema.t)
  (options : option GeneratorOptions.t) : string :=
  let generator := DBMLGenerator.new options in
  fst (DBMLGenerator.generate ambient generator schema).

(* ================================================================== *)
(** ** ConstraintExtractor *)
(* ================================================================== *)

(** [getProperties()] of an object literal.  The extractors call it only
    behind a test of the node kind. *)
Definition getProperties (e : Expression) : list ObjectMember :=
  match e with
  | ObjectLit _ _ ps => ps
  | _ => []
  end.

Definition isKind (k : SyntaxKind) (e : Expression) : bool :=
  SyntaxKind_eqb (getKind e) k.

Module ConstraintExtractor.

Definition extractColumnsFromArray (arrayLiteral : Expression) : list string :=
  match arrayLiteral with
  | ArrayLit _ _ elements =>
      flat_map
        (fun element =>
           if isKind StringLiteral element
           then [Js.stripQuotes (getText element)] else [])
        elements
  | _ => []
  end.

Definition indexTypes : list string := ["btree"; "hash"; "gist"; "gin"].

(** One turn of the loop of [extractIndexOptions]: the switch on the
    property name. *)
Definition indexOption (metadata : IndexMetadata.t)
  (prop : string * Expression) : IndexMetadata.t :=
  let name := fst prop in
  let value := getText (snd prop) in
  if String.eqb name "unique"
  then IndexMetadata.set_isUnique (String.eqb value "true") metadata
  else if String.eqb name "spatial"
  then IndexMetadata.set_isSpatial (String.eqb value "true") metadata
  else if String.eqb name "fulltext"
  then IndexMetadata.set_isFulltext (String.eqb value "true") metadata
  else if String.eqb name "where"
  then IndexMetadata.set_where (Js.stripQuotes value) metadata
  else if String.eqb name "using"
  then
    let typeValue := Js.toLowerCase (Js.stripQuotes value) in
    if existsb (String.eqb typeValue) indexTypes
    then IndexMetadata.set_type typeValue metadata
    else metadata
  else metadata.

Definition extractIndexOptions (options : Expression)
  (metadata : IndexMetadata.t) : IndexMetadata.t :=
  fold_left indexOption (assignments (getProperties options)) metadata.

Definition emptyIndex : IndexMetadata.t :=
  IndexMetadata.mk None [] false None None None None.

(** The end of [extractIndexFromDecorator], from the comment
    [Check for options object as last argument] on. *)
Definition finishIndex (args : list Expression) (currentArgIndex : nat)
  (metadata : IndexMetadata.t) : option IndexMetadata.t :=
  let metadata :=
    match nth_error args currentArgIndex with
    | Some lastArg =>
        if isKind ObjectLiteralExpression lastArg
        then extractIndexOptions lastArg metadata
        else metadata
    | None => metadata
    end in
  match IndexMetadata.columns metadata with
  | [] => None
  | _ => Some metadata
  end.

Definition extractIndexFromDecorator (decorator : Decorator)
  : option IndexMetadata.t :=
  let args := decoratorArguments decorator in
  let metadata := emptyIndex in
  match args with
  | [] => None
  | firstArg :: _ =>
      match getKind firstArg with
      | ArrayLiteralExpression =>
          finishIndex args 1
            (IndexMetadata.set_columns (extractColumnsFromArray firstArg)
               metadata)
      | StringLiteral =>
          let metadata :=
            IndexMetadata.set_name (Js.stripQuotes (getText firstArg))
              metadata in
          match nth_error args 1 with
          | Some secondArg =>
              if isKind ArrayLiteralExpression secondArg
              then finishIndex args 2
                     (IndexMetadata.set_columns
                        (extractColumnsFromArray secondArg) metadata)
              else finishIndex args 1 metadata
          | None => finishIndex args 1 metadata
          end
      | ObjectLiteralExpression =>
          Some (extractIndexOptions firstArg metadata)
      | _ => finishIndex args 0 metadata
      end
  end.

Definition extractIndexFromPropertyDecorator (decorator : Decorator)
  (propertyName : string) : option IndexMetadata.t :=
  let metadata :=
    IndexMetadata.set_columns [toSnakeCase propertyName] emptyIndex in
  Some
    (fold_left
       (fun metadata arg =>
          if isKind StringLiteral arg
          then IndexMetadata.set_name (Js.stripQuotes (getText arg)) metadata
          else if isKind ObjectLiteralExpression arg
          then extractIndexOptions arg metadata
          else metadata)
       (decoratorArguments decorator) metadata).

Definition named (n : string) (d : Decorator) : bool :=
  String.eqb (decoratorName d) n.

(** [results.push(r)] behind [if (r)], for every decorator of a name. *)
Definition collect {A} (n : string) (f : Decorator -> option A)
  (decorators : list Decorator) : list A :=
  flat_map
    (fun d =>
       if named n d
       then match f d with Some r => [r] | None => [] end
       else [])
    decorators.

Definition extractIndexes (classDecl : ClassDeclaration)
  : list IndexMetadata.t :=
  (collect "Index" extractIndexFromDecorator (classDecorators classDecl)
   ++ flat_map
        (fun property =>
           collect "Index"
             (fun d =>
                extractIndexFromPropertyDecorator d
                  (propertyGetName property))
             (propertyDecorators property))
        (classProperties classDecl))%list.

Definition extractUniqueFromDecorator (decorator : Decorator)
  : option UniqueMetadata.t :=
  let args := decoratorArguments decorator in
  match args with
  | [] => None
  | firstArg :: _ =>
      let metadata :=
        match getKind firstArg with
        | ArrayLiteralExpression =>
            UniqueMetadata.mk None (extractColumnsFromArray firstArg)
        | StringLiteral =>
            let name := Some (Js.stripQuotes (getText firstArg)) in
            match nth_error args 1 with
            | Some secondArg =>
                if isKind ArrayLiteralExpression secondArg
                then UniqueMetadata.mk name (extractColumnsFromArray secondArg)
                else UniqueMetadata.mk name []
            | None => UniqueMetadata.mk name []
            end
        | _ => UniqueMetadata.mk None []
        end in
      match UniqueMetadata.columns metadata with
      | [] => None
      | _ => Some metadata
      end
  end.

Definition extractUniques (classDecl : ClassDeclaration)
  : list UniqueMetadata.t :=
  collect "Unique" extractUniqueFromDecorator (classDecorators classDecl).

Definition extractCheckFromDecorator (decorator : Decorator)
  : option CheckMetadata.t :=
  let args := decoratorArguments decorator in
  match args with
  | [] => None
  | firstArg :: _ =>
      let expression := Js.stripQuotes (getText firstArg) in
      let name :=
        match nth_error args 1 with
        | Some secondArg =>
            if isKind StringLiteral secondArg
            then Some (Js.stripQuotes (getText secondArg)) else None
        | None => None
        end in
      if Js.truthyString expression
      then Some (CheckMetadata.mk expression name) else None
  end.

Definition extractChecks (classDecl : ClassDeclaration)
  : list CheckMetadata.t :=
  collect "Check" extractCheckFromDecorator (classDecorators classDecl).

End ConstraintExtractor.

(* ================================================================== *)
(** ** RelationExtractor *)
(* ================================================================== *)

Module RelationExtractor.

Fixpoint takeWord (s : string) : string :=
  match s with
  | EmptyString => EmptyString
  | String c s' =>
      if Js.isWordChar c then String c (takeWord s') else EmptyString
  end.

(** First match of the pattern word-dot-word in [bodyText] and its group:
    the word after the first dot that stands between two word
    characters.  [inWord] tells whether the character before is a word
    character. *)
Fixpoint memberAccess (inWord : bool) (s : string) : option string :=
  match s with
  | EmptyString => None
  | String c s' =>
      if Ascii.eqb c "." then
        if inWord && Js.truthyString (takeWord s') then Some (takeWord s')
        else memberAccess false s'
      else memberAccess (Js.isWordChar c) s'
  end.

Record RelationArguments : Type := mkArgs {
  argTarget : string;
  argInverseSide : option string;
  argOnDelete : option string;
  argOnUpdate : option string
}.

(** The loop over the options of the third argument. *)
Definition cascadeOption (acc : option string * option string)
  (prop : string * Expression) : option string * option string :=
  let value := Js.stripQuotes (getText (snd prop)) in
  if String.eqb (fst prop) "onDelete"
  then (Some (Js.toUpperCase value), snd acc)
  else if String.eqb (fst prop) "onUpdate"
  then (fst acc, Some (Js.toUpperCase value))
  else acc.

Definition extractRelationArguments (decorator : Decorator)
  : RelationArguments :=
  let args := decoratorArguments decorator in
  let target :=
    match nth_error args 0 with
    | Some (ArrowFn _ _ body) => body
    | Some firstArg => getText firstArg
    | None => "Unknown"
    end in
  let inverseSide :=
    match nth_error args 1 with
    | Some (ArrowFn _ _ body) => memberAccess false body
    | _ => None
    end in
  let cascades :=
    match nth_error args 2 with
    | Some (ObjectLit _ _ props) =>
        fold_left cascadeOption (assignments props) (None, None)
    | _ => (None, None)
    end in
  mkArgs target inverseSide (fst cascades) (snd cascades).

(** The loop shared by [extractJoinColumn] and [extractSingleJoinColumn]. *)
Definition joinColumnOption (joinColumn : JoinColumnMetadata.t)
  (prop : string * Expression) : JoinColumnMetadata.t :=
  let value := Js.stripQuotes (getText (snd prop)) in
  if String.eqb (fst prop) "name"
  then JoinColumnMetadata.set_name value joinColumn
  else if String.eqb (fst prop) "referencedColumnName"
  then JoinColumnMetadata.set_referencedColumnName value joinColumn
  else joinColumn.

Definition extractSingleJoinColumn (props : list ObjectMember)
  : JoinColumnMetadata.t :=
  fold_left joinColumnOption (assignments props) JoinColumnMetadata.empty.

Definition extractJoinColumn (decorator : Decorator) : JoinColumnMetadata.t :=
  match decoratorArguments decorator with
  | ObjectLit _ _ props :: _ => extractSingleJoinColumn props
  | _ => JoinColumnMetadata.empty
  end.

Definition extractJoinColumns (initializer : Expression)
  : list JoinColumnMetadata.t :=
  match initializer with
  | ArrayLit _ _ elements =>
      flat_map
        (fun element =>
           match element with
           | ObjectLit _ _ props => [extractSingleJoinColumn props]
           | _ => []
           end)
        elements
  | ObjectLit _ _ props => [extractSingleJoinColumn props]
  | _ => []
  end.

Definition joinTableOption (joinTable : JoinTableMetadata.t)
  (prop : string * Expression) : JoinTableMetadata.t :=
  let name := fst prop in
  let initializer := snd prop in
  if String.eqb name "name"
  then JoinTableMetadata.set_name (Js.stripQuotes (getText initializer))
         joinTable
  else if String.eqb name "joinColumn" || String.eqb name "joinColumns"
  then JoinTableMetadata.set_joinColumns (extractJoinColumns initializer)
         joinTable
  else if String.eqb name "inverseJoinColumn"
          || String.eqb name "inverseJoinColumns"
  then JoinTableMetadata.set_inverseJoinColumns
         (extractJoinColumns initializer) joinTable
  else joinTable.

Definition extractJoinTable (decorator : Decorator) (propertyName : string)
  (targetEntity : string) : JoinTableMetadata.t :=
  let joinTable := JoinTableMetadata.mk None (Some []) (Some []) in
  match decoratorArguments decorator with
  | ObjectLit _ _ props :: _ =>
      fold_left joinTableOption (assignments props) joinTable
  | _ => joinTable
  end.

Definition relationDecorators : list string :=
  ["OneToOne"; "ManyToOne"; "OneToMany"; "ManyToMany"].

Definition relationType (decoratorName : string) : option RelationType :=
  if String.eqb decoratorName "OneToOne" then Some one_to_one
  else if String.eqb decoratorName "ManyToOne" then Some many_to_one
  else if String.eqb decoratorName "OneToMany" then Some one_to_many
  else if String.eqb decoratorName "ManyToMany" then Some many_to_many
  else None.

Definition extractRelationFromProperty (property : PropertyDeclaration)
  : option RelationMetadata.t :=
  let decorators := propertyDecorators property in
  match findDecorator relationDecorators decorators with
  | None => None
  | Some relationDecorator =>
      let propertyName := propertyGetName property in
      match relationType (decoratorName relationDecorator) with
      | None => None
      | Some type =>
          let a := extractRelationArguments relationDecorator in
          let metadata :=
            RelationMetadata.mk propertyName type (argTarget a)
              (argInverseSide a) None None (argOnDelete a) (argOnUpdate a) in
          let metadata :=
            match type with
            | one_to_one | many_to_one =>
                match findDecorator ["JoinColumn"] decorators with
                | Some joinColumnDecorator =>
                    RelationMetadata.set_joinColumn
                      (extractJoinColumn joinColumnDecorator) metadata
                | None =>
                    RelationMetadata.set_joinColumn
                      (JoinColumnMetadata.mk
                         (Some (toSnakeCase propertyName ++ "_id"))
                         (Some "id"))
                      metadata
                end
            | _ => metadata
            end in
          let metadata :=
            match type with
            | many_to_many =>
                match findDecorator ["JoinTable"] decorators with
                | Some joinTableDecorator =>
                    RelationMetadata.set_joinTable
                      (extractJoinTable joinTableDecorator propertyName
                         (argTarget a))
                      metadata
                | None => metadata
                end
            | _ => metadata
            end in
          Some metadata
      end
  end.

Definition extractRelations (classDecl : ClassDeclaration)
  : list RelationMetadata.t :=
  flat_map
    (fun property =>
       match extractRelationFromProperty property with
       | Some r => [r]
       | None => []
       end)
    (classProperties classDecl).

End RelationExtractor.

(* ================================================================== *)
(** ** ColumnExtractor *)
(* ================================================================== *)

Module ColumnExtractor.

Definition EnumsMap : Type := Js.Map.t EnumMetadata.

Definition columnDecorators : list string :=
  [ "Column"; "PrimaryColumn"; "PrimaryGeneratedColumn"; "CreateDateColumn";
    "UpdateDateColumn"; "DeleteDateColumn"; "VersionColumn" ].

Definition dateDecorators : list string :=
  ["CreateDateColumn"; "UpdateDateColumn"; "DeleteDateColumn"].

Fixpoint spaceRun (s : string) : nat :=
  match s with
  | String c s' => if Js.isSpace c then S (spaceRun s') else 0
  | EmptyString => 0
  end.

Fixpoint dropChars (n : nat) (s : string) : string :=
  match n, s with
  | S k, String _ s' => dropChars k s'
  | _, _ => s
  end.

(** Length of the match, at the head of [s], of the pattern of
    [inferTypeFromTsType]: white space, a bar, white space, then null or
    undefined. *)
Definition nullableMatchLength (s : string) : option nat :=
  let n1 := spaceRun s in
  match dropChars n1 s with
  | String c s2 =>
      if Ascii.eqb c "|" then
        let n2 := spaceRun s2 in
        let s3 := dropChars n2 s2 in
        if String.prefix "null" s3 then Some (n1 + 1 + n2 + 4)
        else if String.prefix "undefined" s3 then Some (n1 + 1 + n2 + 9)
        else None
      else None
  | EmptyString => None
  end.

(** The global replacement of that pattern by the empty string; [skip]
    counts the characters of a match still to be dropped. *)
Fixpoint removeNullable (skip : nat) (s : string) : string :=
  match s with
  | EmptyString => EmptyString
  | String c s' =>
      match skip with
      | S k => removeNullable k s'
      | O =>
          match nullableMatchLength s with
          | Some (S k) => removeNullable k s'
          | _ => String c (removeNullable 0 s')
          end
      end
  end.

(** [inferTypeFromTsType]: the type it returns and the metadata, on which
    it may set [isArray]. *)
Definition inferTypeFromTsType (tsType : string) (metadata : ColumnMetadata.t)
  : string * ColumnMetadata.t :=
  let tsType := Js.trim (removeNullable 0 tsType) in
  let '(tsType, metadata) :=
    if Js.endsWith "[]" tsType
    then (Js.sliceOffEnd 2 tsType, ColumnMetadata.set_isArray true metadata)
    else (tsType, metadata) in
  let type :=
    if String.eqb tsType "string" then "varchar"
    else if String.eqb tsType "number" then "integer"
    else if String.eqb tsType "boolean" then "boolean"
    else if String.eqb tsType "Date" then "timestamp"
    else if String.eqb tsType "Buffer" then "bytea"
    else if Js.includes "{" tsType then "json"
    else "varchar" in
  (type, metadata).

Definition memberValue (member : EnumMember) : string :=
  match memberInitializer member with
  | Some text => Js.stripQuotes text
  | None => memberName member
  end.

(** [extractEnumMetadata] assigns fields of the column metadata and may
    add an entry to the map of enums. *)
Definition extractEnumMetadata (enumInitializer : Expression)
  (metadata : ColumnMetadata.t) (enumsMap : EnumsMap)
  : ColumnMetadata.t * EnumsMap :=
  match getTypeSymbol enumInitializer with
  | None => (metadata, enumsMap)
  | Some symbol =>
      let enumName := symbolName symbol in
      let metadata :=
        ColumnMetadata.set_enumName (toSnakeCase enumName) metadata in
      let metadata := ColumnMetadata.set_type (toSnakeCase enumName) metadata in
      if Js.Map.has enumsMap enumName then (metadata, enumsMap)
      else
        match symbolDeclarations symbol with
        | EnumDecl members :: _ =>
            let values := map memberValue members in
            (ColumnMetadata.set_enumValues values metadata,
             Js.Map.set enumsMap enumName
               (mkEnum (toSnakeCase enumName) values))
        | _ => (metadata, enumsMap)
        end
  end.

(** One turn of the loop of [extractColumnOptions]: the switch on the
    property name. *)
Definition columnOption (state : ColumnMetadata.t * EnumsMap)
  (prop : string * Expression) : ColumnMetadata.t * EnumsMap :=
  let '(metadata, enumsMap) := state in
  let name := fst prop in
  let initializer := snd prop in
  let value := getText initializer in
  if String.eqb name "type"
  then (ColumnMetadata.set_type (Js.stripQuotes value) metadata, enumsMap)
  else if String.eqb name "name"
  then (ColumnMetadata.set_columnName (Js.stripQuotes value) metadata,
        enumsMap)
  else if String.eqb name "length"
  then (ColumnMetadata.set_length (Js.parseInt value) metadata, enumsMap)
  else if String.eqb name "precision"
  then (ColumnMetadata.set_precision (Js.parseInt value) metadata, enumsMap)
  else if String.eqb name "scale"
  then (ColumnMetadata.set_scale (Js.parseInt value) metadata, enumsMap)
  else if String.eqb name "nullable"
  then (ColumnMetadata.set_isNullable (String.eqb value "true") metadata,
        enumsMap)
  else if String.eqb name "unique"
  then (ColumnMetadata.set_isUnique (String.eqb value "true") metadata,
        enumsMap)
  else if String.eqb name "default"
  then (ColumnMetadata.set_default (Js.stripQuotes value) metadata, enumsMap)
  else if String.eqb name "comment"
  then (ColumnMetadata.set_comment (Js.stripQuotes value) metadata, enumsMap)
  else if String.eqb name "array"
  then (ColumnMetadata.set_isArray (String.eqb value "true") metadata,
        enumsMap)
  else if String.eqb name "enum"
  then extractEnumMetadata initializer metadata enumsMap
  else (metadata, enumsMap).

Definition extractColumnOptions (options : Expression)
  (metadata : ColumnMetadata.t) (enumsMap : EnumsMap)
  : ColumnMetadata.t * EnumsMap :=
  fold_left columnOption (assignments (getProperties options))
    (metadata, enumsMap).

(** The metadata after the block [Handle generated columns]. *)
Definition generatedColumn (args : list Expression)
  (metadata : ColumnMetadata.t) : ColumnMetadata.t :=
  let metadata := ColumnMetadata.set_isGenerated true metadata in
  match args with
  | arg0 :: _ =>
      let firstArg := Js.stripQuotes (getText arg0) in
      if String.eqb firstArg "uuid"
      then ColumnMetadata.set_type "uuid"
             (ColumnMetadata.set_generationStrategy uuid metadata)
      else if String.eqb firstArg "increment"
      then ColumnMetadata.set_type "integer"
             (ColumnMetadata.set_generationStrategy increment metadata)
      else if String.eqb firstArg "rowid"
      then ColumnMetadata.set_type "integer"
             (ColumnMetadata.set_generationStrategy rowid metadata)
      else metadata
  | [] =>
      ColumnMetadata.set_type "integer"
        (ColumnMetadata.set_generationStrategy increment metadata)
  end.

(** The loop over the decorator arguments that are object literals. *)
Definition applyOptions (args : list Expression)
  (state : ColumnMetadata.t * EnumsMap) : ColumnMetadata.t * EnumsMap :=
  fold_left
    (fun state arg =>
       if isKind ObjectLiteralExpression arg
       then extractColumnOptions arg (fst state) (snd state)
       else state)
    args state.

(** The metadata a column decorator of the given name starts from, up to
    and including the block [Handle version column]. *)
Definition initialColumn (decoratorName propertyName : string)
  (args : list Expression) : ColumnMetadata.t :=
  let metadata :=
    ColumnMetadata.mk propertyName (toSnakeCase propertyName) "varchar"
      false false None true false None None None None None None None
      (Some (String.eqb decoratorName "CreateDateColumn"))
      (Some (String.eqb decoratorName "UpdateDateColumn"))
      (Some (String.eqb decoratorName "DeleteDateColumn"))
      (Some (String.eqb decoratorName "VersionColumn"))
      None in
  let metadata :=
    if String.eqb decoratorName "PrimaryColumn"
       || String.eqb decoratorName "PrimaryGeneratedColumn"
    then ColumnMetadata.set_isNullable false
           (ColumnMetadata.set_isPrimary true metadata)
    else metadata in
  let metadata :=
    if String.eqb decoratorName "PrimaryGeneratedColumn"
    then generatedColumn args metadata
    else metadata in
  let metadata :=
    if existsb (String.eqb decoratorName) dateDecorators
    then ColumnMetadata.set_isNullable false
           (ColumnMetadata.set_type "timestamp" metadata)
    else metadata in
  if String.eqb decoratorName "VersionColumn"
  then ColumnMetadata.set_isNullable false
         (ColumnMetadata.set_type "integer" metadata)
  else metadata.

Definition extractColumnFromProperty (property : PropertyDeclaration)
  (enumsMap : EnumsMap) : option ColumnMetadata.t * EnumsMap :=
  match findDecorator columnDecorators (propertyDecorators property) with
  | None => (None, enumsMap)
  | Some columnDecorator =>
      let args := decoratorArguments columnDecorator in
      let metadata :=
        initialColumn (decoratorName columnDecorator)
          (propertyGetName property) args in
      let '(metadata, enumsMap) := applyOptions args (metadata, enumsMap) in
      let metadata :=
        if String.eqb (ColumnMetadata.type metadata) "varchar"
           && negb (ColumnMetadata.isGenerated metadata)
        then
          let '(type, metadata) :=
            inferTypeFromTsType (propertyTypeText property) metadata in
          ColumnMetadata.set_type type metadata
        else metadata in
      let metadata :=
        match firstDocComment (propertyJsDocs property) with
        | Some comment => ColumnMetadata.set_comment comment metadata
        | None => metadata
        end in
      (Some metadata, enumsMap)
  end.

(** [extractColumns]: the columns of the class, and the map of enums as the
    loop leaves it. *)
Definition extractColumns (classDecl : ClassDeclaration) (enumsMap : EnumsMap)
  : list ColumnMetadata.t * EnumsMap :=
  fold_left
    (fun state property =>
       let '(columns, enumsMap) := state in
       match extractColumnFromProperty property enumsMap with
       | (Some column, enumsMap) => ((columns ++ [column])%list, enumsMap)
       | (None, enumsMap) => (columns, enumsMap)
       end)
    (classProperties classDecl) ([], enumsMap).

End ColumnExtractor.

(* ================================================================== *)
(** ** MetadataExtractor *)
(* ================================================================== *)

Module MetadataExtractor.

(** The instance.  Its three extractors have no fields; the one field with
    a state is [enumsMap], created empty by the constructor. *)
Record t : Type := mk { enumsMap : ColumnExtractor.EnumsMap }.

Definition new : t := mk Js.Map.empty.

(** [resolveRelationships] (second pass). *)
Definition classToTable (entities : list EntityMetadata.t)
  : Js.Map.t string :=
  fold_left
    (fun m e => Js.Map.set m (EntityMetadata.name e) (EntityMetadata.tableName e))
    entities Js.Map.empty.

Definition resolveRelation (classToTable : Js.Map.t string)
  (relation : RelationMetadata.t) : RelationMetadata.t :=
  match Js.Map.get classToTable (RelationMetadata.target relation) with
  | Some targetTable =>
      if Js.truthyString targetTable
      then RelationMetadata.set_target targetTable relation
      else relation
  | None => relation
  end.

Definition resolveRelationships (entities : list EntityMetadata.t)
  : list EntityMetadata.t :=
  let classToTable := classToTable entities in
  map
    (fun entity =>
       EntityMetadata.set_relations
         (map (resolveRelation classToTable) (EntityMetadata.relations entity))
         entity)
    entities.

(** [extractJoinTables]: both loops have an empty body. *)
Definition extractJoinTables (entities : list EntityMetadata.t)
  : list JoinTableEntity.t := [].

Section KindNumbers.

(** This class compares [getKind()] with the numerals 40, 206 and 296
    where the other extractors use the names of the SyntaxKind
    enumeration.  The enumeration belongs to the typescript package, which
    is not part of the repository: its numbering is a parameter.  Where
    the numbering gives 206 to a node that is no object literal, or 296 to
    a member that is no assignment, the method that the class calls next
    is missing and the call raises. *)
Variable kindNumber : SyntaxKind -> nat.

Definition hasKindNumber (n : nat) (e : Expression) : bool :=
  Nat.eqb (kindNumber (getKind e)) n.

(** [asKind(206)] gives the node back when its kind has that number;
    [getProperties()] on it is a method of an object literal only. *)
Definition getProperties206 (e : Expression) : Outcome (list ObjectMember) :=
  match e with
  | ObjectLit _ _ properties => Returns properties
  | _ => TypeError
  end.

(** One turn of the loops over the properties.  A member numbered 296 is
    asked for its name and its initializer: a property assignment with an
    initializer is acted on, one without and a shorthand assignment are
    passed over, any other member raises. *)
Definition readMember296 {A} (step : A -> string * Expression -> A)
  (acc : Outcome A) (prop : ObjectMember) : Outcome A :=
  match acc with
  | TypeError => TypeError
  | Returns a =>
      if Nat.eqb (kindNumber (memberKind prop)) 296 then
        match prop with
        | PropAssign name (Some init) => Returns (step a (name, init))
        | PropAssign _ None => Returns a
        | ShorthandAssign _ => Returns a
        | OtherMember => TypeError
        end
      else Returns a
  end.

Definition readProperties296 {A} (step : A -> string * Expression -> A)
  (props : list ObjectMember) (init : A) : Outcome A :=
  fold_left (readMember296 step) props (Returns init).

Definition className (classDecl : ClassDeclaration) : string :=
  Js.orElse (classGetName classDecl) "Unknown".

Definition entityOption (acc : string * option string)
  (prop : string * Expression) : string * option string :=
  let text := Js.stripQuotes (getText (snd prop)) in
  if String.eqb (fst prop) "name" then (text, snd acc)
  else if String.eqb (fst prop) "schema" then (fst acc, Some text)
  else acc.

(** [extractEntityDecorator]: table name, schema and note. *)
Definition extractEntityDecorator (classDecl : ClassDeclaration)
  : Outcome (string * option string * option string) :=
  let tableName := toSnakeCase (className classDecl) in
  let named : Outcome (string * option string) :=
    match findDecorator ["Entity"] (classDecorators classDecl) with
    | Some entityDecorator =>
        match decoratorArguments entityDecorator with
        | firstArg :: _ =>
            if hasKindNumber 40 firstArg
            then Returns (Js.stripQuotes (getText firstArg), None)
            else if hasKindNumber 206 firstArg
            then
              match getProperties206 firstArg with
              | Returns props =>
                  readProperties296 entityOption props (tableName, None)
              | TypeError => TypeError
              end
            else Returns (tableName, None)
        | [] => Returns (tableName, None)
        end
    | None => Returns (tableName, None)
    end in
  match named with
  | Returns (tableName, schema) =>
      Returns (tableName, schema, firstDocComment (classJsDocs classDecl))
  | TypeError => TypeError
  end.

Definition inheritanceOption (acc : string * option string)
  (prop : string * Expression) : string * option string :=
  let text := Js.stripQuotes (getText (snd prop)) in
  if String.eqb (fst prop) "pattern" then (text, snd acc)
  else if String.eqb (fst prop) "column" then (fst acc, Some text)
  else acc.

Definition extractInheritance (classDecl : ClassDeclaration)
  : Outcome (option InheritanceMetadata.t) :=
  match findDecorator ["TableInheritance"] (classDecorators classDecl) with
  | None => Returns None
  | Some inheritanceDecorator =>
      match decoratorArguments inheritanceDecorator with
      | [] => Returns None
      | arg0 :: _ =>
          if hasKindNumber 206 arg0 then
            match getProperties206 arg0 with
            | TypeError => TypeError
            | Returns props =>
                match readProperties296 inheritanceOption props ("STI", None)
                with
                | TypeError => TypeError
                | Returns (pattern, discriminatorColumn) =>
                    let discriminatorValue :=
                      match findDecorator ["ChildEntity"]
                              (classDecorators classDecl)
                      with
                      | Some childDecorator =>
                          match decoratorArguments childDecorator with
                          | childArg :: _ =>
                              Some (Js.stripQuotes (getText childArg))
                          | [] => None
                          end
                      | None => None
                      end in
                    Returns
                      (Some (InheritanceMetadata.mk pattern
                               discriminatorColumn discriminatorValue))
                end
            end
          else Returns None
      end
  end.

(** [extractEntityMetadata] reads and extends [this.enumsMap] through the
    column extractor; what the column extractor has added stays when the
    inheritance, read last, raises. *)
Definition extractEntityMetadata
  : Method t ClassDeclaration (Outcome EntityMetadata.t) :=
  fun self classDecl =>
    match extractEntityDecorator classDecl with
    | TypeError => (TypeError, self)
    | Returns (tableName, schema, note) =>
        let '(columns, enumsMap) :=
          ColumnExtractor.extractColumns classDecl (enumsMap self) in
        let relations := RelationExtractor.extractRelations classDecl in
        let indexes := ConstraintExtractor.extractIndexes classDecl in
        let uniques := ConstraintExtractor.extractUniques classDecl in
        let checks := ConstraintExtractor.extractChecks classDecl in
        match extractInheritance classDecl with
        | TypeError => (TypeError, mk enumsMap)
        | Returns inheritance =>
            (Returns
               (EntityMetadata.mk (className classDecl) tableName schema
                  columns relations indexes uniques checks note inheritance),
             mk enumsMap)
        end
    end.

(** The first pass of [extractMetadata]: the loop that pushes the
    metadata of each class, left at the first class that raises. *)
Fixpoint firstPass (self : t) (entities : list ClassDeclaration)
  (entityMetadata : list EntityMetadata.t)
  : Outcome (list EntityMetadata.t) * t :=
  match entities with
  | [] => (Returns entityMetadata, self)
  | entity :: entities' =>
      match extractEntityMetadata self entity with
      | (Returns metadata, self) =>
          firstPass self entities' (entityMetadata ++ [metadata])%list
      | (TypeError, self) => (TypeError, self)
      end
  end.

Definition extractMetadata
  : Method t (list ClassDeclaration) (Outcome DBMLSchema.t) :=
  fun self entities =>
    match firstPass self entities [] with
    | (Returns entityMetadata, self) =>
        let entityMetadata := resolveRelationships entityMetadata in
        (Returns
           (DBMLSchema.mk entityMetadata
              (Js.Map.values (enumsMap self))
              (extractJoinTables entityMetadata)),
         self)
    | (TypeError, self) => (TypeError, self)
    end.

End KindNumbers.

End MetadataExtractor.

(* ================================================================== *)
(** ** EntityParser, after the files are read *)
(* ================================================================== *)

Module EntityParser.

(** A source file, as far as the parser looks at it: its classes. *)
Definition SourceFile : Type := list ClassDeclaration.

Definition isEntityClass (classDecl : ClassDeclaration) : bool :=
  existsb (fun decorator => String.eqb (decoratorName decorator) "Entity")
    (classDecorators classDecl).

Definition extractEntitiesFromFile (sourceFile : SourceFile)
  : list ClassDeclaration :=
  filter isEntityClass sourceFile.

(** The loop of [parseEntities] over the source files it has added. *)
Definition entitiesOfFiles (sourceFiles : list SourceFile)
  : list ClassDeclaration :=
  flat_map extractEntitiesFromFile sourceFiles.

End EntityParser.

(* ================================================================== *)
(** ** The public API (index.ts) *)
(* ================================================================== *)

(** [generateSchema], from the parsed entities on: a new extractor for
    every call.  The parsing of the input files, before it, is outside
    the model; the numbering of the node kinds is the parameter of
    MetadataExtractor. *)
Definition generateSchema (kindNumber : SyntaxKind -> nat)
  (parsed : list ClassDeclaration) : Outcome DBMLSchema.t :=
  fst (MetadataExtractor.extractMetadata kindNumber MetadataExtractor.new
         parsed).

(** [generateDBML], from the parsed entities on and without the writing of
    the output file: a new extractor and a new generator for every call. *)
Definition generateDBML (ambient : Js.ObjectPrototype)
  (kindNumber : SyntaxKind -> nat) (parsed : list ClassDeclaration)
  (options : option GeneratorOptions.t) : Outcome string :=
  match
    fst (MetadataExtractor.extractMetadata kindNumber MetadataExtractor.new
           parsed)
  with
  | Returns schema =>
      Returns
        (fst (DBMLGenerator.generate ambient (DBMLGenerator.new options)
                schema))
  | TypeError => TypeError
  end.


(* ================================================================== *)
(** ** Vocabulary of the properties *)
(* ================================================================== *)

(** The settings pushed before the default clauses are among four fixed
    words. *)
Definition keySettings (column : ColumnMetadata.t) : list string :=
  List.concat
    [ if ColumnMetadata.isPrimary column then
        if ColumnMetadata.isGenerated column
           && match ColumnMetadata.generationStrategy column with
              | Some increment => true
              | _ => false
              end
        then ["pk"; "increment"]
        else ["pk"]
      else [];
      if ColumnMetadata.isUnique column
         && negb (ColumnMetadata.isPrimary column)
      then ["unique"] else [];
      if negb (ColumnMetadata.isNullable column) then ["not null"] else [] ].

(** The settings pushed after the default clauses: the note. *)
Definition noteSettings (self : TableGenerator.t)
  (column : ColumnMetadata.t) : list string :=
  if RequiredOptions.includeNotes (TableGenerator.options self)
     && Js.truthyOptString (ColumnMetadata.comment column)
  then match ColumnMetadata.comment column with
       | Some c =>
           ["note: " ++ TableGenerator.quote1 (TableGenerator.escapeNote c)]
       | None => []
       end
  else [].

(** A setting is a default clause. *)
Definition isDefaultClause (s : string) : bool := String.prefix "default: " s.






(** The names of the options a column decorator is given: the property
    assignments of its object-literal arguments. *)
Definition optionNames (args : list Expression) : list string :=
  flat_map
    (fun arg =>
       if isKind ObjectLiteralExpression arg
       then map fst (assignments (getProperties arg)) else [])
    args.

(** The fields no option assigns: the primary and generated flags, the
    strategy, and the four special-role flags. *)
Definition roleFields (m : ColumnMetadata.t) :=
  (ColumnMetadata.isPrimary m, ColumnMetadata.isGenerated m,
   ColumnMetadata.generationStrategy m,
   (ColumnMetadata.isCreateDate m, ColumnMetadata.isUpdateDate m,
    ColumnMetadata.isDeleteDate m, ColumnMetadata.isVersion m)).

(** The four special-role flags of a column, as conditions. *)
Definition specialRoleFlags (c : ColumnMetadata.t) : list bool :=
  map Js.truthyOptBool
    [ ColumnMetadata.isCreateDate c; ColumnMetadata.isUpdateDate c;
      ColumnMetadata.isDeleteDate c; ColumnMetadata.isVersion c ].

(** The column has a date role, the version role. *)
Definition dateRole (c : ColumnMetadata.t) : bool :=
  Js.truthyOptBool (ColumnMetadata.isCreateDate c)
  || Js.truthyOptBool (ColumnMetadata.isUpdateDate c)
  || Js.truthyOptBool (ColumnMetadata.isDeleteDate c).

Definition versionRole (c : ColumnMetadata.t) : bool :=
  Js.truthyOptBool (ColumnMetadata.isVersion c).

(** The special-role flags a decorator name stands for. *)
Definition flagsOfName (decoratorName : string) :=
  (Some (String.eqb decoratorName "CreateDateColumn"),
   Some (String.eqb decoratorName "UpdateDateColumn"),
   Some (String.eqb decoratorName "DeleteDateColumn"),
   Some (String.eqb decoratorName "VersionColumn")).

(** The flags of an index: everything but its name and its columns. *)
Definition indexFlags (m : IndexMetadata.t) :=
  (IndexMetadata.isUnique m, IndexMetadata.isSpatial m,
   IndexMetadata.isFulltext m, IndexMetadata.where_ m, IndexMetadata.type m).

(** The options literal that may follow the columns: the argument at the
    index where the columns ended, when it is an object literal. *)
Definition trailingOptions (rest : list Expression) : option Expression :=
  match rest with
  | o :: _ => if isKind ObjectLiteralExpression o then Some o else None
  | [] => None
  end.

(** The flags an options literal gives to an index that starts without
    any. *)
Definition flagsOf (options : option Expression) :=
  match options with
  | Some o =>
      indexFlags
        (ConstraintExtractor.extractIndexOptions o
           ConstraintExtractor.emptyIndex)
  | None => indexFlags ConstraintExtractor.emptyIndex
  end.

(** The member of an options literal is not an entry named columns. *)
Definition notColumns (m : ObjectMember) : bool :=
  match m with
  | PropAssign n _ => negb (String.eqb n "columns")
  | _ => true
  end.

(** The loop that fills the lookup, from any map on. *)
Definition fillTable (m : Js.Map.t string) (entities : list EntityMetadata.t)
  : Js.Map.t string :=
  fold_left
    (fun m e =>
       Js.Map.set m (EntityMetadata.name e) (EntityMetadata.tableName e))
    entities m.

(** The enum a symbol declares: its first declaration is an enum
    declaration, named in snake case, with the values of its members. *)
Definition declaresEnum (sym : TsSymbol) (e : EnumMetadata) : Prop :=
  exists members rest,
    symbolDeclarations sym = EnumDecl members :: rest
    /\ e = mkEnum (toSnakeCase (symbolName sym))
             (map ColumnExtractor.memberValue members).

(** An options entry refers to an enum: it is named enum and the type of
    its initializer has a symbol that declares the enum. *)
Definition entryReferences (prop : string * Expression) (e : EnumMetadata)
  : Prop :=
  fst prop = "enum"
  /\ exists sym, getTypeSymbol (snd prop) = Some sym /\ declaresEnum sym e.

Definition argumentReferences (arg : Expression) (e : EnumMetadata) : Prop :=
  isKind ObjectLiteralExpression arg = true
  /\ exists prop,
       In prop (assignments (getProperties arg)) /\ entryReferences prop e.

Definition propertyReferences (property : PropertyDeclaration)
  (e : EnumMetadata) : Prop :=
  exists d arg,
    findDecorator ColumnExtractor.columnDecorators
      (propertyDecorators property) = Some d
    /\ In arg (decoratorArguments d)
    /\ argumentReferences arg e.

Definition classReferences (classDecl : ClassDeclaration) (e : EnumMetadata)
  : Prop :=
  exists property,
    In property (classProperties classDecl) /\ propertyReferences property e.

(** An enum is referenced by the entities of an invocation when the
    options of a column decorator of one of their properties name it. *)
Definition referencedBy (entities : list ClassDeclaration) (e : EnumMetadata)
  : Prop :=
  exists classDecl, In classDecl entities /\ classReferences classDecl e.

(* ================================================================== *)
(** ** Sample declarations and metadata *)
(* ================================================================== *)

(** A create-date column with an explicit default. *)
Definition createdAtWithDefault : ColumnMetadata.t :=
  ColumnMetadata.mk "createdAt" "created_at" "timestamp" false false None
    false false None None None (Some "CURRENT_TIMESTAMP") None None None
    (Some true) (Some false) (Some false) (Some false) None.

(** An enum-typed array column and a varchar array column of length 64. *)
Definition enumArrayColumn : ColumnMetadata.t :=
  ColumnMetadata.mk "roles" "roles" "user_role" false false None
    true false None None None None (Some "user_role")
    (Some ["admin"; "user"]) (Some true)
    (Some false) (Some false) (Some false) (Some false) None.

Definition tagsColumn : ColumnMetadata.t :=
  ColumnMetadata.mk "tags" "tags" "varchar" false false None
    true false (Some (Js.Num 64)) None None None None None (Some true)
    (Some false) (Some false) (Some false) (Some false) None.

(** A create-date property whose options set the type and nullable; an
    update-date property, declared as a string, whose options set the
    column name only, and the column extracted from it. *)
Definition createdAtTz : PropertyDeclaration :=
  mkProperty "createdAt"
    [ mkDecorator "CreateDateColumn"
        [ ObjectLit "{ type: 'timestamptz', nullable: true }" None
            [ PropAssign "type" (Some (StringLit "'timestamptz'" None));
              PropAssign "nullable" (Some (OtherExpr "true" None)) ] ] ]
    "Date" [].

Definition updatedAtPlain : PropertyDeclaration :=
  mkProperty "updatedAt"
    [ mkDecorator "UpdateDateColumn"
        [ ObjectLit "{ name: 'modified' }" None
            [ PropAssign "name" (Some (StringLit "'modified'" None)) ] ] ]
    "string" [].

Definition updatedAtColumn : ColumnMetadata.t :=
  ColumnMetadata.mk "updatedAt" "modified" "timestamp" false false None
    false false None None None None None None None
    (Some false) (Some true) (Some false) (Some false) None.

(** A primary generated property with an options literal as its only
    argument. *)
Definition idWithOptionsOnly : PropertyDeclaration :=
  mkProperty "id"
    [ mkDecorator "PrimaryGeneratedColumn"
        [ ObjectLit "{ name: 'user_id' }" None
            [ PropAssign "name" (Some (StringLit "'user_id'" None)) ] ] ]
    "number" [].

(** Two entities in a one-to-one relationship: User.profile carries the
    JoinColumn decorator, Profile.user is the mirror property. *)
Definition userWithProfile : ClassDeclaration :=
  mkClass (Some "User") [mkDecorator "Entity" []]
    [ mkProperty "id" [mkDecorator "PrimaryGeneratedColumn" []] "number" [];
      mkProperty "profile"
        [ mkDecorator "OneToOne"
            [ ArrowFn "() => Profile" None "Profile";
              ArrowFn "(p) => p.user" None "p.user" ];
          mkDecorator "JoinColumn" [] ]
        "Profile" [] ]
    [].

Definition profileOfUser : ClassDeclaration :=
  mkClass (Some "Profile") [mkDecorator "Entity" []]
    [ mkProperty "id" [mkDecorator "PrimaryGeneratedColumn" []] "number" [];
      mkProperty "user"
        [ mkDecorator "OneToOne"
            [ ArrowFn "() => User" None "User";
              ArrowFn "(u) => u.profile" None "u.profile" ] ]
        "User" [] ]
    [].

(** An index given in the options-only shape, with a columns entry, and
    in the columns-first shape. *)
Definition optionsOnlyIndex : Decorator :=
  mkDecorator "Index"
    [ ObjectLit "{ columns: ['a'], unique: true }" None
        [ PropAssign "columns"
            (Some (ArrayLit "['a']" None [StringLit "'a'" None]));
          PropAssign "unique" (Some (OtherExpr "true" None)) ] ].

Definition columnsFirstIndex : Decorator :=
  mkDecorator "Index"
    [ ArrayLit "['a']" None [StringLit "'a'" None];
      ObjectLit "{ unique: true }" None
        [ PropAssign "unique" (Some (OtherExpr "true" None)) ] ].

(** An entity with relations only, and a many-to-one relation with the
    default join column. *)
Definition plainEntity (name tableName : string)
  (relations : list RelationMetadata.t) : EntityMetadata.t :=
  EntityMetadata.mk name tableName None [] relations [] [] [] None None.

Definition manyToOne (propertyName target : string) : RelationMetadata.t :=
  RelationMetadata.mk propertyName many_to_one target None
    (Some (JoinColumnMetadata.mk (Some (toSnakeCase propertyName ++ "_id"))
             (Some "id")))
    None None None.

(** A batch in which Post.author targets a class that is not in it. *)
Definition postEntity : EntityMetadata.t := plainEntity "Post" "post" [].
Definition authorRelation : RelationMetadata.t := manyToOne "author" "User".
Definition tagEntity : EntityMetadata.t :=
  plainEntity "Tag" "tag" [manyToOne "post" "Post"].
Definition postBatch : list EntityMetadata.t :=
  [EntityMetadata.set_relations [authorRelation] postEntity; tagEntity].

(** The entity of a class named by a single underscore, whose table name
    [toSnakeCase] makes empty, and two entities of one class identifier. *)
Definition underscoreEntity : EntityMetadata.t :=
  plainEntity "_" (toSnakeCase "_") [manyToOne "back" "A"].
Definition firstB : EntityMetadata.t :=
  plainEntity "B" "b_first" [manyToOne "back" "A"].
Definition secondB : EntityMetadata.t := plainEntity "B" "b_second" [].

(** Two entities that refer to each other. *)
Definition authorEntity : EntityMetadata.t :=
  plainEntity "Author" "authors" [manyToOne "favourite" "Book"].
Definition bookEntity : EntityMetadata.t :=
  plainEntity "Book" "books" [manyToOne "writer" "Author"].

(** The numbering the comments next to the numerals of MetadataExtractor
    describe; the kinds the class never names get 0. *)
Definition commentedKindNumber (k : SyntaxKind) : nat :=
  match k with
  | StringLiteral => 40
  | ObjectLiteralExpression => 206
  | PropertyAssignment => 296
  | _ => 0
  end.

(** An entity with an enum-typed column, the symbol and the metadata of
    its enum, and an entity without enums. *)
Definition userRoleSymbol : TsSymbol :=
  mkSymbol "UserRole"
    [ EnumDecl [ mkEnumMember "ADMIN" (Some "'admin'");
                 mkEnumMember "USER" (Some "'user'") ] ].

Definition userRoleEnum : EnumMetadata := mkEnum "user_role" ["admin"; "user"].

Definition userWithRole : ClassDeclaration :=
  mkClass (Some "User") [mkDecorator "Entity" []]
    [ mkProperty "role"
        [ mkDecorator "Column"
            [ ObjectLit "{ type: 'enum', enum: UserRole }" None
                [ PropAssign "type" (Some (StringLit "'enum'" None));
                  PropAssign "enum"
                    (Some (OtherExpr "UserRole" (Some userRoleSymbol))) ] ] ]
        "UserRole" [] ]
    [].

Definition tagClass : ClassDeclaration :=
  mkClass (Some "Tag") [mkDecorator "Entity" []]
    [ mkProperty "id" [mkDecorator "PrimaryGeneratedColumn" []] "number" [] ]
    [].


(** Options that set the project name only. *)
Definition shopOptions : GeneratorOptions.t :=
  GeneratorOptions.mk None None None None None (Some "Shop").

(** ** Vocabulary of the further properties *)

(** The identifier has a character other than a letter, a digit or an
    underscore. *)
Definition needsQuotes (identifier : string) : bool :=
  Js.existsChar (fun c => negb (Js.isWordChar c)) identifier.

(** The schema an entity is grouped under, and the table names of the
    entities grouped under a schema. *)
Definition schemaOf (entity : EntityMetadata.t) : string :=
  Js.orElse (EntityMetadata.schema entity) "public".

Definition tablesOfSchema (schema : string) (entities : list EntityMetadata.t)
  : list string :=
  map EntityMetadata.tableName
    (filter (fun e => String.eqb (schemaOf e) schema) entities).

(** One turn of the loop that fills [schemaGroups]. *)
Definition addToGroup (groups : Js.Map.t (list string))
  (entity : EntityMetadata.t) : Js.Map.t (list string) :=
  let schema := Js.orElse (EntityMetadata.schema entity) "public" in
  let groups :=
    if Js.Map.has groups schema then groups
    else Js.Map.set groups schema [] in
  match Js.Map.get groups schema with
  | Some tables =>
      Js.Map.set groups schema
        (tables ++ [EntityMetadata.tableName entity])%list
  | None => groups
  end.

(** The tables of a group that may not exist yet. *)
Definition groupOr (o : option (list string)) : list string :=
  match o with Some l => l | None => [] end.

(** The relations that give a reference: every many-to-one, the
    one-to-one with join column metadata, the many-to-many with join
    table metadata; never a one-to-many. *)
Definition emitsReference (relation : RelationMetadata.t) : bool :=
  match RelationMetadata.type relation with
  | many_to_one => true
  | one_to_many => false
  | one_to_one => Js.isDefined (RelationMetadata.joinColumn relation)
  | many_to_many => Js.isDefined (RelationMetadata.joinTable relation)
  end.

(** The property carries a column decorator. *)
Definition isColumnProperty (property : PropertyDeclaration) : bool :=
  Js.isDefined
    (findDecorator ColumnExtractor.columnDecorators
       (propertyDecorators property)).

(** The part of [extractColumnFromProperty] after the options. *)
Definition finishColumn (property : PropertyDeclaration)
  (metadata : ColumnMetadata.t) : ColumnMetadata.t :=
  let metadata :=
    if String.eqb (ColumnMetadata.type metadata) "varchar"
       && negb (ColumnMetadata.isGenerated metadata)
    then
      let '(type, metadata) :=
        ColumnExtractor.inferTypeFromTsType (propertyTypeText property)
          metadata in
      ColumnMetadata.set_type type metadata
    else metadata in
  match firstDocComment (propertyJsDocs property) with
  | Some comment => ColumnMetadata.set_comment comment metadata
  | None => metadata
  end.

(** A column with a comment option and a JSDoc comment. *)
Definition documentedTitle : PropertyDeclaration :=
  mkProperty "title"
    [ mkDecorator "Column"
        [ ObjectLit "{ comment: 'from the option' }" None
            [ PropAssign "comment"
                (Some (StringLit "'from the option'" None)) ] ] ]
    "string" [Some "from the doc block"].

(** A class with a unique constraint that names no column and one that
    names one. *)
Definition emptyUniqueClass : ClassDeclaration :=
  mkClass (Some "Account")
    [ mkDecorator "Entity" [];
      mkDecorator "Unique" [StringLit "'uq_email'" None];
      mkDecorator "Unique"
        [StringLit "'uq_login'" None;
         ArrayLit "['login']" None [StringLit "'login'" None]] ]
    [] [].

(** The type text has no white space and no bar. *)
Definition plainTypeName (tsType : string) : bool :=
  negb (Js.existsChar (fun c => Js.isSpace c || Ascii.eqb c "|") tsType).

(** The arguments of the Entity decorator of a class, none when the class
    has no such decorator. *)
Definition entityArguments (classDecl : ClassDeclaration) : list Expression :=
  match findDecorator ["Entity"] (classDecorators classDecl) with
  | Some d => decoratorArguments d
  | None => []
  end.

(** A relation after the second pass is the extracted one but for its
    target. *)
Definition resolvedFrom (extracted resolved : RelationMetadata.t) : Prop :=
  resolved
  = RelationMetadata.set_target (RelationMetadata.target resolved) extracted.

(** An entity is the metadata of a class: its name is the class name, or
    Unknown, its note the first JSDoc comment, its indexes, uniques and
    checks what the extractors give for the class, its relations those
    the relation extractor gives, one for one and after the second pass
    but for their targets, and its table name the snake case of the name
    when the Entity decorator has no argument. *)
Definition entityOfClass (secondPass : bool) (classDecl : ClassDeclaration)
  (entity : EntityMetadata.t) : Prop :=
  EntityMetadata.name entity = Js.orElse (classGetName classDecl) "Unknown"
  /\ EntityMetadata.note entity = firstDocComment (classJsDocs classDecl)
  /\ map ColumnMetadata.propertyName (EntityMetadata.columns entity)
     = map propertyGetName
         (filter isColumnProperty (classProperties classDecl))
  /\ EntityMetadata.indexes entity
     = ConstraintExtractor.extractIndexes classDecl
  /\ EntityMetadata.uniques entity
     = ConstraintExtractor.extractUniques classDecl
  /\ EntityMetadata.checks entity = ConstraintExtractor.extractChecks classDecl
  /\ (if secondPass
      then Forall2 resolvedFrom
             (RelationExtractor.extractRelations classDecl)
             (EntityMetadata.relations entity)
      else EntityMetadata.relations entity
           = RelationExtractor.extractRelations classDecl)
  /\ (entityArguments classDecl = [] ->
      EntityMetadata.tableName entity
      = toSnakeCase (Js.orElse (classGetName classDecl) "Unknown")).

(** A member on which the loops of MetadataExtractor raise: its kind has
    the number 296 and it is a spread, a method or an accessor. *)
Definition raisingMember (kindNumber : SyntaxKind -> nat) (m : ObjectMember)
  : bool :=
  Nat.eqb (kindNumber (memberKind m)) 296
  && match m with
     | OtherMember => true
     | _ => false
     end.

(** An argument on which MetadataExtractor raises once it reads its
    properties: its kind has the number 206 and it is no object literal,
    or an object literal with a member that raises. *)
Definition raisingArgument (kindNumber : SyntaxKind -> nat) (e : Expression)
  : bool :=
  Nat.eqb (kindNumber (getKind e)) 206
  && match e with
     | ObjectLit _ _ properties =>
         existsb (raisingMember kindNumber) properties
     | _ => true
     end.

(** The first argument of the first decorator of a class with one of the
    names. *)
Definition firstArgument (names : list string) (classDecl : ClassDeclaration)
  : option Expression :=
  match findDecorator names (classDecorators classDecl) with
  | Some d =>
      match decoratorArguments d with
      | a :: _ => Some a
      | [] => None
      end
  | None => None
  end.

(** A class on which the first pass raises: the first argument of its
    Entity decorator is not numbered 40 and raises, or the first argument
    of its TableInheritance decorator raises. *)
Definition raises (kindNumber : SyntaxKind -> nat)
  (classDecl : ClassDeclaration) : bool :=
  match firstArgument ["Entity"] classDecl with
  | Some firstArg =>
      negb (Nat.eqb (kindNumber (getKind firstArg)) 40)
      && raisingArgument kindNumber firstArg
  | None => false
  end
  || match firstArgument ["TableInheritance"] classDecl with
     | Some arg0 => raisingArgument kindNumber arg0
     | None => false
     end.

(** A numbering under which array literals have the number 206, and a
    class whose Entity decorator is given an array. *)
Definition arrayKindNumber (k : SyntaxKind) : nat :=
  match k with
  | ArrayLiteralExpression => 206
  | PropertyAssignment => 296
  | _ => 0
  end.

Definition arrayEntity : ClassDeclaration :=
  mkClass (Some "Odd")
    [mkDecorator "Entity" [ArrayLit "['odd']" None [StringLit "'odd'" None]]]
    [] [].

(** The registry holds one entry per symbol name, and the enum of an
    entry is named by the snake case of its key. *)
Definition registryOk (m : ColumnExtractor.EnumsMap) : Prop :=
  NoDup (Js.Map.keys m)
  /\ forall k e, In (k, e) m -> enumMetaName e = toSnakeCase k.

(** A string has a character that is not white space. *)
Definition visible (s : string) : bool :=
  Js.existsChar (fun c => negb (Js.isSpace c)) s.

(** A column without its comment. *)
Definition withoutComment (c : ColumnMetadata.t) : ColumnMetadata.t :=
  ColumnMetadata.mk (ColumnMetadata.propertyName c)
    (ColumnMetadata.columnName c) (ColumnMetadata.type c)
    (ColumnMetadata.isPrimary c) (ColumnMetadata.isGenerated c)
    (ColumnMetadata.generationStrategy c) (ColumnMetadata.isNullable c)
    (ColumnMetadata.isUnique c) (ColumnMetadata.length c)
    (ColumnMetadata.precision c) (ColumnMetadata.scale c)
    (ColumnMetadata.default c) (ColumnMetadata.enumName c)
    (ColumnMetadata.enumValues c) (ColumnMetadata.isArray c)
    (ColumnMetadata.isCreateDate c) (ColumnMetadata.isUpdateDate c)
    (ColumnMetadata.isDeleteDate c) (ColumnMetadata.isVersion c) None.

(** An entity without its note and the comments of its columns; an
    entity without its schema. *)
Definition withoutNotes (e : EntityMetadata.t) : EntityMetadata.t :=
  EntityMetadata.mk (EntityMetadata.name e) (EntityMetadata.tableName e)
    (EntityMetadata.schema e) (map withoutComment (EntityMetadata.columns e))
    (EntityMetadata.relations e) (EntityMetadata.indexes e)
    (EntityMetadata.uniques e) (EntityMetadata.checks e) None
    (EntityMetadata.inheritance e).

Definition withoutSchema (e : EntityMetadata.t) : EntityMetadata.t :=
  EntityMetadata.mk (EntityMetadata.name e) (EntityMetadata.tableName e)
    None (EntityMetadata.columns e) (EntityMetadata.relations e)
    (EntityMetadata.indexes e) (EntityMetadata.uniques e)
    (EntityMetadata.checks e) (EntityMetadata.note e)
    (EntityMetadata.inheritance e).

(** The schema with a function applied to its entities. *)
Definition mapEntities (f : EntityMetadata.t -> EntityMetadata.t)
  (schema : DBMLSchema.t) : DBMLSchema.t :=
  DBMLSchema.mk (map f (DBMLSchema.entities schema))
    (DBMLSchema.enums schema) (DBMLSchema.joinTables schema).

(** Options that switch schemas and notes off, and a schema with a
    schema name, a note and a column comment. *)
Definition quietOptions : GeneratorOptions.t :=
  GeneratorOptions.mk (Some false) None (Some false) None None None.

Definition notedSchema : DBMLSchema.t :=
  DBMLSchema.mk
    [ EntityMetadata.mk "Order" "orders" (Some "sales")
        [ColumnMetadata.set_comment "the total" tagsColumn] [] [] [] []
        (Some "all orders") None ]
    [] [].

(** Every single quote of the text stands directly after a backslash;
    [afterBackslash] tells whether the character before the text is
    one. *)
Fixpoint quotesGuarded (afterBackslash : bool) (s : string) : bool :=
  match s with
  | EmptyString => true
  | String c s' =>
      (negb (Ascii.eqb c Js.squote) || afterBackslash)
      && quotesGuarded (Ascii.eqb c Js.backslash) s'
  end.

(** The property carries a relation decorator. *)
Definition isRelationProperty (property : PropertyDeclaration) : bool :=
  Js.isDefined
    (findDecorator RelationExtractor.relationDecorators
       (propertyDecorators property)).

(** The text has a single or a double quote. *)
Definition hasQuote (s : string) : bool :=
  Js.existsChar (fun c => Ascii.eqb c Js.squote || Ascii.eqb c Js.dquote) s.

(** A column with a default written as a string literal that has an
    apostrophe inside. *)
Definition surnameColumn : PropertyDeclaration :=
  mkProperty "surname"
    [ mkDecorator "Column"
        [ ObjectLit "{ default: 'O\'Brien' }" None
            [ PropAssign "default" (Some (StringLit "'O\'Brien'" None)) ] ] ]
    "string" [].

(** An entity reduced to what the generators read: no class name, no
    unique and check constraints, no inheritance. *)
Definition serializedPart (e : EntityMetadata.t) : EntityMetadata.t :=
  EntityMetadata.mk "" (EntityMetadata.tableName e) (EntityMetadata.schema e)
    (EntityMetadata.columns e) (EntityMetadata.relations e)
    (EntityMetadata.indexes e) [] [] (EntityMetadata.note e) None.

(* ================================================================== *)
(** * Properties *)
(* ================================================================== *)

(** ** The primitives and the extractors on sample inputs *)

Example parseInt_decimal : Js.parseInt "255" = Js.Num 255.
Proof. reflexivity. Qed.
Example parseInt_hex : Js.parseInt "0x1F" = Js.Num 31.
Proof. reflexivity. Qed.
Example parseInt_text : Js.parseInt "abc" = Js.NaN.
Proof. reflexivity. Qed.
Example numberToString_255 : Js.numberToString (Js.Num 255) = "255".
Proof. reflexivity. Qed.
Example trim_both : Js.trim "  a b  " = "a b".
Proof. reflexivity. Qed.

Example toSnakeCase_camel : toSnakeCase "createdAt" = "created_at".
Proof. reflexivity. Qed.
Example toSnakeCase_pascal : toSnakeCase "UserProfile" = "user_profile".
Proof. reflexivity. Qed.
Example toSnakeCase_underscore : toSnakeCase "_" = "".
Proof. reflexivity. Qed.

Example parseInt_rounded :
  Js.parseInt "9007199254740993" = Js.Num 9007199254740992.
Proof. vm_compute. reflexivity. Qed.
Example numberToString_rounded :
  map (fun text => Js.numberToString (Js.parseInt text))
    [ "9007199254740993"; "18446744073709551616"; "999999999999999999999";
      "1180591620717411303424" ]
  = [ "9007199254740992"; "18446744073709552000"; "1e+21";
      "1.1805916207174113e+21" ].
Proof. vm_compute. reflexivity. Qed.

Example getBaseType_number (ambient : Js.ObjectPrototype) :
  TypeMapper.getBaseType ambient "Number" = Js.Str "number".
Proof. reflexivity. Qed.
Example getBaseType_unknown :
  TypeMapper.getBaseType Js.objectPrototype "Citext" = Js.Str "citext".
Proof. reflexivity. Qed.
Example getBaseType_inherited :
  map (TypeMapper.getBaseType Js.objectPrototype)
    ["Constructor"; "__proto__"; "toString"]
  = [ Js.nativeFunction "Object"; Js.NotString true "[object Object]";
      Js.Str "tostring" ].
Proof. reflexivity. Qed.

Example inferType_nullable_array :
  fst (ColumnExtractor.inferTypeFromTsType "string[] | null"
         (ColumnExtractor.initialColumn "Column" "tags" []))
  = "varchar".
Proof. reflexivity. Qed.


(** The whole pipeline on two entities, one with an enum-typed column. *)
Example generateDBML_sample (ambient : Js.ObjectPrototype)
  (kindNumber : SyntaxKind -> nat) :
  generateDBML ambient kindNumber [userWithRole; tagClass] (Some shopOptions)
  = Returns (Js.join Js.newline
      [ "Project Shop {";
        "  database_type: 'PostgreSQL'";
        "  Note: 'Generated from TypeORM entities'";
        "}";
        "";
        "Enum user_role {";
        "  admin";
        "  user";
        "}";
        "";
        "Table user {";
        "  role user_role";
        "}";
        "";
        "Table tag {";
        "  id integer [pk, increment, not null]";
        "}";
        "";
        "TableGroup public {";
        "  user";
        "  tag";
        "}" ]).
Proof. reflexivity. Qed.

(** ** Strings *)

Lemma prefix_app (sub rest : string) : String.prefix sub (sub ++ rest) = true.
Proof.
  induction sub as [|c sub IH]; simpl.
  - destruct rest; reflexivity.
  - destruct (ascii_dec c c) as [_|ne]; [exact IH | now elim ne].
Qed.

Lemma includes_unfold (sub s : string) :
  Js.includes sub s
  = String.prefix sub s
    || match s with
       | EmptyString => false
       | String _ s' => Js.includes sub s'
       end.
Proof. destruct s; reflexivity. Qed.

Lemma includes_app (sub before rest : string) :
  Js.includes sub (before ++ sub ++ rest) = true.
Proof.
  induction before as [|c before IH].
  - rewrite includes_unfold. simpl. rewrite prefix_app. reflexivity.
  - simpl. rewrite IH. apply orb_true_r.
Qed.

Lemma append_assoc (a b c : string) : (a ++ b) ++ c = a ++ b ++ c.
Proof. induction a as [|x a IH]; simpl; [reflexivity | now rewrite IH]. Qed.

Lemma append_empty (s : string) : s ++ "" = s.
Proof. induction s as [|c s IH]; simpl; [reflexivity | now rewrite IH]. Qed.

Lemma truthyString_cons (c : ascii) (s : string) :
  Js.truthyString (String c s) = true.
Proof. reflexivity. Qed.

Lemma existsChar_cons p c s :
  Js.existsChar p (String c s) = p c || Js.existsChar p s.
Proof. reflexivity. Qed.

Lemma prefix_app_l (x a b : string) :
  String.prefix x a = true -> String.prefix x (a ++ b) = true.
Proof.
  revert a. induction x as [|c x IH]; intros a H;
    [destruct (a ++ b); reflexivity|].
  destruct a as [|d a]; [discriminate H|]. simpl in *.
  destruct (ascii_dec c d); [apply IH; exact H | discriminate H].
Qed.

Lemma includes_app_l (x a b : string) :
  Js.includes x a = true -> Js.includes x (a ++ b) = true.
Proof.
  induction a as [|c a IH]; intros H; rewrite includes_unfold in H;
    apply orb_true_iff in H; rewrite includes_unfold; apply orb_true_iff.
  - destruct H as [H|H]; [|discriminate H]. left.
    apply (prefix_app_l x "" b). exact H.
  - destruct H as [H|H].
    + left. apply (prefix_app_l x (String c a) b). exact H.
    + right. apply IH. exact H.
Qed.

Lemma includes_app_r (x a b : string) :
  Js.includes x b = true -> Js.includes x (a ++ b) = true.
Proof.
  intros H. induction a as [|c a IH]; [exact H|].
  simpl. rewrite IH. apply orb_true_r.
Qed.

(** A text is part of the joined list as soon as it is part of one of
    its items. *)
Lemma includes_join (x y sep : string) (parts : list string) :
  In y parts -> Js.includes x y = true ->
  Js.includes x (Js.join sep parts) = true.
Proof.
  induction parts as [|p ps IH]; [contradiction|].
  intros [->|Hin] Hx.
  - destruct ps as [|q qs]; [exact Hx|].
    change (Js.join sep (y :: q :: qs))
      with (y ++ sep ++ Js.join sep (q :: qs)).
    apply includes_app_l. exact Hx.
  - destruct ps as [|q qs]; [contradiction|].
    change (Js.join sep (p :: q :: qs))
      with (p ++ sep ++ Js.join sep (q :: qs)).
    apply includes_app_r. apply includes_app_r. apply IH; assumption.
Qed.

Lemma includes_refl (x : string) : Js.includes x x = true.
Proof.
  pose proof (includes_app x "" "") as H. simpl in H.
  rewrite append_empty in H. exact H.
Qed.

Lemma prefix_visible (x s : string) :
  String.prefix x s = true -> visible x = true -> visible s = true.
Proof.
  unfold visible. revert s. induction x as [|c x IH]; intros s Hp Hv;
    [discriminate Hv|].
  destruct s as [|d s]; [discriminate Hp|]. simpl in Hp.
  destruct (ascii_dec c d) as [<-|]; [|discriminate Hp].
  rewrite existsChar_cons in *.
  destruct (negb (Js.isSpace c)); [reflexivity|]. simpl in *.
  apply IH; assumption.
Qed.

Lemma visible_includes (x s : string) :
  Js.includes x s = true -> visible x = true -> visible s = true.
Proof.
  intros Hi Hv. induction s as [|c s IH]; rewrite includes_unfold in Hi;
    apply orb_true_iff in Hi.
  - destruct Hi as [Hi|Hi]; [|discriminate Hi].
    exact (prefix_visible x "" Hi Hv).
  - destruct Hi as [Hi|Hi]; [exact (prefix_visible x _ Hi Hv)|].
    unfold visible. rewrite existsChar_cons.
    fold (visible s). rewrite (IH Hi). apply orb_true_r.
Qed.

Lemma visible_truthy (s : string) :
  visible s = true -> Js.truthyString s = true.
Proof. destruct s; [discriminate | reflexivity]. Qed.

Lemma join_head_visible (sep : string) (c : ascii) (s : string)
  (rest : list string) :
  Js.isSpace c = false -> visible (Js.join sep (String c s :: rest)) = true.
Proof.
  intros H. unfold visible.
  destruct rest; simpl; rewrite H; reflexivity.
Qed.

Lemma trimStart_visible s : visible (Js.trimStart s) = visible s.
Proof.
  unfold visible. induction s as [|c s IH]; [reflexivity|].
  change (Js.trimStart (String c s))
    with (if Js.isSpace c then Js.trimStart s else String c s).
  destruct (Js.isSpace c) eqn:Hs; [|reflexivity].
  rewrite (existsChar_cons _ c s), Hs. exact IH.
Qed.

Lemma trimStart_truthy s : Js.truthyString (Js.trimStart s) = visible s.
Proof.
  unfold visible. induction s as [|c s IH]; [reflexivity|].
  change (Js.trimStart (String c s))
    with (if Js.isSpace c then Js.trimStart s else String c s).
  rewrite (existsChar_cons _ c s).
  destruct (Js.isSpace c) eqn:Hs; [exact IH | reflexivity].
Qed.

Lemma rev_onto_visible s acc :
  visible (Js.rev_onto s acc) = visible s || visible acc.
Proof.
  unfold visible. revert acc. induction s as [|c s IH]; intros acc.
  - reflexivity.
  - change (Js.rev_onto (String c s) acc) with (Js.rev_onto s (String c acc)).
    rewrite IH, !existsChar_cons.
    destruct (negb (Js.isSpace c)); simpl;
      [rewrite orb_true_r; reflexivity | reflexivity].
Qed.

Lemma rev_onto_truthy s acc :
  Js.truthyString (Js.rev_onto s acc)
  = Js.truthyString s || Js.truthyString acc.
Proof.
  revert acc. induction s as [|c s IH]; intros acc; [reflexivity|].
  change (Js.rev_onto (String c s) acc) with (Js.rev_onto s (String c acc)).
  rewrite IH. simpl. apply orb_true_r.
Qed.

Lemma trim_truthy s : Js.truthyString (Js.trim s) = visible s.
Proof.
  unfold Js.trim, Js.trimEnd, Js.reverse.
  rewrite rev_onto_truthy, orb_false_r, trimStart_truthy, rev_onto_visible.
  unfold visible at 2. simpl. rewrite orb_false_r. apply trimStart_visible.
Qed.

(** [generate] keeps the sections that have a visible character. *)
Lemma generate_visible_sections ambient self schema :
  fst (DBMLGenerator.generate ambient self schema)
  = Js.join (Js.newline ++ Js.newline)
      (filter visible (DBMLGenerator.sections ambient self schema)).
Proof.
  unfold DBMLGenerator.generate. simpl fst. f_equal.
  apply filter_ext. intros s. apply trim_truthy.
Qed.

(** A joined list is non-empty as soon as its first part is. *)
Lemma join_head_truthy (sep : string) (c : ascii) (s : string)
  (rest : list string) :
  Js.truthyString (Js.join sep (String c s :: rest)) = true.
Proof. destruct rest; reflexivity. Qed.

(** ** The serializer *)

Lemma keySettings_no_default (column : ColumnMetadata.t) :
  forallb (fun s => negb (isDefaultClause s)) (keySettings column) = true.
Proof.
  unfold keySettings.
  destruct (ColumnMetadata.isPrimary column),
    (ColumnMetadata.isGenerated column),
    (ColumnMetadata.generationStrategy column) as [[]|],
    (ColumnMetadata.isUnique column),
    (ColumnMetadata.isNullable column); reflexivity.
Qed.

Lemma noteSettings_no_default (self : TableGenerator.t)
  (column : ColumnMetadata.t) :
  forallb (fun s => negb (isDefaultClause s)) (noteSettings self column)
  = true.
Proof.
  unfold noteSettings.
  destruct (RequiredOptions.includeNotes _); simpl; [|reflexivity].
  destruct (ColumnMetadata.comment column) as [c|]; simpl; [|reflexivity].
  destruct (Js.truthyString c); reflexivity.
Qed.

(** C10: a create-date or update-date column that carries an explicit
    default gets two default clauses in its settings, the explicit one
    directly followed by the now() one; the settings before and after
    them hold no default clause, and the emitted text is the bracketed,
    comma-separated list. *)
Theorem date_column_with_default_has_two_defaults
  (self : TableGenerator.t) (column : ColumnMetadata.t) (d : string) :
  Js.truthyOptBool (ColumnMetadata.isCreateDate column)
  || Js.truthyOptBool (ColumnMetadata.isUpdateDate column) = true ->
  ColumnMetadata.default column = Some d ->
  let explicit := "default: " ++ TableGenerator.formatDefaultValue d column in
  let settings :=
    (keySettings column ++ [explicit; "default: `now()`"]
       ++ noteSettings self column)%list in
  TableGenerator.columnSettings self column = settings
  /\ TableGenerator.generateColumnSettings self column
     = "[" ++ Js.join ", " settings ++ "]"
  /\ forallb (fun s => negb (isDefaultClause s)) (keySettings column) = true
  /\ forallb (fun s => negb (isDefaultClause s)) (noteSettings self column)
     = true.
Proof.
  intros Hdate Hdefault explicit settings.
  assert (Hs : TableGenerator.columnSettings self column = settings).
  { unfold TableGenerator.columnSettings, settings, explicit, keySettings,
      noteSettings.
    rewrite Hdate, Hdefault. simpl List.concat.
    rewrite !app_nil_r, <- !app_assoc. reflexivity. }
  split; [exact Hs|]. split.
  - unfold TableGenerator.generateColumnSettings. rewrite Hs.
    unfold settings.
    destruct (keySettings column); reflexivity.
  - split; [apply keySettings_no_default | apply noteSettings_no_default].
Qed.

Lemma date_column_with_default_witness :
  Js.truthyOptBool (ColumnMetadata.isCreateDate createdAtWithDefault)
  || Js.truthyOptBool (ColumnMetadata.isUpdateDate createdAtWithDefault)
  = true
  /\ ColumnMetadata.default createdAtWithDefault = Some "CURRENT_TIMESTAMP"
  /\ TableGenerator.generateColumnSettings
       (TableGenerator.mk (DBMLGenerator.options (DBMLGenerator.new None)))
       createdAtWithDefault
     = "[not null, default: CURRENT_TIMESTAMP, default: `now()`]".
Proof.
  split; [reflexivity|]. split; [reflexivity|].
  destruct
    (date_column_with_default_has_two_defaults
       (TableGenerator.mk (DBMLGenerator.options (DBMLGenerator.new None)))
       createdAtWithDefault "CURRENT_TIMESTAMP" eq_refl eq_refl)
    as [_ [H _]].
  rewrite H. reflexivity.
Defined.

(** ** The type mapper *)

(** An enum-typed array column maps to the bare enum name: [mapType]
    returns before the array notation is added. *)
Lemma enum_array_column_has_no_array_suffix :
  ColumnMetadata.isArray enumArrayColumn = Some true
  /\ forall ambient : Js.ObjectPrototype,
       TypeMapper.mapType ambient enumArrayColumn = Js.Str "user_role"
       /\ Js.includes "[]"
            (Js.toString (TypeMapper.mapType ambient enumArrayColumn))
          = false.
Proof. split; [reflexivity|]. intros ambient. split; reflexivity. Qed.

(** C7, amended: for a column with isArray = true that is not enum-typed
    (no enum name, or an empty one) the mapped type is the base type
    followed by the array notation and then the length or precision
    suffix; in particular it carries the array notation. *)
Theorem array_column_type_has_array_suffix (ambient : Js.ObjectPrototype)
  (column : ColumnMetadata.t) :
  ColumnMetadata.isArray column = Some true ->
  Js.truthyOptString (ColumnMetadata.enumName column) = false ->
  TypeMapper.mapType ambient column
  = Js.Str
      (Js.toString (TypeMapper.getBaseType ambient (ColumnMetadata.type column))
         ++ "[]" ++ TypeMapper.sizeSuffix column)
  /\ Js.includes "[]" (Js.toString (TypeMapper.mapType ambient column)) = true.
Proof.
  intros Harray Henum.
  assert (E : TypeMapper.mapType ambient column
              = Js.Str
                  (Js.toString
                     (TypeMapper.getBaseType ambient
                        (ColumnMetadata.type column))
                     ++ "[]" ++ TypeMapper.sizeSuffix column)).
  { unfold TypeMapper.mapType. rewrite Henum, Harray. cbv zeta.
    cbn [Js.truthyOptBool].
    destruct (TypeMapper.sizeSuffix column) as [|c suffix].
    - rewrite append_empty. reflexivity.
    - cbn [Js.toString]. rewrite append_assoc. reflexivity. }
  split; [exact E|]. rewrite E. apply includes_app.
Qed.

Lemma array_column_type_witness :
  ColumnMetadata.isArray tagsColumn = Some true
  /\ Js.truthyOptString (ColumnMetadata.enumName tagsColumn) = false
  /\ TypeMapper.mapType Js.objectPrototype tagsColumn = Js.Str "varchar[](64)".
Proof.
  split; [reflexivity|]. split; [reflexivity|].
  destruct (array_column_type_has_array_suffix Js.objectPrototype tagsColumn
              eq_refl eq_refl)
    as [E _].
  rewrite E. reflexivity.
Defined.

(** ** The serializer and the object prototype *)












(** With the prototype as the process starts it, a column of type
    constructor is given the text of a native function for type. *)
Example generate_inherited_type :
  TableGenerator.generateColumn Js.objectPrototype
    (TableGenerator.mk (DBMLGenerator.options (DBMLGenerator.new None)))
    (ColumnMetadata.set_type "constructor" tagsColumn)
  = "tags function Object() { [native code] }[]".
Proof. reflexivity. Qed.



(* ================================================================== *)
(** ** The column extractor *)
(* ================================================================== *)

(** An invariant of the accumulator of a loop holds after the loop when
    it holds before and every turn keeps it. *)
Lemma fold_left_invariant {A B : Type} (P : A -> Prop) (f : A -> B -> A)
  (l : list B) (a : A) :
  P a ->
  (forall a b, In b l -> P a -> P (f a b)) ->
  P (fold_left f l a).
Proof.
  revert a. induction l as [|b l IH]; intros a Ha Hstep; simpl.
  - exact Ha.
  - apply IH.
    + apply Hstep; [left; reflexivity | exact Ha].
    + intros a' b' Hin. apply Hstep. right. exact Hin.
Qed.

Ltac split_ifs :=
  repeat match goal with
         | |- context [if ?b then _ else _] => destruct b eqn:?
         end.

Lemma extractEnumMetadata_keeps init m enums :
  let m' := fst (ColumnExtractor.extractEnumMetadata init m enums) in
  roleFields m' = roleFields m
  /\ ColumnMetadata.isNullable m' = ColumnMetadata.isNullable m.
Proof.
  unfold ColumnExtractor.extractEnumMetadata.
  destruct m, (getTypeSymbol init) as [[n [|[members|] ds]]|];
    simpl; split_ifs; split; reflexivity.
Qed.

Lemma columnOption_roleFields st prop :
  roleFields (fst (ColumnExtractor.columnOption st prop)) = roleFields (fst st).
Proof.
  destruct st as [m enums]. unfold ColumnExtractor.columnOption.
  split_ifs; try (destruct m; reflexivity).
  apply extractEnumMetadata_keeps.
Qed.

Lemma columnOption_isNullable st prop :
  fst prop <> "nullable" ->
  ColumnMetadata.isNullable (fst (ColumnExtractor.columnOption st prop))
  = ColumnMetadata.isNullable (fst st).
Proof.
  intros Hname. destruct st as [m enums]. unfold ColumnExtractor.columnOption.
  split_ifs; try (destruct m; reflexivity).
  - match goal with
    | H : String.eqb _ "nullable" = true |- _ => apply String.eqb_eq in H
    end.
    contradiction.
  - apply extractEnumMetadata_keeps.
Qed.

Lemma columnOption_type st prop :
  fst prop <> "type" -> fst prop <> "enum" ->
  ColumnMetadata.type (fst (ColumnExtractor.columnOption st prop))
  = ColumnMetadata.type (fst st).
Proof.
  intros Htype Henum. destruct st as [m enums].
  unfold ColumnExtractor.columnOption.
  split_ifs; try (destruct m; reflexivity).
  - match goal with
    | H : String.eqb _ "type" = true |- _ => apply String.eqb_eq in H
    end.
    contradiction.
  - match goal with
    | H : String.eqb _ "enum" = true |- _ => apply String.eqb_eq in H
    end.
    contradiction.
Qed.

Section ApplyOptions.

Variable args : list Expression.
Variable start : ColumnMetadata.t * ColumnExtractor.EnumsMap.

Let final := ColumnExtractor.applyOptions args start.

Lemma applyOptions_keeps (P : ColumnMetadata.t -> Prop) :
  (forall st prop,
     In (fst prop) (optionNames args) ->
     P (fst st) -> P (fst (ColumnExtractor.columnOption st prop))) ->
  P (fst start) -> P (fst final).
Proof.
  intros Hstep Hstart. unfold final, ColumnExtractor.applyOptions.
  apply (fold_left_invariant (fun st => P (fst st))); [exact Hstart|].
  intros st arg Harg Hst.
  destruct (isKind ObjectLiteralExpression arg) eqn:Hkind; [|exact Hst].
  unfold ColumnExtractor.extractColumnOptions.
  apply (fold_left_invariant (fun st => P (fst st))); [exact Hst|].
  intros st' prop Hprop Hst'. apply Hstep; [|exact Hst'].
  unfold optionNames. apply in_flat_map. exists arg. split; [exact Harg|].
  rewrite Hkind. apply in_map. exact Hprop.
Qed.

Lemma applyOptions_roleFields : roleFields (fst final) = roleFields (fst start).
Proof.
  apply (applyOptions_keeps (fun m => roleFields m = roleFields (fst start)));
    [|reflexivity].
  intros st prop _ H. rewrite columnOption_roleFields. exact H.
Qed.

Lemma applyOptions_isNullable :
  ~ In "nullable" (optionNames args) ->
  ColumnMetadata.isNullable (fst final) = ColumnMetadata.isNullable (fst start).
Proof.
  intros Hno.
  apply (applyOptions_keeps
           (fun m => ColumnMetadata.isNullable m
                     = ColumnMetadata.isNullable (fst start)));
    [|reflexivity].
  intros st prop Hin H. rewrite columnOption_isNullable; [exact H|].
  intros E. apply Hno. rewrite <- E. exact Hin.
Qed.

Lemma applyOptions_type :
  ~ In "type" (optionNames args) -> ~ In "enum" (optionNames args) ->
  ColumnMetadata.type (fst final) = ColumnMetadata.type (fst start).
Proof.
  intros Htype Henum.
  apply (applyOptions_keeps
           (fun m => ColumnMetadata.type m = ColumnMetadata.type (fst start)));
    [|reflexivity].
  intros st prop Hin H. rewrite columnOption_type; [exact H| |].
  - intros E. apply Htype. rewrite <- E. exact Hin.
  - intros E. apply Henum. rewrite <- E. exact Hin.
Qed.

End ApplyOptions.

(** What [extractColumnFromProperty] does after the options: the type
    inference, entered only on the type varchar, and the JSDoc comment.
    Neither touches the role fields or the nullability. *)
Lemma extractColumnFromProperty_some property enums column enums' :
  ColumnExtractor.extractColumnFromProperty property enums
  = (Some column, enums') ->
  exists d,
    findDecorator ColumnExtractor.columnDecorators
      (propertyDecorators property) = Some d
    /\ let st :=
         ColumnExtractor.applyOptions (decoratorArguments d)
           (ColumnExtractor.initialColumn (decoratorName d)
              (propertyGetName property) (decoratorArguments d), enums) in
       roleFields column = roleFields (fst st)
       /\ ColumnMetadata.isNullable column = ColumnMetadata.isNullable (fst st)
       /\ (ColumnMetadata.type (fst st) <> "varchar" ->
           ColumnMetadata.type column = ColumnMetadata.type (fst st))
       /\ (ColumnMetadata.isGenerated (fst st) = true ->
           ColumnMetadata.type column = ColumnMetadata.type (fst st)).
Proof.
  unfold ColumnExtractor.extractColumnFromProperty.
  destruct (findDecorator _ _) as [d|]; [|discriminate].
  intros H. exists d. split; [reflexivity|]. cbv zeta.
  destruct (ColumnExtractor.applyOptions _ _) as [m e]. simpl fst.
  injection H as Hc _. subst column.
  assert (Hcomment : forall m0 : ColumnMetadata.t,
    let m1 := match firstDocComment (propertyJsDocs property) with
              | Some comment => ColumnMetadata.set_comment comment m0
              | None => m0
              end in
    roleFields m1 = roleFields m0
    /\ ColumnMetadata.isNullable m1 = ColumnMetadata.isNullable m0
    /\ ColumnMetadata.type m1 = ColumnMetadata.type m0).
  { intros m0. destruct (firstDocComment _); destruct m0; repeat split. }
  destruct (String.eqb (ColumnMetadata.type m) "varchar") eqn:Hv;
    [destruct (ColumnMetadata.isGenerated m) eqn:Hg|]; simpl andb; cbv iota.
  - destruct (Hcomment m) as [-> [-> ->]]. repeat split.
  - unfold ColumnExtractor.inferTypeFromTsType.
    destruct (Js.endsWith _ _);
      match goal with
      | |- context [ColumnMetadata.set_type ?ty ?m0] =>
          destruct (Hcomment (ColumnMetadata.set_type ty m0)) as [-> [-> _]]
      end;
      (split; [destruct m; reflexivity|]);
      (split; [destruct m; reflexivity|]);
      (split; [intros Hne; apply String.eqb_eq in Hv; contradiction
              | intros Hgen; discriminate]).
  - destruct (Hcomment m) as [-> [-> ->]]. repeat split.
Qed.

Lemma initialColumn_flags dn pn args :
  snd (roleFields (ColumnExtractor.initialColumn dn pn args)) = flagsOfName dn.
Proof.
  unfold ColumnExtractor.initialColumn, ColumnExtractor.generatedColumn,
    flagsOfName.
  destruct args as [|arg0 args]; split_ifs; reflexivity.
Qed.

Lemma initialColumn_date dn pn args :
  existsb (String.eqb dn) ColumnExtractor.dateDecorators = true ->
  let m := ColumnExtractor.initialColumn dn pn args in
  ColumnMetadata.type m = "timestamp" /\ ColumnMetadata.isNullable m = false.
Proof.
  intros Hdate. unfold ColumnExtractor.initialColumn. rewrite Hdate.
  destruct (String.eqb dn "VersionColumn") eqn:Hv.
  - apply String.eqb_eq in Hv. subst dn. discriminate.
  - split; match goal with
           | |- context [ColumnMetadata.set_type "timestamp" ?m0] =>
               destruct m0; reflexivity
           end.
Qed.

Lemma initialColumn_version pn args :
  let m := ColumnExtractor.initialColumn "VersionColumn" pn args in
  ColumnMetadata.type m = "integer" /\ ColumnMetadata.isNullable m = false.
Proof. split; reflexivity. Qed.

(** A create-date column whose options set the type and the nullability
    keeps what the options say: it is extracted with the create-date flag,
    the type timestamptz and isNullable true. *)
Lemma create_date_options_override_forced_type :
  exists column,
    ColumnExtractor.extractColumnFromProperty createdAtTz Js.Map.empty
    = (Some column, Js.Map.empty)
    /\ dateRole column = true
    /\ ColumnMetadata.type column = "timestamptz"
    /\ ColumnMetadata.type column <> "timestamp"
    /\ ColumnMetadata.isNullable column = true.
Proof.
  eexists. split; [reflexivity|]. repeat split. discriminate.
Qed.

Lemma extracted_flags property enums column enums' d :
  ColumnExtractor.extractColumnFromProperty property enums
  = (Some column, enums') ->
  findDecorator ColumnExtractor.columnDecorators (propertyDecorators property)
  = Some d ->
  snd (roleFields column) = flagsOfName (decoratorName d).
Proof.
  intros Hex Hfind.
  destruct (extractColumnFromProperty_some _ _ _ _ Hex) as [d' [Hd' H]].
  rewrite Hfind in Hd'. injection Hd' as <-. cbv zeta in H.
  destruct H as [Hrole _]. rewrite Hrole, applyOptions_roleFields.
  apply initialColumn_flags.
Qed.

(** C5, amended: of the four special-role flags of an extracted column at
    most one is true; when one is true the column is non-nullable unless
    the options of its decorator set nullable, and its type is timestamp
    (date roles) or integer (version role) unless the options set type or
    enum, whatever the declared type of the property. *)
Theorem special_role_forces_type_unless_options
  (property : PropertyDeclaration) (enums enums' : ColumnExtractor.EnumsMap)
  (column : ColumnMetadata.t) (d : Decorator) :
  ColumnExtractor.extractColumnFromProperty property enums
  = (Some column, enums') ->
  findDecorator ColumnExtractor.columnDecorators (propertyDecorators property)
  = Some d ->
  let names := optionNames (decoratorArguments d) in
  count_occ Bool.bool_dec (specialRoleFlags column) true <= 1
  /\ (~ In "nullable" names ->
      dateRole column || versionRole column = true ->
      ColumnMetadata.isNullable column = false)
  /\ (~ In "type" names -> ~ In "enum" names ->
      (dateRole column = true -> ColumnMetadata.type column = "timestamp")
      /\ (versionRole column = true -> ColumnMetadata.type column = "integer")).
Proof.
  intros Hex Hfind names.
  pose proof (extracted_flags _ _ _ _ _ Hex Hfind) as Hflags.
  destruct (extractColumnFromProperty_some _ _ _ _ Hex) as [d' [Hd' H]].
  rewrite Hfind in Hd'. injection Hd' as <-. cbv zeta in H.
  destruct H as [_ [Hnull [Htype _]]].
  set (dn := decoratorName d) in *.
  set (init := ColumnExtractor.initialColumn dn (propertyGetName property)
                 (decoratorArguments d)) in *.
  unfold roleFields, flagsOfName in Hflags. simpl snd in Hflags.
  injection Hflags as Hc Hu Hd Hv.
  assert (Hdate : dateRole column = true ->
                  existsb (String.eqb dn) ColumnExtractor.dateDecorators = true).
  { unfold dateRole. rewrite Hc, Hu, Hd. simpl.
    rewrite orb_false_r, orb_assoc. trivial. }
  assert (Hversion : versionRole column = true -> dn = "VersionColumn").
  { unfold versionRole. rewrite Hv. simpl. apply String.eqb_eq. }
  split; [|split].
  - unfold specialRoleFlags. rewrite Hc, Hu, Hd, Hv. simpl map.
    destruct (String.eqb_spec dn "CreateDateColumn") as [E|_];
      [rewrite E; simpl; lia|].
    destruct (String.eqb_spec dn "UpdateDateColumn") as [E|_];
      [rewrite E; simpl; lia|].
    destruct (String.eqb_spec dn "DeleteDateColumn") as [E|_];
      [rewrite E; simpl; lia|].
    destruct (String.eqb dn "VersionColumn"); simpl; lia.
  - intros Hno Hrole. rewrite Hnull, applyOptions_isNullable by exact Hno.
    simpl fst. apply orb_true_iff in Hrole. destruct Hrole as [Hr|Hr].
    + apply (initialColumn_date dn _ _ (Hdate Hr)).
    + unfold init. rewrite (Hversion Hr). reflexivity.
  - intros HnoT HnoE.
    pose proof (applyOptions_type (decoratorArguments d) (init, enums)
                  HnoT HnoE) as Hkeep.
    simpl fst in Hkeep. split; intros Hr.
    + destruct (initialColumn_date dn (propertyGetName property)
                  (decoratorArguments d) (Hdate Hr)) as [Hty _].
      fold init in Hty. rewrite Htype; rewrite Hkeep, Hty;
        [reflexivity | discriminate].
    + assert (Hty : ColumnMetadata.type init = "integer")
        by (unfold init; rewrite (Hversion Hr); reflexivity).
      rewrite Htype; rewrite Hkeep, Hty; [reflexivity | discriminate].
Qed.

Lemma special_role_witness :
  ColumnExtractor.extractColumnFromProperty updatedAtPlain Js.Map.empty
  = (Some updatedAtColumn, Js.Map.empty)
  /\ ColumnMetadata.isNullable updatedAtColumn = false
  /\ ColumnMetadata.type updatedAtColumn = "timestamp".
Proof.
  split; [reflexivity|].
  destruct
    (special_role_forces_type_unless_options updatedAtPlain Js.Map.empty
       Js.Map.empty updatedAtColumn
       (mkDecorator "UpdateDateColumn"
          [ ObjectLit "{ name: 'modified' }" None
              [ PropAssign "name" (Some (StringLit "'modified'" None)) ] ])
       eq_refl eq_refl)
    as [_ [Hnull Htype]].
  split.
  - apply Hnull; [|reflexivity].
    simpl. intros [H|[]]. discriminate H.
  - apply Htype; [| |reflexivity].
    + simpl. intros [H|[]]. discriminate H.
    + simpl. intros [H|[]]. discriminate H.
Defined.

(** ** Primary generated columns *)

(** Whatever its arguments, a primary generated column is primary,
    generated and non-nullable unless the options set nullable; its
    strategy is the one the block on generated columns leaves. *)
Lemma primary_generated_flags property enums column enums' d :
  ColumnExtractor.extractColumnFromProperty property enums
  = (Some column, enums') ->
  findDecorator ColumnExtractor.columnDecorators (propertyDecorators property)
  = Some d ->
  decoratorName d = "PrimaryGeneratedColumn" ->
  ColumnMetadata.isPrimary column = true
  /\ ColumnMetadata.isGenerated column = true
  /\ ColumnMetadata.generationStrategy column
     = ColumnMetadata.generationStrategy
         (ColumnExtractor.initialColumn "PrimaryGeneratedColumn"
            (propertyGetName property) (decoratorArguments d)).
Proof.
  intros Hex Hfind Hname.
  destruct (extractColumnFromProperty_some _ _ _ _ Hex) as [d' [Hd' H]].
  rewrite Hfind in Hd'. injection Hd' as <-. cbv zeta in H.
  destruct H as [Hrole _]. rewrite applyOptions_roleFields in Hrole.
  simpl fst in Hrole. rewrite Hname in Hrole.
  unfold roleFields in Hrole. injection Hrole as Hp Hg Hs _ _ _ _.
  rewrite Hp, Hg, Hs.
  unfold ColumnExtractor.initialColumn, ColumnExtractor.generatedColumn.
  destruct (decoratorArguments d) as [|arg0 args]; simpl;
    split_ifs; repeat split.
Qed.

(** With no argument at all the strategy is increment and the type
    integer. *)
Lemma primary_generated_no_argument property enums column enums' d :
  ColumnExtractor.extractColumnFromProperty property enums
  = (Some column, enums') ->
  findDecorator ColumnExtractor.columnDecorators (propertyDecorators property)
  = Some d ->
  decoratorName d = "PrimaryGeneratedColumn" ->
  decoratorArguments d = [] ->
  ColumnMetadata.generationStrategy column = Some increment
  /\ ColumnMetadata.type column = "integer".
Proof.
  intros Hex Hfind Hname Hargs.
  destruct (primary_generated_flags _ _ _ _ _ Hex Hfind Hname)
    as [_ [_ Hs]].
  rewrite Hargs in Hs. split; [exact Hs|].
  destruct (extractColumnFromProperty_some _ _ _ _ Hex) as [d' [Hd' H]].
  rewrite Hfind in Hd'. injection Hd' as <-. cbv zeta in H.
  destruct H as [_ [_ [Hty _]]]. rewrite Hargs, Hname in Hty.
  simpl in Hty. apply Hty. discriminate.
Qed.

(** C6, at the failing input: a primary generated column whose only
    argument is an options literal (no strategy argument) is extracted
    primary and generated, but with no generation strategy and with the
    type varchar instead of increment and integer. *)
Theorem primary_generated_options_only_has_no_strategy :
  exists column,
    ColumnExtractor.extractColumnFromProperty idWithOptionsOnly Js.Map.empty
    = (Some column, Js.Map.empty)
    /\ ColumnMetadata.isPrimary column = true
    /\ ColumnMetadata.isGenerated column = true
    /\ ColumnMetadata.generationStrategy column = None
    /\ ColumnMetadata.type column = "varchar".
Proof. eexists. repeat split. Qed.

(* ================================================================== *)
(** ** One-to-one relations *)
(* ================================================================== *)

(** On the generator side a one-to-one relation without join column
    metadata gives no reference. *)
Lemma generateOneToOne_without_joinColumn ambient entity relation :
  RelationMetadata.type relation = one_to_one ->
  RelationMetadata.joinColumn relation = None ->
  RelationGenerator.generateRelation ambient entity relation = None.
Proof.
  intros Hty Hjc. unfold RelationGenerator.generateRelation,
    RelationGenerator.generateOneToOne.
  rewrite Hty, Hjc. reflexivity.
Qed.

(** On the extractor side every one-to-one property gets join column
    metadata, the default one when it has no JoinColumn decorator, so the
    generator always finds some. *)
Lemma extracted_one_to_one_has_joinColumn property d :
  findDecorator RelationExtractor.relationDecorators
    (propertyDecorators property) = Some d ->
  decoratorName d = "OneToOne" ->
  exists relation j,
    RelationExtractor.extractRelationFromProperty property = Some relation
    /\ RelationMetadata.type relation = one_to_one
    /\ RelationMetadata.joinColumn relation = Some j
    /\ (findDecorator ["JoinColumn"] (propertyDecorators property) = None ->
        j = JoinColumnMetadata.mk
              (Some (toSnakeCase (propertyGetName property) ++ "_id"))
              (Some "id")).
Proof.
  intros Hfind Hname. unfold RelationExtractor.extractRelationFromProperty.
  rewrite Hfind, Hname. simpl.
  destruct (findDecorator ["JoinColumn"] _) as [jd|];
    eexists; eexists; repeat split.
  intros H. discriminate H.
Qed.

(** C3, at the failing input: User.profile is a one-to-one with a
    JoinColumn decorator and Profile.user is its mirror without one; the
    extractor gives the mirror a default join column, and the serializer
    emits a reference line from each side. *)
Theorem one_to_one_mirror_side_emits_reference
  (ambient : Js.ObjectPrototype) (kindNumber : SyntaxKind -> nat) :
  exists schema,
    generateSchema kindNumber [userWithProfile; profileOfUser]
    = Returns schema
    /\ RelationGenerator.relationRefs ambient (DBMLSchema.entities schema)
       = [ "Ref: user.profile_id - profile.id";
           "Ref: profile.user_id - user.id" ]
    /\ RelationGenerator.generateRelations ambient
         (DBMLSchema.entities schema)
       = Js.join Js.newline
           [ "Ref: user.profile_id - profile.id";
             "Ref: profile.user_id - user.id" ].
Proof. eexists. split; [reflexivity|]. split; reflexivity. Qed.

(* ================================================================== *)
(** ** Index annotations *)
(* ================================================================== *)

Lemma indexOption_keeps m prop :
  let m' := ConstraintExtractor.indexOption m prop in
  IndexMetadata.name m' = IndexMetadata.name m
  /\ IndexMetadata.columns m' = IndexMetadata.columns m.
Proof.
  unfold ConstraintExtractor.indexOption. split_ifs; split; reflexivity.
Qed.

(** The flags after an option depend on the flags before it only. *)
Lemma indexOption_flags m1 m2 prop :
  indexFlags m1 = indexFlags m2 ->
  indexFlags (ConstraintExtractor.indexOption m1 prop)
  = indexFlags (ConstraintExtractor.indexOption m2 prop).
Proof.
  unfold indexFlags. intros H. injection H as Hu Hs Hf Hw Ht.
  unfold ConstraintExtractor.indexOption. split_ifs; simpl; congruence.
Qed.

Lemma extractIndexOptions_keeps o m :
  let m' := ConstraintExtractor.extractIndexOptions o m in
  IndexMetadata.name m' = IndexMetadata.name m
  /\ IndexMetadata.columns m' = IndexMetadata.columns m.
Proof.
  unfold ConstraintExtractor.extractIndexOptions.
  apply (fold_left_invariant
           (fun m' => IndexMetadata.name m' = IndexMetadata.name m
                      /\ IndexMetadata.columns m' = IndexMetadata.columns m));
    [split; reflexivity|].
  intros a b _ [Hn Hc].
  destruct (indexOption_keeps a b) as [Hn' Hc']. split; congruence.
Qed.

Lemma extractIndexOptions_flags o m1 m2 :
  indexFlags m1 = indexFlags m2 ->
  indexFlags (ConstraintExtractor.extractIndexOptions o m1)
  = indexFlags (ConstraintExtractor.extractIndexOptions o m2).
Proof.
  unfold ConstraintExtractor.extractIndexOptions.
  generalize (assignments (getProperties o)). intros l.
  revert m1 m2. induction l as [|p l IH]; intros m1 m2 H; simpl.
  - exact H.
  - apply IH, indexOption_flags, H.
Qed.

(** What [finishIndex] returns once the columns are set. *)
Lemma finishIndex_columns args k name cols :
  let start := IndexMetadata.mk name cols false None None None None in
  match ConstraintExtractor.finishIndex args k start with
  | Some m =>
      cols <> []
      /\ IndexMetadata.name m = name
      /\ IndexMetadata.columns m = cols
      /\ indexFlags m = flagsOf (trailingOptions (skipn k args))
  | None => cols = []
  end.
Proof.
  intros start. unfold ConstraintExtractor.finishIndex, trailingOptions.
  cbv zeta.
  assert (Hnth : nth_error args k
                 = match skipn k args with o :: _ => Some o | [] => None end).
  { revert args. induction k as [|k IH]; intros [|a args]; simpl; auto. }
  rewrite Hnth. clear Hnth.
  destruct (skipn k args) as [|o others].
  - simpl. destruct cols; [reflexivity|]. repeat split. discriminate.
  - destruct (isKind ObjectLiteralExpression o).
    + destruct (extractIndexOptions_keeps o start) as [Hn Hc].
      rewrite Hc. simpl IndexMetadata.columns.
      destruct cols; [reflexivity|].
      split; [discriminate|]. split; [exact Hn|]. split; [exact Hc|].
      apply extractIndexOptions_flags. reflexivity.
    + simpl. destruct cols; [reflexivity|]. repeat split. discriminate.
Qed.

(** An entry named columns in an options literal changes nothing. *)
Lemma extractIndexOptions_ignores_columns t s t' s' props m :
  ConstraintExtractor.extractIndexOptions (ObjectLit t s props) m
  = ConstraintExtractor.extractIndexOptions
      (ObjectLit t' s' (filter notColumns props)) m.
Proof.
  unfold ConstraintExtractor.extractIndexOptions. simpl getProperties.
  revert m. induction props as [|member props IH]; intros m;
    [reflexivity|].
  destruct member as [n [e|]|n|]; simpl.
  - destruct (String.eqb_spec n "columns") as [->|Hn]; simpl.
    + rewrite <- IH. reflexivity.
    + apply IH.
  - destruct (String.eqb n "columns"); simpl; apply IH.
  - apply IH.
  - apply IH.
Qed.

(** The options-only shape does not give the columns it lists: the result
    has the flag but an empty column list, where the columns-first shape
    with the same column and flag has the column; and the empty column
    list is not discarded. *)
Lemma options_only_index_has_no_columns :
  ConstraintExtractor.extractIndexFromDecorator optionsOnlyIndex
  = Some (IndexMetadata.mk None [] true None None None None)
  /\ ConstraintExtractor.extractIndexFromDecorator columnsFirstIndex
     = Some (IndexMetadata.mk None ["a"] true None None None None)
  /\ ~ (exists m,
          ConstraintExtractor.extractIndexFromDecorator optionsOnlyIndex
          = Some m
          /\ IndexMetadata.columns m = ["a"]).
Proof.
  split; [reflexivity|]. split; [reflexivity|].
  intros [m [H Hc]]. injection H as <-. discriminate Hc.
Qed.

(** C4, amended: the columns-first shape and the name-then-columns shape
    resolve to the same column list (the string literals of the array,
    quotes removed) and the same flags (those of the options literal that
    follows the columns, if any), the second with its name, and both give
    no result when that column list is empty; the options-only shape reads
    its flags from the literal and reads no column list from it: an entry
    named columns does not change its result. *)
Theorem index_shapes_converge
  (n text ntext : string) (sym nsym : option TsSymbol)
  (elements rest : list Expression) :
  let array := ArrayLit text sym elements in
  let cols := ConstraintExtractor.extractColumnsFromArray array in
  let expected name r :=
    match r with
    | Some m =>
        cols <> []
        /\ IndexMetadata.name m = name
        /\ IndexMetadata.columns m = cols
        /\ indexFlags m = flagsOf (trailingOptions rest)
    | None => cols = []
    end in
  expected None
    (ConstraintExtractor.extractIndexFromDecorator
       (mkDecorator n (array :: rest)))
  /\ expected (Some (Js.stripQuotes ntext))
       (ConstraintExtractor.extractIndexFromDecorator
          (mkDecorator n (StringLit ntext nsym :: array :: rest)))
  /\ forall otext osym props otext' osym' m,
       ConstraintExtractor.extractIndexFromDecorator
         (mkDecorator n [ObjectLit otext osym props]) = Some m ->
       IndexMetadata.name m = None
       /\ indexFlags m = flagsOf (Some (ObjectLit otext osym props))
       /\ ConstraintExtractor.extractIndexFromDecorator
            (mkDecorator n [ObjectLit otext' osym' (filter notColumns props)])
          = Some m.
Proof.
  intros array cols expected. split; [|split].
  - unfold ConstraintExtractor.extractIndexFromDecorator. simpl.
    apply (finishIndex_columns (array :: rest) 1 None cols).
  - unfold ConstraintExtractor.extractIndexFromDecorator. simpl.
    apply (finishIndex_columns (StringLit ntext nsym :: array :: rest) 2
             (Some (Js.stripQuotes ntext)) cols).
  - intros otext osym props otext' osym' m.
    unfold ConstraintExtractor.extractIndexFromDecorator. simpl.
    intros H. injection H as <-.
    split; [apply extractIndexOptions_keeps|]. split; [reflexivity|].
    f_equal. symmetry. apply extractIndexOptions_ignores_columns.
Qed.

Lemma index_shapes_witness :
  ConstraintExtractor.extractIndexFromDecorator optionsOnlyIndex
  = Some (IndexMetadata.mk None [] true None None None None)
  /\ indexFlags (IndexMetadata.mk None [] true None None None None)
     = (true, None, None, None, None)
  /\ ConstraintExtractor.extractIndexFromDecorator
       (mkDecorator "Index"
          [ ObjectLit "{ unique: true }" None
              [ PropAssign "unique" (Some (OtherExpr "true" None)) ] ])
     = Some (IndexMetadata.mk None [] true None None None None).
Proof.
  split; [reflexivity|].
  destruct
    (index_shapes_converge "Index" "['a']" "'idx'" None None
       [StringLit "'a'" None] [])
    as [_ [_ H]].
  destruct
    (H "{ columns: ['a'], unique: true }" None
       [ PropAssign "columns"
           (Some (ArrayLit "['a']" None [StringLit "'a'" None]));
         PropAssign "unique" (Some (OtherExpr "true" None)) ]
       "{ unique: true }" None
       (IndexMetadata.mk None [] true None None None None) eq_refl)
    as [_ [Hf Hsame]].
  split; [exact Hf | exact Hsame].
Defined.

(* ================================================================== *)
(** ** The second pass: resolution of relation targets *)
(* ================================================================== *)

Lemma get_set_same {V} (m : Js.Map.t V) k v :
  Js.Map.get (Js.Map.set m k v) k = Some v.
Proof.
  induction m as [|[k' v'] m IH]; simpl.
  - rewrite String.eqb_refl. reflexivity.
  - destruct (String.eqb k' k) eqn:E; simpl; rewrite E; [reflexivity | exact IH].
Qed.

Lemma get_set_other {V} (m : Js.Map.t V) k v k' :
  k <> k' -> Js.Map.get (Js.Map.set m k v) k' = Js.Map.get m k'.
Proof.
  intros Hne. induction m as [|[k0 v0] m IH]; simpl.
  - apply String.eqb_neq in Hne. rewrite Hne. reflexivity.
  - destruct (String.eqb_spec k0 k) as [->|Hk]; simpl.
    + apply String.eqb_neq in Hne. rewrite Hne. reflexivity.
    + rewrite IH. reflexivity.
Qed.

Section ClassToTable.

Variable k : string.

Lemma fillTable_absent entities m :
  (forall e, In e entities -> EntityMetadata.name e <> k) ->
  Js.Map.get (fillTable m entities) k = Js.Map.get m k.
Proof.
  unfold fillTable. revert m.
  induction entities as [|e es IH]; intros m Hno; simpl.
  - reflexivity.
  - rewrite IH.
    + apply get_set_other. apply Hno. left. reflexivity.
    + intros e' Hin. apply Hno. right. exact Hin.
Qed.

Lemma fillTable_agreed entities m t :
  (forall e, In e entities ->
             EntityMetadata.name e = k -> EntityMetadata.tableName e = t) ->
  Js.Map.get m k = Some t
  \/ (exists e, In e entities /\ EntityMetadata.name e = k) ->
  Js.Map.get (fillTable m entities) k = Some t.
Proof.
  unfold fillTable. revert m.
  induction entities as [|e es IH]; intros m Hagree Hsome; simpl.
  - destruct Hsome as [H|[e [[] _]]]. exact H.
  - apply IH.
    + intros e' Hin. apply Hagree. right. exact Hin.
    + destruct (String.eqb_spec (EntityMetadata.name e) k) as [Hk|Hk].
      * left. rewrite Hk, get_set_same. f_equal.
        apply Hagree; [left; reflexivity | exact Hk].
      * destruct Hsome as [H|[e' [[<-|Hin] Hname]]].
        -- left. rewrite get_set_other by exact Hk. exact H.
        -- contradiction.
        -- right. exists e'. split; assumption.
Qed.

End ClassToTable.

Lemma classToTable_names (entities1 entities2 : list EntityMetadata.t) :
  map (fun e => (EntityMetadata.name e, EntityMetadata.tableName e)) entities1
  = map (fun e => (EntityMetadata.name e, EntityMetadata.tableName e)) entities2 ->
  MetadataExtractor.classToTable entities1
  = MetadataExtractor.classToTable entities2.
Proof.
  unfold MetadataExtractor.classToTable. generalize (@Js.Map.empty string).
  revert entities2.
  induction entities1 as [|e1 es1 IH]; intros [|e2 es2] m H;
    try discriminate; [reflexivity|].
  simpl in H. injection H as Hn Ht Hrest. simpl. rewrite Hn, Ht.
  apply IH. exact Hrest.
Qed.

Lemma resolveRelation_unresolved table relation :
  Js.Map.get table (RelationMetadata.target relation) = None ->
  MetadataExtractor.resolveRelation table relation = relation.
Proof.
  intros H. unfold MetadataExtractor.resolveRelation. rewrite H. reflexivity.
Qed.

Lemma resolveRelation_resolved table relation t :
  Js.Map.get table (RelationMetadata.target relation) = Some t ->
  t <> "" ->
  MetadataExtractor.resolveRelation table relation
  = RelationMetadata.set_target t relation.
Proof.
  intros H Hne. unfold MetadataExtractor.resolveRelation. rewrite H.
  unfold Js.truthyString. apply String.eqb_neq in Hne. rewrite Hne.
  reflexivity.
Qed.

(** A reference line is never the empty string, and has a character
    that is not white space. *)
Lemma referenceLine_truthy ambient symbol entity relation :
  Js.truthyString
    (RelationGenerator.referenceLine ambient symbol entity relation)
  = true.
Proof. unfold RelationGenerator.referenceLine. apply join_head_truthy. Qed.

Lemma referenceLine_visible ambient symbol entity relation :
  visible (RelationGenerator.referenceLine ambient symbol entity relation)
  = true.
Proof.
  unfold RelationGenerator.referenceLine. apply join_head_visible.
  reflexivity.
Qed.

Lemma generateRelation_visible ambient entity relation ref :
  RelationGenerator.generateRelation ambient entity relation = Some ref ->
  visible ref = true.
Proof.
  unfold RelationGenerator.generateRelation,
    RelationGenerator.generateOneToOne, RelationGenerator.generateManyToMany.
  destruct (RelationMetadata.type relation).
  - destruct (RelationMetadata.joinColumn relation); [|discriminate].
    intros H. injection H as <-. apply referenceLine_visible.
  - intros H. injection H as <-. apply referenceLine_visible.
  - discriminate.
  - destruct (RelationMetadata.joinTable relation); [|discriminate].
    intros H. injection H as <-. reflexivity.
Qed.

Lemma generateRelation_truthy ambient entity relation ref :
  RelationGenerator.generateRelation ambient entity relation = Some ref ->
  Js.truthyString ref = true.
Proof.
  intros H. apply visible_truthy.
  exact (generateRelation_visible _ _ _ _ H).
Qed.

(** The reference of a relation of an entity of the batch is among the
    references of the batch. *)
Lemma relationRefs_In ambient entities entity relation ref :
  In entity entities ->
  In relation (EntityMetadata.relations entity) ->
  RelationGenerator.generateRelation ambient entity relation = Some ref ->
  In ref (RelationGenerator.relationRefs ambient entities).
Proof.
  intros He Hr Hgen.
  pose proof (generateRelation_truthy _ _ _ _ Hgen) as Htruthy.
  unfold RelationGenerator.relationRefs.
  apply in_flat_map. exists entity. split; [exact He|].
  apply in_flat_map. exists relation. split; [exact Hr|].
  rewrite Hgen, Htruthy. left. reflexivity.
Qed.

(** A reference pushed by [generateRelations] is part of the text it
    returns, and of the document. *)
Lemma generateRelations_includes ambient entities ref :
  In ref (RelationGenerator.relationRefs ambient entities) ->
  Js.includes ref (RelationGenerator.generateRelations ambient entities)
  = true.
Proof.
  intros H. unfold RelationGenerator.generateRelations.
  destruct (RelationGenerator.relationRefs ambient entities) as [|r rs]
    eqn:Hrefs; [contradiction|].
  apply (includes_join ref ref); [exact H | apply includes_refl].
Qed.

Lemma generate_includes_reference ambient self schema ref :
  In ref (RelationGenerator.relationRefs ambient (DBMLSchema.entities schema)) ->
  visible ref = true ->
  Js.includes ref (fst (DBMLGenerator.generate ambient self schema)) = true.
Proof.
  intros Hin Hvisible. rewrite generate_visible_sections.
  pose proof (generateRelations_includes _ _ _ Hin) as Hincl.
  pose proof (visible_includes _ _ Hincl Hvisible) as Hsection.
  apply (includes_join ref
           (RelationGenerator.generateRelations ambient
              (DBMLSchema.entities schema))); [|exact Hincl].
  apply filter_In. split; [|exact Hsection].
  unfold DBMLGenerator.sections. cbv zeta.
  rewrite (visible_truthy _ Hsection).
  apply in_concat.
  exists [RelationGenerator.generateRelations ambient
            (DBMLSchema.entities schema)].
  split; [|left; reflexivity].
  right. right. right. left. reflexivity.
Qed.

(** C8: a relation whose target names no entity of the batch comes out of
    the second pass unchanged, and every other relation and entity is
    resolved exactly as in the batch without that relation.  When the
    relation is of a kind that gives a reference (a many-to-one, a
    one-to-one with join column metadata, a many-to-many with join table
    metadata), its reference is pushed, is part of the text of
    [generateRelations] and is part of the document of [generate]; the
    line of a many-to-one or a one-to-one, and the second line of a
    many-to-many, end in the unresolved identifier as the table name,
    followed by the referenced column and, for the first two, the
    options. *)
Theorem unresolved_target_is_kept_and_emitted
  (ambient : Js.ObjectPrototype) (self : DBMLGenerator.t)
  (enums : list EnumMetadata) (joinTables : list JoinTableEntity.t)
  (es1 es2 : list EntityMetadata.t) (e : EntityMetadata.t)
  (rs1 rs2 : list RelationMetadata.t) (r : RelationMetadata.t) :
  let owner := EntityMetadata.set_relations (rs1 ++ r :: rs2)%list e in
  let batch := (es1 ++ owner :: es2)%list in
  let without :=
    (es1 ++ EntityMetadata.set_relations (rs1 ++ rs2) e :: es2)%list in
  (forall e', In e' batch ->
              EntityMetadata.name e' <> RelationMetadata.target r) ->
  let table := MetadataExtractor.classToTable without in
  let resolveAll := map (MetadataExtractor.resolveRelation table) in
  let resolveEntity e' :=
    EntityMetadata.set_relations (resolveAll (EntityMetadata.relations e'))
      e' in
  let resolved := MetadataExtractor.resolveRelationships batch in
  let unresolvedEnd referenced :=
    escapeIdentifier (RelationMetadata.target r) ++ "."
      ++ escapeIdentifier referenced in
  let lineStart :=
    "Ref: " ++ escapeIdentifier (EntityMetadata.tableName e) ++ "."
      ++ escapeIdentifier
           (Js.orElse
              (RelationGenerator.joinColumnName
                 (RelationMetadata.joinColumn r))
              (toSnakeCase (RelationMetadata.propertyName r) ++ "_id")) in
  let referenced :=
    Js.orElse
      (RelationGenerator.joinColumnReferenced (RelationMetadata.joinColumn r))
      "id" in
  resolved
  = (map resolveEntity es1
       ++ EntityMetadata.set_relations
            (resolveAll rs1 ++ r :: resolveAll rs2) e
       :: map resolveEntity es2)%list
  /\ MetadataExtractor.resolveRelationships without
     = (map resolveEntity es1
          ++ EntityMetadata.set_relations (resolveAll rs1 ++ resolveAll rs2) e
          :: map resolveEntity es2)%list
  /\ (emitsReference r = true ->
      exists ref,
        RelationGenerator.generateRelation ambient e r = Some ref
        /\ In ref (RelationGenerator.relationRefs ambient resolved)
        /\ Js.includes ref
             (RelationGenerator.generateRelations ambient resolved) = true
        /\ Js.includes ref
             (fst (DBMLGenerator.generate ambient self
                     (DBMLSchema.mk resolved enums joinTables))) = true)
  /\ (RelationMetadata.type r = many_to_one ->
      exists options,
        RelationGenerator.generateRelation ambient e r
        = Some (Js.join " "
                  (lineStart :: ">" :: unresolvedEnd referenced :: options)))
  /\ (RelationMetadata.type r = one_to_one ->
      RelationMetadata.joinColumn r <> None ->
      exists options,
        RelationGenerator.generateRelation ambient e r
        = Some (Js.join " "
                  (lineStart :: "-" :: unresolvedEnd referenced :: options)))
  /\ (RelationMetadata.type r = many_to_many ->
      RelationMetadata.joinTable r <> None ->
      exists firstLine joinTableName column secondReferenced,
        RelationGenerator.generateRelation ambient e r
        = Some (Js.join Js.newline
                  [ firstLine;
                    "Ref: " ++ escapeIdentifier joinTableName ++ "."
                      ++ escapeIdentifier column ++ " > "
                      ++ unresolvedEnd secondReferenced ])).
Proof.
  intros owner batch without Habsent table resolveAll resolveEntity resolved
    unresolvedEnd lineStart referenced.
  assert (Htable : MetadataExtractor.classToTable batch = table).
  { apply classToTable_names. unfold batch, without, owner.
    rewrite !map_app. reflexivity. }
  assert (Hnone : Js.Map.get table (RelationMetadata.target r) = None).
  { rewrite <- Htable. unfold MetadataExtractor.classToTable.
    apply (fillTable_absent (RelationMetadata.target r) batch Js.Map.empty).
    exact Habsent. }
  assert (Hbatch : resolved
                   = (map resolveEntity es1
                        ++ EntityMetadata.set_relations
                             (resolveAll rs1 ++ r :: resolveAll rs2) e
                        :: map resolveEntity es2)%list).
  { unfold resolved, MetadataExtractor.resolveRelationships. rewrite Htable.
    unfold batch. rewrite map_app. simpl. f_equal. f_equal.
    unfold resolveAll. rewrite map_app. simpl.
    rewrite (resolveRelation_unresolved _ _ Hnone). reflexivity. }
  split; [exact Hbatch|]. split; [|split; [|split; [|split]]].
  - unfold MetadataExtractor.resolveRelationships. fold table.
    unfold without. rewrite map_app. simpl. f_equal. f_equal.
    unfold resolveAll. rewrite map_app. reflexivity.
  - intros Hemits.
    assert (Hsome : exists ref,
               RelationGenerator.generateRelation ambient e r = Some ref).
    { unfold emitsReference in Hemits.
      unfold RelationGenerator.generateRelation,
        RelationGenerator.generateOneToOne,
        RelationGenerator.generateManyToMany.
      destruct (RelationMetadata.type r).
      - destruct (RelationMetadata.joinColumn r); [|discriminate Hemits].
        eexists. reflexivity.
      - eexists. reflexivity.
      - discriminate Hemits.
      - destruct (RelationMetadata.joinTable r); [|discriminate Hemits].
        eexists. reflexivity. }
    destruct Hsome as [ref Hgen]. exists ref.
    assert (Hin : In ref (RelationGenerator.relationRefs ambient resolved)).
    { rewrite Hbatch.
      apply relationRefs_In
        with (entity := EntityMetadata.set_relations
                          (resolveAll rs1 ++ r :: resolveAll rs2)%list e)
             (relation := r).
      - apply in_or_app. right. left. reflexivity.
      - simpl. apply in_or_app. right. left. reflexivity.
      - exact Hgen. }
    split; [exact Hgen|]. split; [exact Hin|]. split.
    + apply generateRelations_includes. exact Hin.
    + apply generate_includes_reference; [exact Hin|].
      exact (generateRelation_visible _ _ _ _ Hgen).
  - intros Hty. unfold RelationGenerator.generateRelation. rewrite Hty.
    unfold RelationGenerator.generateManyToOne,
      RelationGenerator.referenceLine.
    eexists. reflexivity.
  - intros Hty Hjc. unfold RelationGenerator.generateRelation. rewrite Hty.
    unfold RelationGenerator.generateOneToOne,
      RelationGenerator.referenceLine.
    destruct (RelationMetadata.joinColumn r); [|now elim Hjc].
    eexists. reflexivity.
  - intros Hty Hjt. unfold RelationGenerator.generateRelation. rewrite Hty.
    unfold RelationGenerator.generateManyToMany.
    destruct (RelationMetadata.joinTable r); [|now elim Hjt].
    eexists. eexists. eexists. eexists. reflexivity.
Qed.

Lemma unresolved_target_witness :
  (forall e', In e' postBatch ->
              EntityMetadata.name e' <> RelationMetadata.target authorRelation)
  /\ emitsReference authorRelation = true
  /\ MetadataExtractor.resolveRelationships postBatch
     = [ plainEntity "Post" "post" [authorRelation];
         plainEntity "Tag" "tag" [manyToOne "post" "post"] ]
  /\ exists ref,
       RelationGenerator.generateRelation Js.objectPrototype postEntity
         authorRelation = Some ref
       /\ ref = "Ref: post.author_id > User.id"
       /\ Js.includes ref
            (fst (DBMLGenerator.generate Js.objectPrototype
                    (DBMLGenerator.new None)
                    (DBMLSchema.mk
                       (MetadataExtractor.resolveRelationships postBatch)
                       [] []))) = true.
Proof.
  assert (Habsent : forall e', In e' postBatch ->
            EntityMetadata.name e' <> RelationMetadata.target authorRelation).
  { intros e' [<-|[<-|[]]]; discriminate. }
  split; [exact Habsent|]. split; [reflexivity|].
  destruct
    (unresolved_target_is_kept_and_emitted Js.objectPrototype
       (DBMLGenerator.new None) [] [] [] [tagEntity] postEntity [] []
       authorRelation Habsent)
    as [Hbatch [_ [Hline _]]].
  split; [exact Hbatch|].
  destruct (Hline eq_refl) as [ref [Hgen [_ [_ Hdoc]]]].
  exists ref. split; [exact Hgen|]. split; [|exact Hdoc].
  injection Hgen as <-. reflexivity.
Defined.

(** Two references that the second pass does not rewrite to the table
    name of the entity referred to: the guard of the pass takes an empty
    table name for a miss and leaves the class identifier, and with two
    entities of one class identifier the lookup holds the table name of
    the later one. *)
Lemma forward_backward_resolution_fails :
  (MetadataExtractor.resolveRelationships
     [plainEntity "A" "a" [manyToOne "other" "_"]; underscoreEntity]
   = [ plainEntity "A" "a" [manyToOne "other" "_"];
       plainEntity "_" "" [manyToOne "back" "a"] ]
   /\ RelationMetadata.target (manyToOne "other" "_")
      <> EntityMetadata.tableName underscoreEntity)
  /\ (MetadataExtractor.resolveRelationships
        [plainEntity "A" "a" [manyToOne "other" "B"]; firstB; secondB]
      = [ plainEntity "A" "a" [manyToOne "other" "b_second"];
          plainEntity "B" "b_first" [manyToOne "back" "a"];
          plainEntity "B" "b_second" [] ]
      /\ RelationMetadata.target (manyToOne "other" "b_second")
         <> EntityMetadata.tableName firstB).
Proof.
  split; (split; [reflexivity | discriminate]).
Qed.

(** The entity the first pass makes of a class named by one underscore:
    its table name is empty under every numbering of the node kinds. *)
Example underscore_class_has_empty_table_name (kindNumber : SyntaxKind -> nat) :
  exists schema,
    generateSchema kindNumber
      [mkClass (Some "_") [mkDecorator "Entity" []] [] []]
    = Returns schema
    /\ map (fun e => (EntityMetadata.name e, EntityMetadata.tableName e))
         (DBMLSchema.entities schema)
       = [("_", "")].
Proof. eexists. split; reflexivity. Qed.

Lemma nth_error_resolveRelationships entities i e :
  nth_error entities i = Some e ->
  nth_error (MetadataExtractor.resolveRelationships entities) i
  = Some (EntityMetadata.set_relations
            (map (MetadataExtractor.resolveRelation
                    (MetadataExtractor.classToTable entities))
               (EntityMetadata.relations e))
            e).
Proof.
  intros H. unfold MetadataExtractor.resolveRelationships.
  rewrite nth_error_map, H. reflexivity.
Qed.

(** C2, amended: when a relation of A targets the class identifier of B
    and a relation of B that of A, wherever A and B stand in the batch,
    the second pass rewrites both targets to the table names of B and of
    A, provided those table names are not empty and every entity of the
    batch that shares the class identifier of A or of B has the same table
    name. *)
Theorem forward_backward_resolution
  (entities : list EntityMetadata.t) (i j ri rj : nat)
  (A B : EntityMetadata.t) (rA rB : RelationMetadata.t) :
  nth_error entities i = Some A ->
  nth_error entities j = Some B ->
  nth_error (EntityMetadata.relations A) ri = Some rA ->
  nth_error (EntityMetadata.relations B) rj = Some rB ->
  RelationMetadata.target rA = EntityMetadata.name B ->
  RelationMetadata.target rB = EntityMetadata.name A ->
  EntityMetadata.tableName A <> "" ->
  EntityMetadata.tableName B <> "" ->
  (forall e, In e entities ->
             EntityMetadata.name e = EntityMetadata.name A ->
             EntityMetadata.tableName e = EntityMetadata.tableName A) ->
  (forall e, In e entities ->
             EntityMetadata.name e = EntityMetadata.name B ->
             EntityMetadata.tableName e = EntityMetadata.tableName B) ->
  exists A' B',
    nth_error (MetadataExtractor.resolveRelationships entities) i = Some A'
    /\ nth_error (MetadataExtractor.resolveRelationships entities) j = Some B'
    /\ nth_error (EntityMetadata.relations A') ri
       = Some (RelationMetadata.set_target (EntityMetadata.tableName B) rA)
    /\ nth_error (EntityMetadata.relations B') rj
       = Some (RelationMetadata.set_target (EntityMetadata.tableName A) rB).
Proof.
  intros HA HB HrA HrB HtA HtB HneA HneB HuA HuB.
  assert (Hget : forall E k, nth_error entities k = Some E ->
            (forall e, In e entities ->
                       EntityMetadata.name e = EntityMetadata.name E ->
                       EntityMetadata.tableName e = EntityMetadata.tableName E) ->
            Js.Map.get (MetadataExtractor.classToTable entities)
              (EntityMetadata.name E)
            = Some (EntityMetadata.tableName E)).
  { intros E k Hk Hu. unfold MetadataExtractor.classToTable.
    apply (fillTable_agreed (EntityMetadata.name E) entities Js.Map.empty);
      [exact Hu|].
    right. exists E. split; [|reflexivity].
    apply nth_error_In with (n := k). exact Hk. }
  eexists. eexists.
  split; [apply nth_error_resolveRelationships; exact HA|].
  split; [apply nth_error_resolveRelationships; exact HB|].
  simpl. rewrite !nth_error_map, HrA, HrB. simpl. split; f_equal.
  - apply resolveRelation_resolved; [|exact HneB].
    rewrite HtA. apply (Hget B j HB HuB).
  - apply resolveRelation_resolved; [|exact HneA].
    rewrite HtB. apply (Hget A i HA HuA).
Qed.

Lemma forward_backward_resolution_witness :
  nth_error [bookEntity; authorEntity] 1 = Some authorEntity
  /\ nth_error [bookEntity; authorEntity] 0 = Some bookEntity
  /\ nth_error
       (MetadataExtractor.resolveRelationships [bookEntity; authorEntity]) 1
     = Some (plainEntity "Author" "authors" [manyToOne "favourite" "books"])
  /\ nth_error
       (MetadataExtractor.resolveRelationships [bookEntity; authorEntity]) 0
     = Some (plainEntity "Book" "books" [manyToOne "writer" "authors"]).
Proof.
  split; [reflexivity|]. split; [reflexivity|].
  assert (Hunique : forall E, In E [bookEntity; authorEntity] ->
            forall e, In e [bookEntity; authorEntity] ->
            EntityMetadata.name e = EntityMetadata.name E ->
            EntityMetadata.tableName e = EntityMetadata.tableName E).
  { intros E [<-|[<-|[]]] e [<-|[<-|[]]] H;
      first [reflexivity | discriminate H]. }
  destruct
    (forward_backward_resolution [bookEntity; authorEntity] 1 0 0 0
       authorEntity bookEntity
       (manyToOne "favourite" "Book") (manyToOne "writer" "Author")
       eq_refl eq_refl eq_refl eq_refl eq_refl eq_refl
       ltac:(discriminate) ltac:(discriminate)
       (Hunique authorEntity (or_intror (or_introl eq_refl)))
       (Hunique bookEntity (or_introl eq_refl)))
    as [A' [B' [HA' [HB' [HrA HrB]]]]].
  split.
  - rewrite HA'. f_equal.
    vm_compute in HA'. injection HA' as <-. reflexivity.
  - rewrite HB'. f_equal.
    vm_compute in HB'. injection HB' as <-. reflexivity.
Defined.

(* ================================================================== *)
(** ** The registry of enums *)
(* ================================================================== *)

Lemma values_set (m : ColumnExtractor.EnumsMap) k x v :
  In v (Js.Map.values (Js.Map.set m k x)) ->
  v = x \/ In v (Js.Map.values m).
Proof.
  unfold Js.Map.values.
  induction m as [|[k' v'] m IH]; simpl.
  - intros [<-|[]]. left. reflexivity.
  - destruct (String.eqb k' k); simpl.
    + intros [<-|H]; [left; reflexivity | right; right; exact H].
    + intros [<-|H]; [right; left; reflexivity|].
      destruct (IH H) as [->|H']; [left; reflexivity | right; right; exact H'].
Qed.

(** A loop whose every turn adds to the registry only what its item
    refers to leaves a registry of what was there before and of what the
    items refer to. *)
Lemma fold_left_registry {S B : Type} (registry : S -> ColumnExtractor.EnumsMap)
  (refers : B -> EnumMetadata -> Prop) (f : S -> B -> S) (l : list B) :
  (forall s b v,
     In b l ->
     In v (Js.Map.values (registry (f s b))) ->
     In v (Js.Map.values (registry s)) \/ refers b v) ->
  forall s v,
    In v (Js.Map.values (registry (fold_left f l s))) ->
    In v (Js.Map.values (registry s)) \/ exists b, In b l /\ refers b v.
Proof.
  induction l as [|b l IH]; intros Hstep s v; simpl.
  - intros H. left. exact H.
  - intros H. apply IH in H.
    + destruct H as [H|[b' [Hin Hr]]].
      * apply Hstep in H; [|left; reflexivity].
        destruct H as [H|H]; [left; exact H|].
        right. exists b. split; [left; reflexivity | exact H].
      * right. exists b'. split; [right; exact Hin | exact Hr].
    + intros s' b' v' Hin. apply Hstep. right. exact Hin.
Qed.

Lemma extractEnumMetadata_registry init m enums v :
  In v (Js.Map.values (snd (ColumnExtractor.extractEnumMetadata init m enums))) ->
  In v (Js.Map.values enums)
  \/ exists sym, getTypeSymbol init = Some sym /\ declaresEnum sym v.
Proof.
  unfold ColumnExtractor.extractEnumMetadata.
  destruct (getTypeSymbol init) as [sym|]; [|intros H; left; exact H].
  destruct (Js.Map.has enums (symbolName sym)); [intros H; left; exact H|].
  destruct (symbolDeclarations sym) as [|[members|] rest] eqn:Hdecl;
    try (intros H; left; exact H).
  simpl snd. intros H. apply values_set in H.
  destruct H as [->|H]; [|left; exact H].
  right. exists sym. split; [reflexivity|].
  exists members, rest. split; [exact Hdecl | reflexivity].
Qed.

Lemma columnOption_registry st prop v :
  In v (Js.Map.values (snd (ColumnExtractor.columnOption st prop))) ->
  In v (Js.Map.values (snd st)) \/ entryReferences prop v.
Proof.
  destruct st as [m enums]. unfold ColumnExtractor.columnOption.
  split_ifs; try (intros H; left; exact H).
  intros H. apply extractEnumMetadata_registry in H.
  destruct H as [H|H]; [left; exact H|].
  right. split; [|exact H].
  match goal with
  | E : String.eqb _ "enum" = true |- _ => apply String.eqb_eq in E; exact E
  end.
Qed.

Lemma applyOptions_registry args st v :
  In v (Js.Map.values (snd (ColumnExtractor.applyOptions args st))) ->
  In v (Js.Map.values (snd st))
  \/ exists arg, In arg args /\ argumentReferences arg v.
Proof.
  unfold ColumnExtractor.applyOptions.
  apply (fold_left_registry snd argumentReferences).
  intros s arg v' _.
  destruct (isKind ObjectLiteralExpression arg) eqn:Hkind;
    [|intros H; left; exact H].
  unfold ColumnExtractor.extractColumnOptions. intros H.
  apply (fold_left_registry snd entryReferences) in H.
  - destruct H as [H|[prop [Hin Hr]]]; [left; exact H|].
    right. split; [exact Hkind|]. exists prop. split; assumption.
  - intros s' b v'' _. apply columnOption_registry.
Qed.

Lemma extractColumnFromProperty_registry property enums v :
  In v (Js.Map.values
          (snd (ColumnExtractor.extractColumnFromProperty property enums))) ->
  In v (Js.Map.values enums) \/ propertyReferences property v.
Proof.
  unfold ColumnExtractor.extractColumnFromProperty.
  destruct (findDecorator _ _) as [d|] eqn:Hfind; [|intros H; left; exact H].
  destruct (ColumnExtractor.applyOptions _ _) as [m e] eqn:Happly.
  simpl snd. intros H.
  assert (H' : In v (Js.Map.values
                       (snd (ColumnExtractor.applyOptions
                               (decoratorArguments d)
                               (ColumnExtractor.initialColumn
                                  (decoratorName d)
                                  (propertyGetName property)
                                  (decoratorArguments d), enums)))))
    by (rewrite Happly; exact H).
  apply applyOptions_registry in H'.
  destruct H' as [H'|[arg [Hin Hr]]]; [left; exact H'|].
  right. exists d, arg. split; [exact Hfind|]. split; [exact Hin | exact Hr].
Qed.

Lemma extractColumns_registry classDecl enums v :
  In v (Js.Map.values (snd (ColumnExtractor.extractColumns classDecl enums))) ->
  In v (Js.Map.values enums) \/ classReferences classDecl v.
Proof.
  unfold ColumnExtractor.extractColumns. intros H.
  apply (fold_left_registry snd propertyReferences) in H; [exact H|].
  intros [columns e] property v' _.
  pose proof (extractColumnFromProperty_registry property e v') as Hp.
  destruct (ColumnExtractor.extractColumnFromProperty property e)
    as [[column|] e']; exact Hp.
Qed.

Section Registry.

Variable kindNumber : SyntaxKind -> nat.

Lemma extractEntityMetadata_registry self classDecl v :
  In v (Js.Map.values
          (MetadataExtractor.enumsMap
             (snd (MetadataExtractor.extractEntityMetadata kindNumber self
                     classDecl)))) ->
  In v (Js.Map.values (MetadataExtractor.enumsMap self))
  \/ classReferences classDecl v.
Proof.
  unfold MetadataExtractor.extractEntityMetadata.
  destruct (MetadataExtractor.extractEntityDecorator _ _)
    as [[[tn sc] note]|]; [|intros H; left; exact H].
  pose proof (extractColumns_registry classDecl
                (MetadataExtractor.enumsMap self) v) as Hc.
  destruct (ColumnExtractor.extractColumns _ _) as [columns e].
  destruct (MetadataExtractor.extractInheritance _ _); exact Hc.
Qed.

Lemma firstPass_registry entities self entityMetadata v :
  In v (Js.Map.values
          (MetadataExtractor.enumsMap
             (snd (MetadataExtractor.firstPass kindNumber self entities
                     entityMetadata)))) ->
  In v (Js.Map.values (MetadataExtractor.enumsMap self))
  \/ referencedBy entities v.
Proof.
  revert self entityMetadata.
  induction entities as [|classDecl entities IH]; intros self entityMetadata;
    simpl; [intros H; left; exact H|].
  pose proof (extractEntityMetadata_registry self classDecl v) as He.
  destruct (MetadataExtractor.extractEntityMetadata kindNumber self classDecl)
    as [[metadata|] self'].
  - intros H. apply IH in H. destruct H as [H|[c [Hin Hc]]].
    + destruct (He H) as [H'|H']; [left; exact H'|].
      right. exists classDecl. split; [left; reflexivity | exact H'].
    + right. exists c. split; [right; exact Hin | exact Hc].
  - intros H. destruct (He H) as [H'|H']; [left; exact H'|].
    right. exists classDecl. split; [left; reflexivity | exact H'].
Qed.

(** A schema that [extractMetadata] returns lists the enums the extractor
    held before the call and those the entities of the call refer to. *)
Lemma extractMetadata_enums self entities schema v :
  fst (MetadataExtractor.extractMetadata kindNumber self entities)
  = Returns schema ->
  In v (DBMLSchema.enums schema) ->
  In v (Js.Map.values (MetadataExtractor.enumsMap self))
  \/ referencedBy entities v.
Proof.
  unfold MetadataExtractor.extractMetadata.
  pose proof (firstPass_registry entities self [] v) as Hpass.
  destruct (MetadataExtractor.firstPass kindNumber self entities [])
    as [[metadata|] self']; [|discriminate].
  simpl. intros Hschema. injection Hschema as <-. exact Hpass.
Qed.

(** C9, amended: of two sequential invocations that each construct their
    extractor, as [generateSchema] does, the enums of the schema that the
    second returns are all referenced by the entities of the second
    invocation. *)
Theorem fresh_extractor_lists_only_referenced_enums
  (first second : list ClassDeclaration) (schema2 : DBMLSchema.t)
  (e : EnumMetadata) :
  let outcome1 := generateSchema kindNumber first in
  generateSchema kindNumber second = Returns schema2 ->
  In e (DBMLSchema.enums schema2) -> referencedBy second e.
Proof.
  intros outcome1 Hschema H. unfold generateSchema in Hschema.
  destruct (extractMetadata_enums _ _ _ _ Hschema H) as [[]|H']. exact H'.
Qed.

End Registry.

(** Two sequential calls of [extractMetadata] on one extractor: the second
    call, on an entity that refers to no enum, returns a schema that lists
    the enum of the first call. *)
Lemma reused_extractor_lists_enum_of_first_call :
  (exists schema,
     fst (MetadataExtractor.extractMetadata commentedKindNumber
            (snd (MetadataExtractor.extractMetadata commentedKindNumber
                    MetadataExtractor.new [userWithRole]))
            [tagClass])
     = Returns schema
     /\ DBMLSchema.enums schema = [userRoleEnum])
  /\ ~ referencedBy [tagClass] userRoleEnum.
Proof.
  split; [eexists; split; reflexivity|].
  intros [c [[<-|[]] [p [[<-|[]] [d [arg [Hfind [Hin _]]]]]]]].
  simpl in Hfind. injection Hfind as <-. destruct Hin.
Qed.

Lemma fresh_extractor_witness :
  exists schema,
    generateSchema commentedKindNumber [userWithRole] = Returns schema
    /\ In userRoleEnum (DBMLSchema.enums schema)
    /\ referencedBy [userWithRole] userRoleEnum
    /\ exists schema',
         generateSchema commentedKindNumber [tagClass] = Returns schema'
         /\ DBMLSchema.enums schema' = [].
Proof.
  eexists. split; [reflexivity|].
  assert (H : In userRoleEnum [userRoleEnum]) by (left; reflexivity).
  split; [exact H|]. split; [|eexists; split; reflexivity].
  exact (fresh_extractor_lists_only_referenced_enums commentedKindNumber
           [tagClass] [userWithRole] _ userRoleEnum eq_refl H).
Defined.

(* ================================================================== *)
(** * Further properties of the code *)
(* ================================================================== *)

(** ** Characters and case *)

Ltac each_ascii c := destruct c as [[] [] [] [] [] [] [] []]; reflexivity.

Lemma lowerChar_not_upper c : Js.isUpper (Js.lowerChar c) = false.
Proof. each_ascii c. Qed.

Lemma lowerChar_upperChar c : Js.lowerChar (Js.upperChar c) = Js.lowerChar c.
Proof. each_ascii c. Qed.

Lemma isWordChar_lowerChar c : Js.isWordChar (Js.lowerChar c) = Js.isWordChar c.
Proof. each_ascii c. Qed.

Lemma toLowerCase_cons c s :
  Js.toLowerCase (String c s) = String (Js.lowerChar c) (Js.toLowerCase s).
Proof. reflexivity. Qed.

Lemma toUpperCase_cons c s :
  Js.toUpperCase (String c s) = String (Js.upperChar c) (Js.toUpperCase s).
Proof. reflexivity. Qed.

Lemma underscoreCapitals_cons c s :
  underscoreCapitals (String c s)
  = if Js.isUpper c then String "_" (String c (underscoreCapitals s))
    else String c (underscoreCapitals s).
Proof. reflexivity. Qed.

Lemma toLowerCase_no_capitals s :
  Js.existsChar Js.isUpper (Js.toLowerCase s) = false.
Proof.
  induction s as [|c s IH]; [reflexivity|].
  rewrite toLowerCase_cons, existsChar_cons, lowerChar_not_upper. exact IH.
Qed.

Lemma toLowerCase_fixed s :
  Js.existsChar Js.isUpper s = false -> Js.toLowerCase s = s.
Proof.
  induction s as [|c s IH]; [reflexivity|].
  rewrite existsChar_cons, toLowerCase_cons.
  intros H. apply orb_false_iff in H. destruct H as [Hc Hs].
  unfold Js.lowerChar. rewrite Hc, (IH Hs). reflexivity.
Qed.

Lemma toLowerCase_toUpperCase s :
  Js.toLowerCase (Js.toUpperCase s) = Js.toLowerCase s.
Proof.
  induction s as [|c s IH]; [reflexivity|].
  rewrite toUpperCase_cons, !toLowerCase_cons, lowerChar_upperChar, IH.
  reflexivity.
Qed.

Lemma underscoreCapitals_fixed s :
  Js.existsChar Js.isUpper s = false -> underscoreCapitals s = s.
Proof.
  induction s as [|c s IH]; [reflexivity|].
  rewrite existsChar_cons, underscoreCapitals_cons.
  intros H. apply orb_false_iff in H. destruct H as [Hc Hs].
  rewrite Hc, (IH Hs). reflexivity.
Qed.

Lemma dropLeadingUnderscore_no_capitals s :
  Js.existsChar Js.isUpper s = false ->
  Js.existsChar Js.isUpper (dropLeadingUnderscore s) = false.
Proof.
  destruct s as [|c s]; [trivial|].
  unfold dropLeadingUnderscore. intros H.
  destruct (Ascii.eqb c "_"); [|exact H].
  rewrite existsChar_cons in H. apply orb_false_iff in H. apply H.
Qed.

(** X1: the snake case of a name has no capital letter, and converting
    it again only removes one more leading underscore. *)
Theorem toSnakeCase_twice (str : string) :
  Js.existsChar Js.isUpper (toSnakeCase str) = false
  /\ toSnakeCase (toSnakeCase str) = dropLeadingUnderscore (toSnakeCase str).
Proof.
  assert (H : Js.existsChar Js.isUpper (toSnakeCase str) = false).
  { unfold toSnakeCase. apply dropLeadingUnderscore_no_capitals,
      toLowerCase_no_capitals. }
  split; [exact H|].
  unfold toSnakeCase at 1.
  rewrite (underscoreCapitals_fixed _ H), (toLowerCase_fixed _ H).
  reflexivity.
Qed.

(** X2: a name without capital letters that does not start with an
    underscore is its own snake case. *)
Theorem toSnakeCase_fixed (str : string) :
  Js.existsChar Js.isUpper str = false ->
  String.prefix "_" str = false ->
  toSnakeCase str = str.
Proof.
  intros Hcap Hpre. unfold toSnakeCase.
  rewrite (underscoreCapitals_fixed _ Hcap), (toLowerCase_fixed _ Hcap).
  destruct str as [|c s]; [reflexivity|]. simpl in *.
  destruct (ascii_dec "_" c) as [<-|Hne].
  - destruct s; discriminate Hpre.
  - destruct (Ascii.eqb_spec c "_") as [->|_]; [now elim Hne | reflexivity].
Qed.

Lemma toSnakeCase_fixed_witness :
  Js.existsChar Js.isUpper "created_at" = false
  /\ String.prefix "_" "created_at" = false
  /\ toSnakeCase "created_at" = "created_at".
Proof.
  split; [reflexivity|]. split; [reflexivity|].
  apply toSnakeCase_fixed; reflexivity.
Defined.

(** The conversion is not idempotent on a name that starts with an
    underscore and a capital: the second conversion removes one more
    underscore. *)
Example toSnakeCase_not_idempotent :
  toSnakeCase "_Id" = "_id" /\ toSnakeCase "_id" = "id".
Proof. split; reflexivity. Qed.

(** ** Identifiers *)

Lemma append_char_inj (a b : string) (q : ascii) :
  a ++ String q EmptyString = b ++ String q EmptyString -> a = b.
Proof.
  revert b. induction a as [|x a IH]; intros [|y b] H; simpl in H.
  - reflexivity.
  - injection H as _ H. destruct b; discriminate H.
  - injection H as _ H. destruct a; discriminate H.
  - injection H as -> H. f_equal. apply IH. exact H.
Qed.

Lemma escapeIdentifier_cases identifier :
  (needsQuotes identifier = false /\ escapeIdentifier identifier = identifier)
  \/ (needsQuotes identifier = true
      /\ escapeIdentifier identifier
         = String Js.dquote (identifier ++ String Js.dquote EmptyString)).
Proof.
  unfold escapeIdentifier, needsQuotes.
  destruct (Js.existsChar _ identifier); [right | left]; split; reflexivity.
Qed.

Lemma escapeIdentifier_inj (a b : string) :
  escapeIdentifier a = escapeIdentifier b -> a = b.
Proof.
  intros H.
  destruct (escapeIdentifier_cases a) as [[Ha Ea]|[Ha Ea]],
    (escapeIdentifier_cases b) as [[Hb Eb]|[Hb Eb]];
    rewrite Ea, Eb in H.
  - exact H.
  - rewrite H in Ha. discriminate Ha.
  - rewrite <- H in Hb. discriminate Hb.
  - injection H as H. apply append_char_inj in H. exact H.
Qed.

(** X3: identifiers that differ are emitted as texts that differ,
    quoted or not. *)
Theorem escapeIdentifier_distinct (a b : string) :
  a <> b -> escapeIdentifier a <> escapeIdentifier b.
Proof. intros Hne H. apply Hne, escapeIdentifier_inj, H. Qed.

Lemma escapeIdentifier_distinct_witness :
  "order items" <> "order_items"
  /\ escapeIdentifier "order items" <> escapeIdentifier "order_items".
Proof.
  assert (H : "order items" <> "order_items") by discriminate.
  split; [exact H | exact (escapeIdentifier_distinct _ _ H)].
Defined.

Lemma needsQuotes_cons c s :
  needsQuotes (String c s) = negb (Js.isWordChar c) || needsQuotes s.
Proof. reflexivity. Qed.

Lemma needsQuotes_toSnakeCase s :
  needsQuotes s = false -> needsQuotes (toSnakeCase s) = false.
Proof.
  intros H. unfold toSnakeCase.
  assert (H1 : needsQuotes (Js.toLowerCase (underscoreCapitals s)) = false).
  { induction s as [|c s IH]; [reflexivity|].
    rewrite needsQuotes_cons in H. apply orb_false_iff in H.
    destruct H as [Hc Hs]. rewrite underscoreCapitals_cons.
    destruct (Js.isUpper c);
      rewrite !toLowerCase_cons, !needsQuotes_cons, !isWordChar_lowerChar, Hc,
        (IH Hs); reflexivity. }
  destruct (Js.toLowerCase (underscoreCapitals s)) as [|c t]; [reflexivity|].
  unfold dropLeadingUnderscore. destruct (Ascii.eqb c "_"); [|exact H1].
  rewrite needsQuotes_cons in H1. apply orb_false_iff in H1. apply H1.
Qed.

(** X4: the snake case of a name made of letters, digits and
    underscores is emitted without quotes. *)
Theorem snake_case_name_needs_no_quotes (name : string) :
  needsQuotes name = false ->
  escapeIdentifier (toSnakeCase name) = toSnakeCase name.
Proof.
  intros H. unfold escapeIdentifier. fold (needsQuotes (toSnakeCase name)).
  rewrite (needsQuotes_toSnakeCase _ H). reflexivity.
Qed.

Lemma snake_case_name_needs_no_quotes_witness :
  needsQuotes "OrderItem2" = false
  /\ escapeIdentifier (toSnakeCase "OrderItem2") = "order_item2".
Proof.
  split; [reflexivity|].
  rewrite snake_case_name_needs_no_quotes; reflexivity.
Defined.

(** ** The type table *)

Lemma lookupLast_In m k v :
  Js.lookupLast m k = Some v -> In (k, v) m.
Proof.
  induction m as [|[k' v'] m IH]; simpl; [discriminate|].
  destruct (Js.lookupLast m k) as [v0|].
  - intros H. right. apply IH. exact H.
  - destruct (String.eqb_spec k' k) as [->|_]; [|discriminate].
    intros H. injection H as ->. left. reflexivity.
Qed.

Lemma In_get {V} (m : Js.Map.t V) k v :
  Js.Map.get m k = Some v -> In (k, v) m.
Proof.
  induction m as [|[k' v'] m IH]; simpl; [discriminate|].
  destruct (String.eqb_spec k' k) as [->|_].
  - intros E. injection E as ->. left. reflexivity.
  - intros H. right. exact (IH H).
Qed.

Lemma upperChar_not_lower c : Js.isLower (Js.upperChar c) = false.
Proof. each_ascii c. Qed.

Lemma toUpperCase_no_lower s :
  Js.existsChar Js.isLower (Js.toUpperCase s) = false.
Proof.
  induction s as [|c s IH]; [reflexivity|].
  rewrite toUpperCase_cons, existsChar_cons, upperChar_not_lower. exact IH.
Qed.

(** The names of the properties a process starts with have a lower-case
    letter, and all but two have a capital. *)
Lemma objectPrototype_keys k v :
  Js.Map.get Js.objectPrototype k = Some v ->
  Js.existsChar Js.isLower k = true
  /\ (Js.existsChar Js.isUpper k = true
      \/ k = "constructor" \/ k = "__proto__").
Proof.
  intros H. apply In_get in H. unfold Js.objectPrototype in H.
  repeat (destruct H as [H|H];
          [injection H as <- _; split;
           [reflexivity
           | first [left; reflexivity
                   | right; left; reflexivity
                   | right; right; reflexivity]]|]).
  destruct H.
Qed.

Lemma objectPrototype_lower k :
  Js.existsChar Js.isUpper k = false ->
  k <> "constructor" -> k <> "__proto__" ->
  Js.Map.get Js.objectPrototype k = None.
Proof.
  intros Hlower Hc Hp.
  destruct (Js.Map.get Js.objectPrototype k) as [v|] eqn:Hget;
    [|reflexivity].
  destruct (objectPrototype_keys k v Hget) as [_ [H|[H|H]]].
  - rewrite H in Hlower. discriminate Hlower.
  - contradiction.
  - contradiction.
Qed.

Lemma objectPrototype_upper text :
  Js.Map.get Js.objectPrototype (Js.toUpperCase text) = None.
Proof.
  destruct (Js.Map.get Js.objectPrototype (Js.toUpperCase text)) as [v|]
    eqn:Hget; [|reflexivity].
  destruct (objectPrototype_keys _ v Hget) as [H _].
  rewrite toUpperCase_no_lower in H. discriminate H.
Qed.

(** A name is read from the literal, or is no property of the object
    prototype. *)
Lemma readProperty_own_or_absent literal ambient key :
  Js.isDefined (Js.lookupLast literal key) = true
  \/ Js.Map.get ambient key = None ->
  Js.readProperty literal ambient key
  = match Js.lookupLast literal key with
    | Some v => Some (Js.Str v)
    | None => None
    end.
Proof.
  unfold Js.readProperty.
  destruct (Js.lookupLast literal key); [reflexivity|].
  intros [H|H]; [discriminate H | exact H].
Qed.

Lemma typeMap_values_fixed k v :
  In (k, v) TypeMapper.typeMap ->
  Js.truthyString v = true
  /\ TypeMapper.getBaseType Js.objectPrototype v = Js.Str v.
Proof.
  intros Hin.
  assert (Hall : forallb
                   (fun kv =>
                      Js.truthyString (snd kv)
                      && match TypeMapper.getBaseType Js.objectPrototype
                                 (snd kv) with
                         | Js.Str base => String.eqb base (snd kv)
                         | Js.NotString _ _ => false
                         end)
                   TypeMapper.typeMap = true) by (vm_compute; reflexivity).
  rewrite forallb_forall in Hall. specialize (Hall _ Hin). simpl in Hall.
  apply andb_true_iff in Hall. destruct Hall as [Ht Hbase].
  split; [exact Ht|].
  destruct (TypeMapper.getBaseType Js.objectPrototype v) as [base|];
    [|discriminate Hbase].
  apply String.eqb_eq in Hbase. rewrite Hbase. reflexivity.
Qed.

(** X5: the base type does not depend on the case of the type given,
    whatever the object prototype holds; in a process that has not
    touched the prototype the base type of every type but constructor
    and __proto__ (in any case of the letters) is a string and is its
    own base type. *)
Theorem getBaseType_idempotent (ambient : Js.ObjectPrototype)
  (typeormType : string) :
  (TypeMapper.getBaseType ambient (Js.toUpperCase typeormType)
   = TypeMapper.getBaseType ambient typeormType
   /\ TypeMapper.getBaseType ambient (Js.toLowerCase typeormType)
      = TypeMapper.getBaseType ambient typeormType)
  /\ (Js.toLowerCase typeormType <> "constructor" ->
      Js.toLowerCase typeormType <> "__proto__" ->
      exists base,
        TypeMapper.getBaseType Js.objectPrototype typeormType = Js.Str base
        /\ TypeMapper.getBaseType Js.objectPrototype base = Js.Str base).
Proof.
  assert (Hlow : Js.toLowerCase (Js.toLowerCase typeormType)
                 = Js.toLowerCase typeormType)
    by (apply toLowerCase_fixed, toLowerCase_no_capitals).
  split; [split|].
  - unfold TypeMapper.getBaseType. rewrite toLowerCase_toUpperCase.
    reflexivity.
  - unfold TypeMapper.getBaseType. rewrite Hlow. reflexivity.
  - intros Hc Hp.
    assert (Habsent : Js.Map.get Js.objectPrototype
                        (Js.toLowerCase typeormType) = None)
      by (apply objectPrototype_lower;
          [apply toLowerCase_no_capitals | exact Hc | exact Hp]).
    pose proof (readProperty_own_or_absent TypeMapper.typeMap
                  Js.objectPrototype _ (or_intror Habsent)) as Hprop.
    destruct (Js.lookupLast TypeMapper.typeMap
                (Js.toLowerCase typeormType)) as [v|] eqn:Hlook.
    + apply lookupLast_In in Hlook.
      destruct (typeMap_values_fixed _ _ Hlook) as [Ht Hv].
      exists v. split; [|exact Hv].
      unfold TypeMapper.getBaseType. rewrite Hprop. simpl. rewrite Ht.
      reflexivity.
    + exists (Js.toLowerCase typeormType).
      assert (E : TypeMapper.getBaseType Js.objectPrototype typeormType
                  = Js.Str (Js.toLowerCase typeormType))
        by (unfold TypeMapper.getBaseType; rewrite Hprop; reflexivity).
      split; [exact E|].
      unfold TypeMapper.getBaseType. rewrite Hlow, Hprop. reflexivity.
Qed.

Lemma getBaseType_idempotent_witness :
  Js.toLowerCase "Time With Time Zone" <> "constructor"
  /\ Js.toLowerCase "Time With Time Zone" <> "__proto__"
  /\ TypeMapper.getBaseType Js.objectPrototype "Time With Time Zone"
     = Js.Str "timetz"
  /\ TypeMapper.getBaseType Js.objectPrototype "timetz" = Js.Str "timetz".
Proof.
  assert (Hc : Js.toLowerCase "Time With Time Zone" <> "constructor")
    by (vm_compute; discriminate).
  assert (Hp : Js.toLowerCase "Time With Time Zone" <> "__proto__")
    by (vm_compute; discriminate).
  split; [exact Hc|]. split; [exact Hp|].
  destruct (proj2 (getBaseType_idempotent Js.objectPrototype
                     "Time With Time Zone") Hc Hp)
    as [base [E1 E2]].
  assert (Eb : base = "timetz")
    by (vm_compute in E1; injection E1 as <-; reflexivity).
  subst base. split; [exact E1 | exact E2].
Defined.

(** ** Cascade actions *)

(** X6: a cascade action that the action table lists, or whose name is
    no property of the object prototype, is rendered as the action in
    lower case; in a process that has not touched the prototype that
    holds of every action in upper case, so the action the relation
    extractor puts in upper case comes out as the text of the option in
    lower case. *)
Theorem formatCascadeAction_lower_case (ambient : Js.ObjectPrototype)
  (action text : string) :
  (Js.isDefined (Js.lookupLast RelationGenerator.actionMap action) = true
   \/ Js.Map.get ambient action = None ->
   RelationGenerator.formatCascadeAction ambient action
   = Js.Str (Js.toLowerCase action))
  /\ RelationGenerator.formatCascadeAction Js.objectPrototype
       (Js.toUpperCase text)
     = Js.Str (Js.toLowerCase text).
Proof.
  assert (H : forall ambient' a,
             Js.isDefined (Js.lookupLast RelationGenerator.actionMap a) = true
             \/ Js.Map.get ambient' a = None ->
             RelationGenerator.formatCascadeAction ambient' a
             = Js.Str (Js.toLowerCase a)).
  { intros ambient' a Hread. unfold RelationGenerator.formatCascadeAction.
    rewrite (readProperty_own_or_absent _ _ _ Hread).
    destruct (Js.lookupLast RelationGenerator.actionMap a) as [v|]
      eqn:Hlook; [|reflexivity].
    apply lookupLast_In in Hlook. simpl in Hlook.
    destruct Hlook as [E|[E|[E|[E|[E|[]]]]]];
      injection E as <- <-; reflexivity. }
  split; [apply H|].
  rewrite H; [|right; apply objectPrototype_upper].
  rewrite toLowerCase_toUpperCase. reflexivity.
Qed.

Lemma formatCascadeAction_lower_case_witness :
  Js.Map.get Js.objectPrototype "Set Null" = None
  /\ RelationGenerator.formatCascadeAction Js.objectPrototype "Set Null"
     = Js.Str "set null".
Proof.
  split; [reflexivity|].
  exact (proj1 (formatCascadeAction_lower_case Js.objectPrototype "Set Null"
                  "")
           (or_intror eq_refl)).
Defined.

(** With the prototype as the process starts it, the action constructor
    is rendered as the text of a native function. *)
Example formatCascadeAction_inherited :
  RelationGenerator.generateRelationOptions Js.objectPrototype
    (RelationMetadata.mk "author" many_to_one "User" None None None
       (Some "constructor") None)
  = Some "[delete: function Object() { [native code] }]".
Proof. reflexivity. Qed.

(** ** Table groups *)

Lemma addToGroup_get groups entity schema :
  Js.Map.get (addToGroup groups entity) schema
  = if String.eqb (schemaOf entity) schema
    then Some (groupOr (Js.Map.get groups schema)
                 ++ [EntityMetadata.tableName entity])%list
    else Js.Map.get groups schema.
Proof.
  unfold addToGroup, schemaOf, Js.Map.has.
  set (k := Js.orElse (EntityMetadata.schema entity) "public").
  destruct (Js.Map.get groups k) as [l|] eqn:Hk; simpl Js.isDefined; cbv iota.
  - rewrite Hk.
    destruct (String.eqb_spec k schema) as [<-|Hne].
    + rewrite get_set_same, Hk. reflexivity.
    + apply get_set_other. exact Hne.
  - rewrite get_set_same.
    destruct (String.eqb_spec k schema) as [<-|Hne].
    + rewrite get_set_same, Hk. reflexivity.
    + rewrite !get_set_other by exact Hne. reflexivity.
Qed.

Lemma fold_addToGroup_get entities groups schema :
  Js.Map.get (fold_left addToGroup entities groups) schema
  = match Js.Map.get groups schema, tablesOfSchema schema entities with
    | None, [] => None
    | o, tables => Some (groupOr o ++ tables)%list
    end.
Proof.
  revert groups. induction entities as [|e es IH]; intros groups; simpl.
  - destruct (Js.Map.get groups schema); simpl;
      [rewrite app_nil_r|]; reflexivity.
  - rewrite IH, addToGroup_get. unfold tablesOfSchema. simpl.
    destruct (String.eqb (schemaOf e) schema); simpl.
    + rewrite <- app_assoc. simpl.
      destruct (Js.Map.get groups schema); reflexivity.
    + reflexivity.
Qed.

(** The group of a schema: the table names of the entities of that
    schema, in input order; none when no entity has the schema. *)
Lemma schemaGroups_lookup (entities : list EntityMetadata.t)
  (schema : string) :
  Js.Map.get (DBMLGenerator.schemaGroups entities) schema
  = match tablesOfSchema schema entities with
    | [] => None
    | tables => Some tables
    end.
Proof.
  unfold DBMLGenerator.schemaGroups.
  change (Js.Map.get (fold_left addToGroup entities Js.Map.empty) schema
          = match tablesOfSchema schema entities with
            | [] => None
            | tables => Some tables
            end).
  rewrite fold_addToGroup_get. simpl.
  destruct (tablesOfSchema schema entities); reflexivity.
Qed.

Lemma keys_set {V} (m : Js.Map.t V) k v :
  Js.Map.keys (Js.Map.set m k v)
  = if Js.Map.has m k then Js.Map.keys m else (Js.Map.keys m ++ [k])%list.
Proof.
  unfold Js.Map.has, Js.Map.keys.
  induction m as [|[k' v'] m IH]; simpl; [reflexivity|].
  destruct (String.eqb k' k); simpl; [reflexivity|].
  rewrite IH. destruct (Js.Map.get m k); reflexivity.
Qed.

Lemma has_In_keys {V} (m : Js.Map.t V) k :
  Js.Map.has m k = true <-> In k (Js.Map.keys m).
Proof.
  unfold Js.Map.has, Js.Map.keys.
  induction m as [|[k' v'] m IH]; simpl.
  - split; [discriminate | intros []].
  - destruct (String.eqb_spec k' k) as [->|Hne]; simpl.
    + split; [left; reflexivity | reflexivity].
    + rewrite IH. split; [right; assumption|].
      intros [E|H]; [contradiction | exact H].
Qed.

Lemma NoDup_keys_set {V} (m : Js.Map.t V) k v :
  NoDup (Js.Map.keys m) -> NoDup (Js.Map.keys (Js.Map.set m k v)).
Proof.
  intros H. rewrite keys_set.
  destruct (Js.Map.has m k) eqn:Hhas; [exact H|].
  apply NoDup_app; [exact H | repeat constructor; intros [] |].
  intros x Hx [<-|[]]. apply has_In_keys in Hx. congruence.
Qed.

Lemma get_In {V} (m : Js.Map.t V) k v :
  NoDup (Js.Map.keys m) -> In (k, v) m -> Js.Map.get m k = Some v.
Proof.
  unfold Js.Map.keys.
  induction m as [|[k' v'] m IH]; simpl; [intros _ []|].
  intros Hnd [E|Hin].
  - injection E as -> ->. rewrite String.eqb_refl. reflexivity.
  - inversion Hnd as [|? ? Hnot Hnd']; subst.
    destruct (String.eqb_spec k' k) as [->|_]; [|exact (IH Hnd' Hin)].
    elim Hnot. change k with (fst (k, v)). apply in_map. exact Hin.
Qed.

Lemma addToGroup_NoDup groups entity :
  NoDup (Js.Map.keys groups) -> NoDup (Js.Map.keys (addToGroup groups entity)).
Proof.
  intros Hnd. unfold addToGroup.
  set (k := Js.orElse (EntityMetadata.schema entity) "public").
  assert (Hnd1 : NoDup (Js.Map.keys
                          (if Js.Map.has groups k then groups
                           else Js.Map.set groups k []))).
  { destruct (Js.Map.has groups k); [exact Hnd | apply NoDup_keys_set, Hnd]. }
  destruct (Js.Map.get _ k); [apply NoDup_keys_set, Hnd1 | exact Hnd1].
Qed.

(** X7: the table groups have one entry per schema, the schema of an
    entity without one being public; the entry of a schema lists the
    table names of its entities in input order, and no entry is empty. *)
Theorem schemaGroups_entries (entities : list EntityMetadata.t) :
  NoDup (Js.Map.keys (DBMLGenerator.schemaGroups entities))
  /\ forall schema tables,
       In (schema, tables) (DBMLGenerator.schemaGroups entities)
       <-> tables = tablesOfSchema schema entities /\ tables <> [].
Proof.
  assert (Hnd : NoDup (Js.Map.keys (DBMLGenerator.schemaGroups entities))).
  { unfold DBMLGenerator.schemaGroups.
    change (NoDup (Js.Map.keys (fold_left addToGroup entities Js.Map.empty))).
    apply (fold_left_invariant (fun g => NoDup (Js.Map.keys g)));
      [constructor|].
    intros g e _. apply addToGroup_NoDup. }
  split; [exact Hnd|]. intros schema tables. split.
  - intros Hin. apply (get_In _ _ _ Hnd) in Hin.
    rewrite schemaGroups_lookup in Hin.
    destruct (tablesOfSchema schema entities); [discriminate|].
    injection Hin as <-. split; [reflexivity | discriminate].
  - intros [-> Hne]. apply In_get. rewrite schemaGroups_lookup.
    destruct (tablesOfSchema schema entities); [contradiction | reflexivity].
Qed.

Lemma schemaGroups_entries_witness :
  In ("sales", ["orders"; "invoices"])
    (DBMLGenerator.schemaGroups
       [ EntityMetadata.mk "Order" "orders" (Some "sales") [] [] [] [] []
           None None;
         plainEntity "Tag" "tag" [];
         EntityMetadata.mk "Invoice" "invoices" (Some "sales") [] [] [] [] []
           None None ])
  /\ ["orders"; "invoices"] <> [].
Proof.
  assert (H : In ("sales", ["orders"; "invoices"])
                (DBMLGenerator.schemaGroups
                   [ EntityMetadata.mk "Order" "orders" (Some "sales") [] []
                       [] [] [] None None;
                     plainEntity "Tag" "tag" [];
                     EntityMetadata.mk "Invoice" "invoices" (Some "sales") []
                       [] [] [] [] None None ]))
    by (left; reflexivity).
  split; [exact H|].
  exact (proj2 (proj1 (proj2 (schemaGroups_entries _) _ _) H)).
Defined.

(** ** References *)

Lemma generateRelation_emits ambient entity relation :
  Js.isDefined (RelationGenerator.generateRelation ambient entity relation)
  = emitsReference relation.
Proof.
  unfold RelationGenerator.generateRelation, emitsReference,
    RelationGenerator.generateOneToOne, RelationGenerator.generateManyToMany.
  destruct (RelationMetadata.type relation);
    [destruct (RelationMetadata.joinColumn relation) | | |
     destruct (RelationMetadata.joinTable relation)]; reflexivity.
Qed.

Lemma entityRefs_length ambient entity relations :
  List.length
    (flat_map
       (fun relation =>
          match RelationGenerator.generateRelation ambient entity relation with
          | Some ref => if Js.truthyString ref then [ref] else []
          | None => []
          end)
       relations)
  = List.length (filter emitsReference relations).
Proof.
  induction relations as [|r rs IH]; simpl; [reflexivity|].
  rewrite length_app, IH, <- (generateRelation_emits ambient entity r).
  destruct (RelationGenerator.generateRelation ambient entity r) as [ref|] eqn:Hgen;
    simpl; [|reflexivity].
  rewrite (generateRelation_truthy _ _ _ _ Hgen). reflexivity.
Qed.

(** X8: the batch gives one reference entry per relation that is a
    many-to-one, a one-to-one with join column metadata or a many-to-many
    with join table metadata (whose entry holds two lines), and none for
    any other relation. *)
Theorem relationRefs_count (ambient : Js.ObjectPrototype)
  (entities : list EntityMetadata.t) :
  List.length (RelationGenerator.relationRefs ambient entities)
  = List.length
      (filter emitsReference (flat_map EntityMetadata.relations entities)).
Proof.
  unfold RelationGenerator.relationRefs.
  induction entities as [|e es IH]; simpl; [reflexivity|].
  rewrite length_app, filter_app, length_app, IH, (entityRefs_length ambient).
  reflexivity.
Qed.

(** ** The second pass *)

Lemma fillTable_some k entities m t :
  Js.Map.get (fillTable m entities) k = Some t ->
  Js.Map.get m k = Some t
  \/ exists e, In e entities /\ EntityMetadata.name e = k
               /\ EntityMetadata.tableName e = t.
Proof.
  unfold fillTable. revert m.
  induction entities as [|e es IH]; intros m; simpl.
  - intros H. left. exact H.
  - intros H. apply IH in H. destruct H as [H|[e' [Hin [Hn Ht]]]].
    + destruct (String.eqb_spec (EntityMetadata.name e) k) as [Hk|Hk].
      * rewrite Hk, get_set_same in H. injection H as <-.
        right. exists e. repeat split; [left; reflexivity | exact Hk].
      * rewrite get_set_other in H by exact Hk. left. exact H.
    + right. exists e'. repeat split; [right; exact Hin | exact Hn | exact Ht].
Qed.

(** X9: the second pass keeps every entity and relation in place and
    changes nothing but targets; a target it changes becomes the
    non-empty table name of an entity of the batch whose class name is
    the old target. *)
Theorem resolveRelationships_rewrites_targets_only
  (entities : list EntityMetadata.t) (i j : nat) (e : EntityMetadata.t)
  (r : RelationMetadata.t) :
  nth_error entities i = Some e ->
  nth_error (EntityMetadata.relations e) j = Some r ->
  exists e' r',
    nth_error (MetadataExtractor.resolveRelationships entities) i = Some e'
    /\ e' = EntityMetadata.set_relations (EntityMetadata.relations e') e
    /\ List.length (EntityMetadata.relations e')
       = List.length (EntityMetadata.relations e)
    /\ nth_error (EntityMetadata.relations e') j = Some r'
    /\ r' = RelationMetadata.set_target (RelationMetadata.target r') r
    /\ (RelationMetadata.target r' = RelationMetadata.target r
        \/ (RelationMetadata.target r' <> ""
            /\ exists e0,
                 In e0 entities
                 /\ EntityMetadata.name e0 = RelationMetadata.target r
                 /\ EntityMetadata.tableName e0 = RelationMetadata.target r')).
Proof.
  intros He Hr.
  eexists. eexists.
  split; [apply nth_error_resolveRelationships; exact He|].
  split; [destruct e; reflexivity|].
  split; [simpl; apply length_map|].
  split; [simpl; rewrite nth_error_map, Hr; reflexivity|].
  unfold MetadataExtractor.resolveRelation.
  destruct (Js.Map.get _ (RelationMetadata.target r)) as [t|] eqn:Hget.
  - destruct (Js.truthyString t) eqn:Ht.
    + split; [destruct r; reflexivity|]. right. split.
      * simpl. intros ->. discriminate Ht.
      * unfold MetadataExtractor.classToTable in Hget.
        apply (fillTable_some _ entities Js.Map.empty) in Hget.
        destruct Hget as [Hget|Hget]; [discriminate Hget | exact Hget].
    + split; [destruct r; reflexivity | left; reflexivity].
  - split; [destruct r; reflexivity | left; reflexivity].
Qed.

Lemma resolveRelationships_rewrites_targets_only_witness :
  nth_error [bookEntity; authorEntity] 1 = Some authorEntity
  /\ nth_error (EntityMetadata.relations authorEntity) 0
     = Some (manyToOne "favourite" "Book")
  /\ exists e' r',
       nth_error
         (MetadataExtractor.resolveRelationships [bookEntity; authorEntity]) 1
       = Some e'
       /\ nth_error (EntityMetadata.relations e') 0 = Some r'
       /\ r' = RelationMetadata.set_target (RelationMetadata.target r')
                 (manyToOne "favourite" "Book").
Proof.
  split; [reflexivity|]. split; [reflexivity|].
  destruct
    (resolveRelationships_rewrites_targets_only [bookEntity; authorEntity]
       1 0 authorEntity (manyToOne "favourite" "Book") eq_refl eq_refl)
    as [e' [r' [H1 [_ [_ [H2 [H3 _]]]]]]].
  exists e', r'. repeat split; assumption.
Defined.

(** ** Columns *)

Lemma columnOption_propertyName st prop :
  ColumnMetadata.propertyName (fst (ColumnExtractor.columnOption st prop))
  = ColumnMetadata.propertyName (fst st).
Proof.
  destruct st as [m enums]. unfold ColumnExtractor.columnOption.
  split_ifs; try (destruct m; reflexivity).
  unfold ColumnExtractor.extractEnumMetadata.
  destruct m, (getTypeSymbol (snd prop)) as [[n [|[members|] ds]]|];
    simpl; split_ifs; reflexivity.
Qed.

Lemma columnOption_columnName st prop :
  fst prop <> "name" ->
  ColumnMetadata.columnName (fst (ColumnExtractor.columnOption st prop))
  = ColumnMetadata.columnName (fst st).
Proof.
  intros Hname. destruct st as [m enums]. unfold ColumnExtractor.columnOption.
  split_ifs; try (destruct m; reflexivity).
  - match goal with
    | H : String.eqb _ "name" = true |- _ => apply String.eqb_eq in H
    end.
    contradiction.
  - unfold ColumnExtractor.extractEnumMetadata.
    destruct m, (getTypeSymbol (snd prop)) as [[n [|[members|] ds]]|];
      simpl; split_ifs; reflexivity.
Qed.

Lemma extractColumnFromProperty_unfold property enums :
  ColumnExtractor.extractColumnFromProperty property enums
  = match findDecorator ColumnExtractor.columnDecorators
            (propertyDecorators property) with
    | None => (None, enums)
    | Some d =>
        let st :=
          ColumnExtractor.applyOptions (decoratorArguments d)
            (ColumnExtractor.initialColumn (decoratorName d)
               (propertyGetName property) (decoratorArguments d), enums) in
        (Some (finishColumn property (fst st)), snd st)
    end.
Proof.
  unfold ColumnExtractor.extractColumnFromProperty, finishColumn.
  destruct (findDecorator _ _) as [d|]; [|reflexivity]. cbv zeta.
  destruct (ColumnExtractor.applyOptions _ _) as [m e]. reflexivity.
Qed.

Lemma finishColumn_names property m :
  ColumnMetadata.propertyName (finishColumn property m)
  = ColumnMetadata.propertyName m
  /\ ColumnMetadata.columnName (finishColumn property m)
     = ColumnMetadata.columnName m
  /\ ColumnMetadata.comment (finishColumn property m)
     = match firstDocComment (propertyJsDocs property) with
       | Some comment => Some comment
       | None => ColumnMetadata.comment m
       end.
Proof.
  unfold finishColumn, ColumnExtractor.inferTypeFromTsType.
  destruct m; simpl.
  destruct (firstDocComment _); split_ifs; repeat split.
Qed.

Lemma initialColumn_identity dn pn args :
  let m := ColumnExtractor.initialColumn dn pn args in
  ColumnMetadata.propertyName m = pn
  /\ ColumnMetadata.columnName m = toSnakeCase pn
  /\ ColumnMetadata.isPrimary m
     = String.eqb dn "PrimaryColumn"
       || String.eqb dn "PrimaryGeneratedColumn"
  /\ ColumnMetadata.isGenerated m = String.eqb dn "PrimaryGeneratedColumn".
Proof.
  unfold ColumnExtractor.initialColumn, ColumnExtractor.generatedColumn.
  destruct args as [|arg0 args]; split_ifs; repeat split.
Qed.

Lemma extracted_column_propertyName
  (property : PropertyDeclaration) (enums enums' : ColumnExtractor.EnumsMap)
  (column : ColumnMetadata.t) :
  ColumnExtractor.extractColumnFromProperty property enums
  = (Some column, enums') ->
  ColumnMetadata.propertyName column = propertyGetName property.
Proof.
  intros Hex.
  destruct (findDecorator ColumnExtractor.columnDecorators
              (propertyDecorators property)) as [d|] eqn:Hfind.
  - rewrite extractColumnFromProperty_unfold, Hfind in Hex. cbv zeta in Hex.
    injection Hex as Hc _. subst column.
    set (init := ColumnExtractor.initialColumn (decoratorName d)
                   (propertyGetName property) (decoratorArguments d)).
    destruct (finishColumn_names property
                (fst (ColumnExtractor.applyOptions (decoratorArguments d)
                        (init, enums)))) as [Fpn _].
    rewrite Fpn.
    rewrite (applyOptions_keeps (decoratorArguments d) (init, enums)
               (fun m => ColumnMetadata.propertyName m
                         = ColumnMetadata.propertyName init)).
    + exact (proj1 (initialColumn_identity (decoratorName d)
                      (propertyGetName property) (decoratorArguments d))).
    + intros st prop _ Hst. rewrite columnOption_propertyName. exact Hst.
    + reflexivity.
  - unfold ColumnExtractor.extractColumnFromProperty in Hex.
    rewrite Hfind in Hex. discriminate Hex.
Qed.

(** X10: an extracted column has the name of its property; it is
    primary exactly for the two primary decorators and generated exactly
    for the generated one, whatever the options say; and its column name
    is the snake case of the property name unless the options set name. *)
Theorem extracted_column_identity
  (property : PropertyDeclaration) (enums enums' : ColumnExtractor.EnumsMap)
  (column : ColumnMetadata.t) (d : Decorator) :
  ColumnExtractor.extractColumnFromProperty property enums
  = (Some column, enums') ->
  findDecorator ColumnExtractor.columnDecorators (propertyDecorators property)
  = Some d ->
  ColumnMetadata.propertyName column = propertyGetName property
  /\ ColumnMetadata.isPrimary column
     = String.eqb (decoratorName d) "PrimaryColumn"
       || String.eqb (decoratorName d) "PrimaryGeneratedColumn"
  /\ ColumnMetadata.isGenerated column
     = String.eqb (decoratorName d) "PrimaryGeneratedColumn"
  /\ (~ In "name" (optionNames (decoratorArguments d)) ->
      ColumnMetadata.columnName column
      = toSnakeCase (propertyGetName property)).
Proof.
  intros Hex Hfind.
  destruct (extractColumnFromProperty_some _ _ _ _ Hex) as [d' [Hd' H]].
  rewrite Hfind in Hd'. injection Hd' as <-. cbv zeta in H.
  destruct H as [Hrole _]. rewrite applyOptions_roleFields in Hrole.
  simpl fst in Hrole. unfold roleFields in Hrole.
  injection Hrole as Hp Hg _ _ _ _ _.
  rewrite extractColumnFromProperty_unfold, Hfind in Hex. cbv zeta in Hex.
  injection Hex as Hc _. subst column.
  set (init := ColumnExtractor.initialColumn (decoratorName d)
                 (propertyGetName property) (decoratorArguments d)) in *.
  destruct (initialColumn_identity (decoratorName d)
              (propertyGetName property) (decoratorArguments d))
    as [Hpn [Hcn [Hip Hig]]].
  fold init in Hpn, Hcn, Hip, Hig.
  destruct (finishColumn_names property
              (fst (ColumnExtractor.applyOptions (decoratorArguments d)
                      (init, enums)))) as [Fpn [Fcn _]].
  split; [|split; [|split]].
  - rewrite Fpn.
    rewrite (applyOptions_keeps (decoratorArguments d) (init, enums)
               (fun m => ColumnMetadata.propertyName m
                         = ColumnMetadata.propertyName init)).
    + exact Hpn.
    + intros st prop _ Hst. rewrite columnOption_propertyName. exact Hst.
    + reflexivity.
  - rewrite Hp. exact Hip.
  - rewrite Hg. exact Hig.
  - intros Hno. rewrite Fcn.
    rewrite (applyOptions_keeps (decoratorArguments d) (init, enums)
               (fun m => ColumnMetadata.columnName m
                         = ColumnMetadata.columnName init)).
    + exact Hcn.
    + intros st prop Hin Hst. rewrite columnOption_columnName; [exact Hst|].
      intros E. apply Hno. rewrite <- E. exact Hin.
    + reflexivity.
Qed.

Lemma extracted_column_identity_witness :
  ColumnExtractor.extractColumnFromProperty idWithOptionsOnly Js.Map.empty
  = (Some
       (ColumnMetadata.mk "id" "user_id" "varchar" true true None false false
          None None None None None None None
          (Some false) (Some false) (Some false) (Some false) None),
     Js.Map.empty)
  /\ ColumnMetadata.isPrimary
       (ColumnMetadata.mk "id" "user_id" "varchar" true true None false false
          None None None None None None None
          (Some false) (Some false) (Some false) (Some false) None)
     = true.
Proof.
  split; [reflexivity|].
  destruct
    (extracted_column_identity idWithOptionsOnly Js.Map.empty Js.Map.empty _
       (mkDecorator "PrimaryGeneratedColumn"
          [ ObjectLit "{ name: 'user_id' }" None
              [ PropAssign "name" (Some (StringLit "'user_id'" None)) ] ])
       eq_refl eq_refl)
    as [_ [Hp _]].
  exact Hp.
Defined.

(** X11: when the property has a JSDoc comment, that comment is the
    comment of the column, also when the options set one. *)
Theorem jsdoc_comment_replaces_comment_option
  (property : PropertyDeclaration) (enums enums' : ColumnExtractor.EnumsMap)
  (column : ColumnMetadata.t) (text : string) :
  ColumnExtractor.extractColumnFromProperty property enums
  = (Some column, enums') ->
  firstDocComment (propertyJsDocs property) = Some text ->
  ColumnMetadata.comment column = Some text.
Proof.
  intros Hex Hdoc. rewrite extractColumnFromProperty_unfold in Hex.
  destruct (findDecorator _ _) as [d|]; [|discriminate]. cbv zeta in Hex.
  injection Hex as Hc _. subst column.
  destruct (finishColumn_names property
              (fst (ColumnExtractor.applyOptions (decoratorArguments d)
                      (ColumnExtractor.initialColumn (decoratorName d)
                         (propertyGetName property) (decoratorArguments d),
                       enums)))) as [_ [_ Hcomment]].
  rewrite Hcomment, Hdoc. reflexivity.
Qed.

Lemma jsdoc_comment_witness :
  firstDocComment (propertyJsDocs documentedTitle)
  = Some "from the doc block"
  /\ exists column enums',
       ColumnExtractor.extractColumnFromProperty documentedTitle Js.Map.empty
       = (Some column, enums')
       /\ ColumnMetadata.comment column = Some "from the doc block".
Proof.
  split; [reflexivity|].
  destruct (ColumnExtractor.extractColumnFromProperty documentedTitle
              Js.Map.empty) as [[column|] enums'] eqn:Hex.
  - exists column, enums'. split; [reflexivity|].
    exact (jsdoc_comment_replaces_comment_option documentedTitle
             Js.Map.empty enums' column "from the doc block" Hex eq_refl).
  - vm_compute in Hex. discriminate Hex.
Defined.

(** The loop of [extractColumns], from any list of columns on. *)
Lemma extractColumns_fold properties columns enums :
  map ColumnMetadata.propertyName
    (fst (fold_left
            (fun state property =>
               let '(columns, enumsMap) := state in
               match ColumnExtractor.extractColumnFromProperty property
                       enumsMap with
               | (Some column, enumsMap) =>
                   ((columns ++ [column])%list, enumsMap)
               | (None, enumsMap) => (columns, enumsMap)
               end)
            properties (columns, enums)))
  = (map ColumnMetadata.propertyName columns
       ++ map propertyGetName (filter isColumnProperty properties))%list.
Proof.
  revert columns enums.
  induction properties as [|p ps IH]; intros columns enums; simpl.
  - rewrite app_nil_r. reflexivity.
  - unfold isColumnProperty at 1.
    destruct (ColumnExtractor.extractColumnFromProperty p enums)
      as [[column|] enums1] eqn:Hex.
    + rewrite IH, map_app. simpl.
      destruct (findDecorator ColumnExtractor.columnDecorators
                  (propertyDecorators p)) as [d|] eqn:Hfind.
      * rewrite (extracted_column_propertyName _ _ _ _ Hex).
        simpl. rewrite <- app_assoc. reflexivity.
      * unfold ColumnExtractor.extractColumnFromProperty in Hex.
        rewrite Hfind in Hex. discriminate Hex.
    + rewrite IH.
      rewrite extractColumnFromProperty_unfold in Hex.
      destruct (findDecorator ColumnExtractor.columnDecorators
                  (propertyDecorators p)); [discriminate Hex | reflexivity].
Qed.

(** X12: the columns of a class are those of its properties that carry
    a column decorator, one each, in declaration order. *)
Theorem extractColumns_one_per_column_property
  (classDecl : ClassDeclaration) (enums : ColumnExtractor.EnumsMap) :
  map ColumnMetadata.propertyName
    (fst (ColumnExtractor.extractColumns classDecl enums))
  = map propertyGetName
      (filter isColumnProperty (classProperties classDecl)).
Proof.
  unfold ColumnExtractor.extractColumns.
  exact (extractColumns_fold (classProperties classDecl) [] enums).
Qed.

(** ** Constraints *)

Lemma collect_In {A} n (f : Decorator -> option A) decorators r :
  In r (ConstraintExtractor.collect n f decorators) ->
  exists d, In d decorators /\ decoratorName d = n /\ f d = Some r.
Proof.
  unfold ConstraintExtractor.collect. intros H. apply in_flat_map in H.
  destruct H as [d [Hd H]]. exists d. split; [exact Hd|].
  unfold ConstraintExtractor.named in H.
  destruct (String.eqb_spec (decoratorName d) n) as [Hn|_]; [|destruct H].
  destruct (f d) as [r'|]; [|destruct H].
  destruct H as [<-|[]]. split; [exact Hn | reflexivity].
Qed.

Lemma extractUniqueFromDecorator_columns d u :
  ConstraintExtractor.extractUniqueFromDecorator d = Some u ->
  UniqueMetadata.columns u <> [].
Proof.
  unfold ConstraintExtractor.extractUniqueFromDecorator.
  destruct (decoratorArguments d) as [|firstArg rest]; [discriminate|].
  cbv zeta.
  match goal with
  | |- match UniqueMetadata.columns ?m with _ => _ end = _ -> _ =>
      generalize m
  end.
  intros metadata. destruct (UniqueMetadata.columns metadata) eqn:Hc;
    [discriminate|].
  intros H. injection H as <-. rewrite Hc. discriminate.
Qed.

Lemma extractCheckFromDecorator_expression d k :
  ConstraintExtractor.extractCheckFromDecorator d = Some k ->
  CheckMetadata.expression k <> "".
Proof.
  unfold ConstraintExtractor.extractCheckFromDecorator.
  destruct (decoratorArguments d) as [|firstArg rest]; [discriminate|].
  destruct (Js.truthyString _) eqn:Ht; [|discriminate].
  intros H. injection H as <-. simpl. intros E. rewrite E in Ht.
  discriminate Ht.
Qed.

(** X13: every unique constraint extracted from a class has a column,
    and every check constraint a non-empty expression. *)
Theorem uniques_and_checks_are_never_empty (classDecl : ClassDeclaration) :
  (forall u, In u (ConstraintExtractor.extractUniques classDecl) ->
             UniqueMetadata.columns u <> [])
  /\ (forall k, In k (ConstraintExtractor.extractChecks classDecl) ->
                CheckMetadata.expression k <> "").
Proof.
  split.
  - intros u H. apply collect_In in H. destruct H as [d [_ [_ H]]].
    exact (extractUniqueFromDecorator_columns d u H).
  - intros k H. apply collect_In in H. destruct H as [d [_ [_ H]]].
    exact (extractCheckFromDecorator_expression d k H).
Qed.

Lemma uniques_witness :
  In (UniqueMetadata.mk (Some "uq_login") ["login"])
    (ConstraintExtractor.extractUniques emptyUniqueClass)
  /\ ConstraintExtractor.extractUniques emptyUniqueClass
     = [UniqueMetadata.mk (Some "uq_login") ["login"]]
  /\ UniqueMetadata.columns (UniqueMetadata.mk (Some "uq_login") ["login"])
     <> [].
Proof.
  assert (H : In (UniqueMetadata.mk (Some "uq_login") ["login"])
                (ConstraintExtractor.extractUniques emptyUniqueClass))
    by (left; reflexivity).
  split; [exact H|]. split; [reflexivity|].
  exact (proj1 (uniques_and_checks_are_never_empty emptyUniqueClass) _ H).
Defined.

(** X14: an index on a property is never discarded and has exactly one
    column, the snake case of the property name, whatever its arguments. *)
Theorem property_index_has_one_column (decorator : Decorator)
  (propertyName : string) :
  exists index,
    ConstraintExtractor.extractIndexFromPropertyDecorator decorator
      propertyName = Some index
    /\ IndexMetadata.columns index = [toSnakeCase propertyName].
Proof.
  unfold ConstraintExtractor.extractIndexFromPropertyDecorator.
  eexists. split; [reflexivity|].
  apply (fold_left_invariant
           (fun m => IndexMetadata.columns m = [toSnakeCase propertyName]));
    [reflexivity|].
  intros m arg _ Hm.
  destruct (isKind StringLiteral arg); [exact Hm|].
  destruct (isKind ObjectLiteralExpression arg); [|exact Hm].
  destruct (extractIndexOptions_keeps arg m) as [_ Hc]. rewrite Hc. exact Hm.
Qed.

(** ** Type inference *)

Lemma removeNullable_plain t suffix :
  plainTypeName t = true ->
  ColumnExtractor.removeNullable 0 (t ++ suffix)
  = t ++ ColumnExtractor.removeNullable 0 suffix.
Proof.
  unfold plainTypeName. rewrite negb_true_iff.
  induction t as [|c t IH]; [reflexivity|].
  rewrite existsChar_cons. intros H. apply orb_false_iff in H.
  destruct H as [Hc Ht]. apply orb_false_iff in Hc. destruct Hc as [Hs Hb].
  change (String c t ++ suffix) with (String c (t ++ suffix)).
  change (ColumnExtractor.removeNullable 0 (String c (t ++ suffix)))
    with (match ColumnExtractor.nullableMatchLength (String c (t ++ suffix))
          with
          | Some (S k) => ColumnExtractor.removeNullable k (t ++ suffix)
          | _ => String c (ColumnExtractor.removeNullable 0 (t ++ suffix))
          end).
  assert (Hnone : ColumnExtractor.nullableMatchLength (String c (t ++ suffix))
                  = None).
  { unfold ColumnExtractor.nullableMatchLength.
    change (ColumnExtractor.spaceRun (String c (t ++ suffix)))
      with (if Js.isSpace c then S (ColumnExtractor.spaceRun (t ++ suffix))
            else 0).
    rewrite Hs.
    change (ColumnExtractor.dropChars 0 (String c (t ++ suffix)))
      with (String c (t ++ suffix)).
    cbv iota. rewrite Hb. reflexivity. }
  rewrite Hnone, (IH Ht). reflexivity.
Qed.

Lemma removeNullable_plain_same t :
  plainTypeName t = true -> ColumnExtractor.removeNullable 0 t = t.
Proof.
  intros H. pose proof (removeNullable_plain t "" H) as E.
  rewrite append_empty in E. rewrite E. apply append_empty.
Qed.

(** X15: for a type text without white space and bars, a union with
    null, undefined or both infers the same type and array flag as the
    text alone. *)
Theorem nullable_union_does_not_change_inference
  (tsType : string) (metadata : ColumnMetadata.t) :
  plainTypeName tsType = true ->
  ColumnExtractor.inferTypeFromTsType (tsType ++ " | null") metadata
  = ColumnExtractor.inferTypeFromTsType tsType metadata
  /\ ColumnExtractor.inferTypeFromTsType (tsType ++ " | undefined") metadata
     = ColumnExtractor.inferTypeFromTsType tsType metadata
  /\ ColumnExtractor.inferTypeFromTsType (tsType ++ " | null | undefined")
       metadata
     = ColumnExtractor.inferTypeFromTsType tsType metadata.
Proof.
  intros H.
  assert (Hsame : forall suffix,
            ColumnExtractor.removeNullable 0 suffix = "" ->
            ColumnExtractor.removeNullable 0 (tsType ++ suffix)
            = ColumnExtractor.removeNullable 0 tsType).
  { intros suffix Hs.
    rewrite (removeNullable_plain tsType suffix H), Hs, append_empty.
    symmetry. apply removeNullable_plain_same, H. }
  unfold ColumnExtractor.inferTypeFromTsType.
  rewrite !Hsame by reflexivity. repeat split.
Qed.

Lemma nullable_union_witness :
  plainTypeName "Date[]" = true
  /\ ColumnExtractor.inferTypeFromTsType "Date[] | null"
       (ColumnExtractor.initialColumn "Column" "days" [])
     = ("timestamp",
        ColumnMetadata.set_isArray true
          (ColumnExtractor.initialColumn "Column" "days" [])).
Proof.
  split; [reflexivity|].
  refine (eq_trans
            (proj1 (nullable_union_does_not_change_inference "Date[]"
                      (ColumnExtractor.initialColumn "Column" "days" [])
                      eq_refl)) _).
  reflexivity.
Defined.

(** ** The first pass *)

Section FirstPass.

Variable kindNumber : SyntaxKind -> nat.

Lemma readProperties296_from {A} (step : A -> string * Expression -> A)
  props (acc : Outcome A) :
  match fold_left (MetadataExtractor.readMember296 kindNumber step) props acc
  with
  | Returns _ =>
      acc <> TypeError /\ existsb (raisingMember kindNumber) props = false
  | TypeError =>
      acc = TypeError \/ existsb (raisingMember kindNumber) props = true
  end.
Proof.
  revert acc. induction props as [|m props IH]; intros acc.
  - simpl. destruct acc; [split; [discriminate | reflexivity]|].
    left. reflexivity.
  - cbn [fold_left existsb]. specialize (IH
      (MetadataExtractor.readMember296 kindNumber step acc m)).
    destruct (fold_left _ props _) as [a|].
    + destruct IH as [Hacc Hrest]. rewrite Hrest, orb_false_r.
      unfold MetadataExtractor.readMember296, raisingMember in *.
      destruct acc as [a0|]; [|now elim Hacc].
      split; [discriminate|].
      destruct (Nat.eqb (kindNumber (memberKind m)) 296); [|reflexivity].
      destruct m as [n [e|]|n|]; try reflexivity. now elim Hacc.
    + destruct IH as [Hacc|Hrest].
      * unfold MetadataExtractor.readMember296, raisingMember in *.
        destruct acc as [a0|]; [|left; reflexivity]. right.
        destruct (Nat.eqb (kindNumber (memberKind m)) 296);
          [|discriminate Hacc].
        destruct m as [n [e|]|n|]; try discriminate Hacc. reflexivity.
      * right. rewrite Hrest. apply orb_true_r.
Qed.

Lemma readArgument206 {A} (step : A -> string * Expression -> A) arg init :
  Nat.eqb (kindNumber (getKind arg)) 206 = true ->
  match
    match MetadataExtractor.getProperties206 arg with
    | Returns props =>
        MetadataExtractor.readProperties296 kindNumber step props init
    | TypeError => TypeError
    end
  with
  | Returns _ => raisingArgument kindNumber arg = false
  | TypeError => raisingArgument kindNumber arg = true
  end.
Proof.
  intros H206. unfold raisingArgument. rewrite H206.
  destruct arg as [t s|t s es|t s props|t s body|t s]; try reflexivity.
  simpl. unfold MetadataExtractor.readProperties296.
  pose proof (readProperties296_from step props (Returns init)) as H.
  destruct (fold_left _ props _).
  - exact (proj2 H).
  - destruct H as [H|H]; [discriminate H | exact H].
Qed.

Lemma extractEntityDecorator_outcome classDecl :
  match MetadataExtractor.extractEntityDecorator kindNumber classDecl with
  | Returns (tableName, _, note) =>
      note = firstDocComment (classJsDocs classDecl)
      /\ (entityArguments classDecl = [] ->
          tableName
          = toSnakeCase (Js.orElse (classGetName classDecl) "Unknown"))
      /\ match firstArgument ["Entity"] classDecl with
         | Some firstArg =>
             negb (Nat.eqb (kindNumber (getKind firstArg)) 40)
             && raisingArgument kindNumber firstArg
         | None => false
         end = false
  | TypeError =>
      match firstArgument ["Entity"] classDecl with
      | Some firstArg =>
          negb (Nat.eqb (kindNumber (getKind firstArg)) 40)
          && raisingArgument kindNumber firstArg
      | None => false
      end = true
  end.
Proof.
  unfold MetadataExtractor.extractEntityDecorator, firstArgument,
    entityArguments, MetadataExtractor.hasKindNumber,
    MetadataExtractor.className.
  destruct (findDecorator ["Entity"] (classDecorators classDecl)) as [d|];
    [|split; [reflexivity | split; reflexivity]].
  destruct (decoratorArguments d) as [|firstArg args];
    [split; [reflexivity | split; reflexivity]|].
  destruct (Nat.eqb (kindNumber (getKind firstArg)) 40);
    [split; [reflexivity | split; [discriminate | reflexivity]]|].
  destruct (Nat.eqb (kindNumber (getKind firstArg)) 206) eqn:H206.
  - pose proof (readArgument206 MetadataExtractor.entityOption firstArg
                  (toSnakeCase (Js.orElse (classGetName classDecl) "Unknown"),
                   None) H206) as H.
    destruct (match MetadataExtractor.getProperties206 firstArg with
              | Returns props => _
              | TypeError => TypeError
              end) as [[tn sc]|].
    + split; [reflexivity | split; [discriminate | exact H]].
    + exact H.
  - split; [reflexivity | split; [discriminate|]].
    unfold raisingArgument. rewrite H206. reflexivity.
Qed.

Lemma extractInheritance_outcome classDecl :
  match MetadataExtractor.extractInheritance kindNumber classDecl with
  | Returns _ =>
      match firstArgument ["TableInheritance"] classDecl with
      | Some arg0 => raisingArgument kindNumber arg0
      | None => false
      end = false
  | TypeError =>
      match firstArgument ["TableInheritance"] classDecl with
      | Some arg0 => raisingArgument kindNumber arg0
      | None => false
      end = true
  end.
Proof.
  unfold MetadataExtractor.extractInheritance, firstArgument,
    MetadataExtractor.hasKindNumber.
  destruct (findDecorator ["TableInheritance"] (classDecorators classDecl))
    as [d|]; [|reflexivity].
  destruct (decoratorArguments d) as [|arg0 args]; [reflexivity|].
  destruct (Nat.eqb (kindNumber (getKind arg0)) 206) eqn:H206.
  - pose proof (readArgument206 MetadataExtractor.inheritanceOption arg0
                  ("STI", None) H206) as H.
    destruct (MetadataExtractor.getProperties206 arg0) as [props|];
      [|exact H].
    destruct (MetadataExtractor.readProperties296 kindNumber
                MetadataExtractor.inheritanceOption props ("STI", None))
      as [[pattern column]|]; exact H.
  - unfold raisingArgument. rewrite H206. reflexivity.
Qed.

Lemma extractEntityMetadata_entityOfClass self classDecl :
  match
    fst (MetadataExtractor.extractEntityMetadata kindNumber self classDecl)
  with
  | Returns entity =>
      entityOfClass false classDecl entity
      /\ raises kindNumber classDecl = false
  | TypeError => raises kindNumber classDecl = true
  end.
Proof.
  unfold MetadataExtractor.extractEntityMetadata, raises.
  pose proof (extractEntityDecorator_outcome classDecl) as Hdec.
  pose proof (extractInheritance_outcome classDecl) as Hinh.
  destruct (MetadataExtractor.extractEntityDecorator kindNumber classDecl)
    as [[[tn sc] note]|]; [|simpl; rewrite Hdec; reflexivity].
  destruct Hdec as [Hnote [Htable Hentity]]. rewrite Hentity.
  assert (Hcols :
            map ColumnMetadata.propertyName
              (fst (ColumnExtractor.extractColumns classDecl
                      (MetadataExtractor.enumsMap self)))
            = map propertyGetName
                (filter isColumnProperty (classProperties classDecl)))
    by (unfold ColumnExtractor.extractColumns;
        exact (extractColumns_fold (classProperties classDecl) []
                 (MetadataExtractor.enumsMap self))).
  destruct (ColumnExtractor.extractColumns classDecl
              (MetadataExtractor.enumsMap self)) as [columns e].
  simpl fst in Hcols.
  destruct (MetadataExtractor.extractInheritance kindNumber classDecl)
    as [inheritance|]; simpl; [|exact Hinh].
  split; [|exact Hinh].
  unfold entityOfClass. simpl.
  repeat split; try assumption.
Qed.

Lemma firstPass_outcome classes self done acc :
  Forall2 (entityOfClass false) done acc ->
  match fst (MetadataExtractor.firstPass kindNumber self classes acc) with
  | Returns entities =>
      Forall2 (entityOfClass false) (done ++ classes) entities
      /\ existsb (raises kindNumber) classes = false
  | TypeError => existsb (raises kindNumber) classes = true
  end.
Proof.
  revert self done acc.
  induction classes as [|c cs IH]; intros self done acc Hdone.
  - simpl. rewrite app_nil_r. split; [exact Hdone | reflexivity].
  - cbn [MetadataExtractor.firstPass existsb].
    pose proof (extractEntityMetadata_entityOfClass self c) as Hc.
    destruct (MetadataExtractor.extractEntityMetadata kindNumber self c)
      as [[metadata|] self']; simpl fst in Hc.
    + destruct Hc as [Hc Hraises]. rewrite Hraises. cbn [orb].
      change (done ++ c :: cs)%list with (done ++ [c] ++ cs)%list.
      rewrite app_assoc. apply IH.
      apply Forall2_app;
        [exact Hdone | constructor; [exact Hc | constructor]].
    + simpl. rewrite Hc. reflexivity.
Qed.

Lemma resolveRelation_resolvedFrom table relation :
  resolvedFrom relation (MetadataExtractor.resolveRelation table relation).
Proof.
  unfold resolvedFrom, MetadataExtractor.resolveRelation.
  destruct (Js.Map.get table (RelationMetadata.target relation)) as [t|];
    [destruct (Js.truthyString t)|]; destruct relation; reflexivity.
Qed.

Lemma resolveAll_resolvedFrom table relations :
  Forall2 resolvedFrom relations
    (map (MetadataExtractor.resolveRelation table) relations).
Proof.
  induction relations as [|r rs IH]; simpl; constructor;
    [apply resolveRelation_resolvedFrom | exact IH].
Qed.

Lemma resolveRelationships_Forall2 classes entities :
  Forall2 (entityOfClass false) classes entities ->
  Forall2 (entityOfClass true) classes
    (MetadataExtractor.resolveRelationships entities).
Proof.
  unfold MetadataExtractor.resolveRelationships.
  generalize (MetadataExtractor.classToTable entities). intros table.
  induction 1 as [|c e cs es Hce _ IH]; simpl; constructor; [|exact IH].
  destruct Hce as [H1 [H2 [H3 [H4 [H5 [H6 [H7 H8]]]]]]].
  unfold entityOfClass. simpl.
  repeat split; try assumption.
  rewrite H7. apply resolveAll_resolvedFrom.
Qed.

(** X16: [extractMetadata] raises exactly when the first pass meets a
    class on which the reading of the Entity or TableInheritance
    decorator raises, which depends on the numbering of the node kinds;
    otherwise it returns one entity per class, in input order, each with
    the name, the note and the constraints of its class, with one column
    per column property, named after it, with the relations the relation
    extractor gives for the class, one for one and unchanged but for
    their targets, and with the snake case of the class name for table
    name when the Entity decorator has no argument; the list of join
    tables is always empty. *)
Theorem extractMetadata_one_entity_per_class
  (self : MetadataExtractor.t) (classes : list ClassDeclaration) :
  match fst (MetadataExtractor.extractMetadata kindNumber self classes) with
  | Returns schema =>
      existsb (raises kindNumber) classes = false
      /\ Forall2 (entityOfClass true) classes (DBMLSchema.entities schema)
      /\ DBMLSchema.joinTables schema = []
  | TypeError => existsb (raises kindNumber) classes = true
  end.
Proof.
  unfold MetadataExtractor.extractMetadata.
  pose proof (firstPass_outcome classes self [] [] (Forall2_nil _)) as H.
  destruct (MetadataExtractor.firstPass kindNumber self classes [])
    as [[metadata|] self']; simpl in *; [|exact H].
  destruct H as [Hall Hraises]. split; [exact Hraises|].
  split; [|reflexivity].
  apply resolveRelationships_Forall2. exact Hall.
Qed.

End FirstPass.

(** Under a numbering that gives 206 to array literals, an Entity
    decorator with an array for argument makes the extraction raise; a
    class without arguments is extracted under every numbering. *)
Example extractMetadata_raises :
  fst (MetadataExtractor.extractMetadata arrayKindNumber
         MetadataExtractor.new [tagClass; arrayEntity])
  = TypeError
  /\ raises arrayKindNumber arrayEntity = true
  /\ forall kindNumber, raises kindNumber tagClass = false.
Proof. repeat split. Qed.

(** ** The registry of enums, continued *)

Section RegistryInvariant.

Variable P : ColumnExtractor.EnumsMap -> Prop.

Hypothesis P_set :
  forall m k values,
    P m -> Js.Map.has m k = false ->
    P (Js.Map.set m k (mkEnum (toSnakeCase k) values)).

Lemma extractEnumMetadata_invariant init m enums :
  P enums -> P (snd (ColumnExtractor.extractEnumMetadata init m enums)).
Proof.
  intros H. unfold ColumnExtractor.extractEnumMetadata.
  destruct (getTypeSymbol init) as [sym|]; [|exact H].
  destruct (Js.Map.has enums (symbolName sym)) eqn:Hhas; [exact H|].
  destruct (symbolDeclarations sym) as [|[members|] rest]; try exact H.
  simpl. apply P_set; assumption.
Qed.

Lemma columnOption_invariant st prop :
  P (snd st) -> P (snd (ColumnExtractor.columnOption st prop)).
Proof.
  destruct st as [m enums]. unfold ColumnExtractor.columnOption.
  intros H. split_ifs; try exact H.
  apply extractEnumMetadata_invariant. exact H.
Qed.

Lemma applyOptions_invariant args st :
  P (snd st) -> P (snd (ColumnExtractor.applyOptions args st)).
Proof.
  unfold ColumnExtractor.applyOptions. intros H.
  apply (fold_left_invariant (fun st => P (snd st))); [exact H|].
  intros s arg _ Hs.
  destruct (isKind ObjectLiteralExpression arg); [|exact Hs].
  unfold ColumnExtractor.extractColumnOptions.
  apply (fold_left_invariant (fun st => P (snd st))); [exact Hs|].
  intros s' prop _. apply columnOption_invariant.
Qed.

Lemma extractColumns_invariant classDecl enums :
  P enums -> P (snd (ColumnExtractor.extractColumns classDecl enums)).
Proof.
  unfold ColumnExtractor.extractColumns. intros H.
  apply (fold_left_invariant (fun st => P (snd st))); [exact H|].
  intros [columns e] property _ He. simpl in He.
  rewrite extractColumnFromProperty_unfold.
  destruct (findDecorator _ _) as [d|]; [|exact He]. cbv zeta.
  apply (applyOptions_invariant (decoratorArguments d)
           (ColumnExtractor.initialColumn (decoratorName d)
              (propertyGetName property) (decoratorArguments d), e)).
  exact He.
Qed.

Lemma extractEntityMetadata_invariant kindNumber self classDecl :
  P (MetadataExtractor.enumsMap self) ->
  P (MetadataExtractor.enumsMap
       (snd (MetadataExtractor.extractEntityMetadata kindNumber self
               classDecl))).
Proof.
  intros H. unfold MetadataExtractor.extractEntityMetadata.
  destruct (MetadataExtractor.extractEntityDecorator kindNumber classDecl)
    as [[[tn sc] note]|]; [|exact H].
  pose proof (extractColumns_invariant classDecl
                (MetadataExtractor.enumsMap self) H) as Hc.
  destruct (ColumnExtractor.extractColumns classDecl
              (MetadataExtractor.enumsMap self)) as [columns e].
  destruct (MetadataExtractor.extractInheritance kindNumber classDecl);
    exact Hc.
Qed.

Lemma firstPass_invariant kindNumber classes self entityMetadata :
  P (MetadataExtractor.enumsMap self) ->
  P (MetadataExtractor.enumsMap
       (snd (MetadataExtractor.firstPass kindNumber self classes
               entityMetadata))).
Proof.
  revert self entityMetadata.
  induction classes as [|c cs IH]; intros self entityMetadata H;
    [exact H|].
  cbn [MetadataExtractor.firstPass].
  pose proof (extractEntityMetadata_invariant kindNumber self c H) as He.
  destruct (MetadataExtractor.extractEntityMetadata kindNumber self c)
    as [[metadata|] self']; [apply IH; exact He | exact He].
Qed.

Lemma extractMetadata_invariant kindNumber self classes :
  P (MetadataExtractor.enumsMap self) ->
  P (MetadataExtractor.enumsMap
       (snd (MetadataExtractor.extractMetadata kindNumber self classes))).
Proof.
  intros H. unfold MetadataExtractor.extractMetadata.
  pose proof (firstPass_invariant kindNumber classes self [] H) as Hpass.
  destruct (MetadataExtractor.firstPass kindNumber self classes [])
    as [[metadata|] self']; exact Hpass.
Qed.

End RegistryInvariant.

Lemma entries_set {V} (m : Js.Map.t V) k v k' v' :
  In (k', v') (Js.Map.set m k v) -> (k' = k /\ v' = v) \/ In (k', v') m.
Proof.
  induction m as [|[k0 v0] m IH]; simpl.
  - intros [E|[]]. injection E as <- <-. left. split; reflexivity.
  - destruct (String.eqb_spec k0 k) as [->|Hne]; simpl.
    + intros [E|H]; [injection E as <- <-; left; split; reflexivity|].
      right. right. exact H.
    + intros [E|H]; [right; left; exact E|].
      destruct (IH H) as [H'|H']; [left; exact H' | right; right; exact H'].
Qed.

Lemma registryOk_set m k values :
  registryOk m -> Js.Map.has m k = false ->
  registryOk (Js.Map.set m k (mkEnum (toSnakeCase k) values)).
Proof.
  intros [Hnd Hname] _. split; [apply NoDup_keys_set, Hnd|].
  intros k' e Hin. apply entries_set in Hin.
  destruct Hin as [[-> ->]|Hin]; [reflexivity | exact (Hname k' e Hin)].
Qed.

(** X17: [extractMetadata] keeps the registry at one entry per symbol
    name, each enum named by the snake case of its key, also when it
    raises; and the enums of a schema it returns are the values of the
    registry, in insertion order. *)
Theorem registry_keeps_one_enum_per_symbol
  (kindNumber : SyntaxKind -> nat) (self : MetadataExtractor.t)
  (classes : list ClassDeclaration) :
  registryOk (MetadataExtractor.enumsMap self) ->
  let result := MetadataExtractor.extractMetadata kindNumber self classes in
  registryOk (MetadataExtractor.enumsMap (snd result))
  /\ forall schema,
       fst result = Returns schema ->
       DBMLSchema.enums schema
       = Js.Map.values (MetadataExtractor.enumsMap (snd result)).
Proof.
  intros H result. split.
  - apply (extractMetadata_invariant registryOk registryOk_set). exact H.
  - unfold result, MetadataExtractor.extractMetadata.
    destruct (MetadataExtractor.firstPass kindNumber self classes [])
      as [[metadata|] self']; intros schema Hschema;
      [|discriminate Hschema].
    injection Hschema as <-. reflexivity.
Qed.

Lemma registry_witness :
  registryOk (MetadataExtractor.enumsMap MetadataExtractor.new)
  /\ registryOk
       (MetadataExtractor.enumsMap
          (snd (MetadataExtractor.extractMetadata commentedKindNumber
                  MetadataExtractor.new [userWithRole; userWithRole])))
  /\ exists schema,
       fst (MetadataExtractor.extractMetadata commentedKindNumber
              MetadataExtractor.new [userWithRole; userWithRole])
       = Returns schema
       /\ DBMLSchema.enums schema = [userRoleEnum].
Proof.
  assert (H : registryOk (MetadataExtractor.enumsMap MetadataExtractor.new)).
  { split; [constructor | intros k e []]. }
  split; [exact H|].
  split; [|eexists; split; reflexivity].
  exact (proj1 (registry_keeps_one_enum_per_symbol commentedKindNumber
                  MetadataExtractor.new [userWithRole; userWithRole] H)).
Defined.

(** ** The parser *)

(** X18: the parser returns the classes of the source files that carry
    an Entity decorator, and only those, so the extractor always finds
    the decorator it looks for. *)
Theorem parsed_entities_have_entity_decorator
  (sourceFiles : list EntityParser.SourceFile) (classDecl : ClassDeclaration) :
  In classDecl (EntityParser.entitiesOfFiles sourceFiles) <->
  (exists sourceFile,
     In sourceFile sourceFiles /\ In classDecl sourceFile)
  /\ findDecorator ["Entity"] (classDecorators classDecl) <> None.
Proof.
  unfold EntityParser.entitiesOfFiles, EntityParser.extractEntitiesFromFile.
  rewrite in_flat_map.
  assert (Hdec : forall c,
            EntityParser.isEntityClass c = true
            <-> findDecorator ["Entity"] (classDecorators c) <> None).
  { intros c. unfold EntityParser.isEntityClass, findDecorator.
    induction (classDecorators c) as [|d ds IH]; simpl.
    - split; [discriminate | intros H; now elim H].
    - rewrite orb_false_r. destruct (String.eqb (decoratorName d) "Entity");
        simpl; [split; [discriminate | reflexivity] | exact IH]. }
  split.
  - intros [file [Hfile Hin]]. apply filter_In in Hin.
    destruct Hin as [Hin Hent]. split; [exists file; split; assumption|].
    apply Hdec, Hent.
  - intros [[file [Hfile Hin]] Hent]. exists file. split; [exact Hfile|].
    apply filter_In. split; [exact Hin | apply Hdec, Hent].
Qed.

Lemma parsed_entities_witness :
  In tagClass
    (EntityParser.entitiesOfFiles
       [[mkClass (Some "Helper") [] [] []; tagClass]])
  /\ findDecorator ["Entity"] (classDecorators tagClass) <> None.
Proof.
  assert (H : In tagClass
                (EntityParser.entitiesOfFiles
                   [[mkClass (Some "Helper") [] [] []; tagClass]]))
    by (left; reflexivity).
  split; [exact H|].
  exact (proj2 (proj1 (parsed_entities_have_entity_decorator _ _) H)).
Defined.

(** ** Sections of the document *)

(** X19: a schema without entities and enums serializes to the project
    header alone, and to the empty text when the project name is
    empty. *)
Theorem generate_empty_schema (ambient : Js.ObjectPrototype)
  (self : DBMLGenerator.t)
  (joinTables : list JoinTableEntity.t) :
  fst (DBMLGenerator.generate ambient self (DBMLSchema.mk [] [] joinTables))
  = if Js.truthyString (RequiredOptions.projectName (DBMLGenerator.options self))
    then DBMLGenerator.generateProjectHeader self
    else "".
Proof.
  rewrite generate_visible_sections. unfold DBMLGenerator.sections.
  simpl DBMLSchema.entities. simpl DBMLSchema.enums.
  change (DBMLGenerator.generateTables ambient self []) with "".
  change (RelationGenerator.generateRelations ambient []) with "".
  change (DBMLGenerator.generateTableGroups []) with "".
  simpl List.length. simpl Nat.eqb. simpl negb. rewrite andb_false_r.
  cbv zeta. change (Js.truthyString "") with false. cbv iota.
  assert (Hgroups : (if RequiredOptions.includeSchemas
                          (DBMLGenerator.options self)
                        && match RequiredOptions.tableGrouping
                                   (DBMLGenerator.options self) with
                           | grouping_schema => true
                           | grouping_none => false
                           end
                     then @nil string else []) = [])
    by (destruct (_ && _); reflexivity).
  rewrite Hgroups.
  destruct (Js.truthyString _); reflexivity.
Qed.

(** ** Notes and schemas switched off *)

Lemma relationRefs_map ambient f entities :
  (forall e, EntityMetadata.tableName (f e) = EntityMetadata.tableName e) ->
  (forall e, EntityMetadata.relations (f e) = EntityMetadata.relations e) ->
  RelationGenerator.relationRefs ambient (map f entities)
  = RelationGenerator.relationRefs ambient entities.
Proof.
  intros Ht Hr. unfold RelationGenerator.relationRefs.
  induction entities as [|e es IH]; simpl; [reflexivity|].
  rewrite IH, Hr. f_equal.
  apply flat_map_ext. intros r.
  unfold RelationGenerator.generateRelation,
    RelationGenerator.generateManyToOne, RelationGenerator.generateOneToOne,
    RelationGenerator.generateManyToMany, RelationGenerator.referenceLine.
  rewrite Ht. reflexivity.
Qed.

Lemma schemaGroups_map f entities :
  (forall e, EntityMetadata.tableName (f e) = EntityMetadata.tableName e) ->
  (forall e, EntityMetadata.schema (f e) = EntityMetadata.schema e) ->
  DBMLGenerator.schemaGroups (map f entities)
  = DBMLGenerator.schemaGroups entities.
Proof.
  intros Ht Hs. unfold DBMLGenerator.schemaGroups.
  generalize (@Js.Map.empty (list string)).
  induction entities as [|e es IH]; intros g; simpl; [reflexivity|].
  rewrite Ht, Hs. apply IH.
Qed.

Lemma generateColumn_withoutComment ambient self column :
  RequiredOptions.includeNotes (TableGenerator.options self) = false ->
  TableGenerator.generateColumn ambient self (withoutComment column)
  = TableGenerator.generateColumn ambient self column.
Proof.
  intros Hoff.
  unfold TableGenerator.generateColumn, TableGenerator.generateColumnSettings,
    TableGenerator.columnSettings.
  rewrite Hoff. reflexivity.
Qed.

Lemma generateTable_withoutNotes ambient self entity :
  RequiredOptions.includeNotes (TableGenerator.options self) = false ->
  TableGenerator.generateTable ambient self (withoutNotes entity)
  = TableGenerator.generateTable ambient self entity.
Proof.
  intros Hoff.
  assert (Hdecl : TableGenerator.generateTableDeclaration self
                    (withoutNotes entity)
                  = TableGenerator.generateTableDeclaration self entity).
  { unfold TableGenerator.generateTableDeclaration. rewrite Hoff.
    reflexivity. }
  unfold TableGenerator.generateTable. cbv zeta. rewrite Hdecl.
  change (EntityMetadata.columns (withoutNotes entity))
    with (map withoutComment (EntityMetadata.columns entity)).
  change (EntityMetadata.indexes (withoutNotes entity))
    with (EntityMetadata.indexes entity).
  rewrite (map_map withoutComment (TableGenerator.generateColumn ambient self)).
  rewrite (map_ext _ _ (fun c => generateColumn_withoutComment ambient self c Hoff)).
  reflexivity.
Qed.

Lemma generateTable_withoutSchema ambient self entity :
  RequiredOptions.includeSchemas (TableGenerator.options self) = false ->
  TableGenerator.generateTable ambient self (withoutSchema entity)
  = TableGenerator.generateTable ambient self entity.
Proof.
  intros Hoff.
  unfold TableGenerator.generateTable, TableGenerator.generateTableDeclaration.
  rewrite Hoff. reflexivity.
Qed.

(** X20: with notes switched off the document is the one of the schema
    without entity notes and column comments. *)
Theorem notes_switched_off (ambient : Js.ObjectPrototype)
  (self : DBMLGenerator.t) (schema : DBMLSchema.t) :
  RequiredOptions.includeNotes
    (TableGenerator.options (DBMLGenerator.tableGenerator self)) = false ->
  fst (DBMLGenerator.generate ambient self (mapEntities withoutNotes schema))
  = fst (DBMLGenerator.generate ambient self schema).
Proof.
  intros Hoff. unfold DBMLGenerator.generate. simpl fst. f_equal. f_equal.
  unfold DBMLGenerator.sections, DBMLGenerator.generateTables,
    RelationGenerator.generateRelations, DBMLGenerator.generateTableGroups.
  simpl DBMLSchema.entities. simpl DBMLSchema.enums.
  rewrite map_map.
  rewrite (map_ext _ _
             (fun e => generateTable_withoutNotes ambient
                         (DBMLGenerator.tableGenerator self) e Hoff)).
  rewrite (relationRefs_map ambient withoutNotes), (schemaGroups_map withoutNotes);
    reflexivity.
Qed.

(** X21: with schemas switched off the document is the one of the
    schema whose entities have no schema. *)
Theorem schemas_switched_off (ambient : Js.ObjectPrototype)
  (self : DBMLGenerator.t) (schema : DBMLSchema.t) :
  RequiredOptions.includeSchemas (DBMLGenerator.options self) = false ->
  RequiredOptions.includeSchemas
    (TableGenerator.options (DBMLGenerator.tableGenerator self)) = false ->
  fst (DBMLGenerator.generate ambient self (mapEntities withoutSchema schema))
  = fst (DBMLGenerator.generate ambient self schema).
Proof.
  intros Hoff Htable. unfold DBMLGenerator.generate. simpl fst. f_equal. f_equal.
  unfold DBMLGenerator.sections, DBMLGenerator.generateTables,
    RelationGenerator.generateRelations.
  simpl DBMLSchema.entities. simpl DBMLSchema.enums.
  rewrite Hoff, map_map.
  rewrite (map_ext _ _
             (fun e => generateTable_withoutSchema ambient
                         (DBMLGenerator.tableGenerator self) e Htable)).
  rewrite (relationRefs_map ambient withoutSchema); reflexivity.
Qed.

Lemma notes_switched_off_witness :
  RequiredOptions.includeNotes
    (TableGenerator.options
       (DBMLGenerator.tableGenerator (DBMLGenerator.new (Some quietOptions))))
  = false
  /\ fst (DBMLGenerator.generate Js.objectPrototype
            (DBMLGenerator.new (Some quietOptions))
            (mapEntities withoutNotes notedSchema))
     = fst (DBMLGenerator.generate Js.objectPrototype
            (DBMLGenerator.new (Some quietOptions))
              notedSchema).
Proof.
  split; [reflexivity|].
  exact (notes_switched_off Js.objectPrototype (DBMLGenerator.new (Some quietOptions))
           notedSchema eq_refl).
Defined.

Lemma schemas_switched_off_witness :
  RequiredOptions.includeSchemas
    (DBMLGenerator.options (DBMLGenerator.new (Some quietOptions))) = false
  /\ fst (DBMLGenerator.generate Js.objectPrototype
            (DBMLGenerator.new (Some quietOptions))
            (mapEntities withoutSchema notedSchema))
     = fst (DBMLGenerator.generate Js.objectPrototype
            (DBMLGenerator.new (Some quietOptions))
              notedSchema).
Proof.
  split; [reflexivity|].
  exact (schemas_switched_off Js.objectPrototype (DBMLGenerator.new (Some quietOptions))
           notedSchema eq_refl eq_refl).
Defined.

(** ** Notes *)

(** X22: in an escaped note every single quote stands directly after a
    backslash, and the escaping changes the note by backslashes only. *)
Theorem escapeNote_guards_every_quote (note : string) (afterBackslash : bool) :
  quotesGuarded afterBackslash (TableGenerator.escapeNote note) = true
  /\ Js.filterChars (fun c => negb (Ascii.eqb c Js.backslash))
       (TableGenerator.escapeNote note)
     = Js.filterChars (fun c => negb (Ascii.eqb c Js.backslash)) note.
Proof.
  split.
  - revert afterBackslash. induction note as [|c s IH]; intros b;
      [reflexivity|].
    simpl TableGenerator.escapeNote.
    destruct (Ascii.eqb c Js.squote) eqn:Hq.
    + apply Ascii.eqb_eq in Hq. subst c. simpl. apply IH.
    + simpl. rewrite Hq. simpl. apply IH.
  - induction note as [|c s IH]; [reflexivity|].
    simpl TableGenerator.escapeNote.
    destruct (Ascii.eqb c Js.squote) eqn:Hq.
    + apply Ascii.eqb_eq in Hq. subst c. simpl. rewrite IH. reflexivity.
    + simpl. rewrite IH. reflexivity.
Qed.

(** ** Length and precision *)

(** X23: no type is in both the list of types that take a length and
    the list of types that take a precision. *)
Theorem length_and_precision_types_are_disjoint (type : string) :
  TypeMapper.supportsLength type && TypeMapper.supportsPrecision type = false.
Proof.
  unfold TypeMapper.supportsLength, TypeMapper.supportsPrecision.
  destruct (existsb _ TypeMapper.lengthTypes) eqn:Hl; [|reflexivity].
  destruct (existsb _ TypeMapper.precisionTypes) eqn:Hp; [|reflexivity].
  apply existsb_exists in Hl. destruct Hl as [x [Hx Ex]].
  apply existsb_exists in Hp. destruct Hp as [y [Hy Ey]].
  apply String.eqb_eq in Ex, Ey. rewrite Ex in Ey. subst y. clear Ex.
  exfalso. simpl in Hx.
  repeat (destruct Hx as [<-|Hx];
          [simpl in Hy; intuition discriminate|]).
  exact Hx.
Qed.

(** ** Relations *)

Lemma relationType_of_found decorators d :
  findDecorator RelationExtractor.relationDecorators decorators = Some d ->
  RelationExtractor.relationType (decoratorName d) <> None.
Proof.
  unfold findDecorator. intros H. apply find_some in H.
  destruct H as [_ H]. unfold RelationExtractor.relationDecorators in H.
  simpl in H. unfold RelationExtractor.relationType.
  rewrite orb_false_r in H.
  destruct (String.eqb (decoratorName d) "OneToOne"); [discriminate|].
  destruct (String.eqb (decoratorName d) "ManyToOne"); [discriminate|].
  destruct (String.eqb (decoratorName d) "OneToMany"); [discriminate|].
  destruct (String.eqb (decoratorName d) "ManyToMany"); [discriminate|].
  discriminate H.
Qed.

(** X24: a property gives a relation exactly when it carries a relation
    decorator; the relation has the name of the property and the kind of
    the decorator, join column metadata exactly when it is a one-to-one
    or a many-to-one, and join table metadata exactly when it is a
    many-to-many with a JoinTable decorator. *)
Theorem extracted_relation_shape (property : PropertyDeclaration) :
  match RelationExtractor.extractRelationFromProperty property with
  | None => isRelationProperty property = false
  | Some r =>
      exists d,
        findDecorator RelationExtractor.relationDecorators
          (propertyDecorators property) = Some d
        /\ RelationExtractor.relationType (decoratorName d)
           = Some (RelationMetadata.type r)
        /\ RelationMetadata.propertyName r = propertyGetName property
        /\ Js.isDefined (RelationMetadata.joinColumn r)
           = match RelationMetadata.type r with
             | one_to_one | many_to_one => true
             | _ => false
             end
        /\ Js.isDefined (RelationMetadata.joinTable r)
           = match RelationMetadata.type r with
             | many_to_many =>
                 Js.isDefined
                   (findDecorator ["JoinTable"] (propertyDecorators property))
             | _ => false
             end
  end.
Proof.
  unfold RelationExtractor.extractRelationFromProperty, isRelationProperty.
  destruct (findDecorator RelationExtractor.relationDecorators _) as [d|]
    eqn:Hfind; [|reflexivity].
  pose proof (relationType_of_found _ _ Hfind) as Hty.
  destruct (RelationExtractor.relationType (decoratorName d)) as [ty|]
    eqn:Hrt; [|now elim Hty].
  exists d. split; [reflexivity|].
  destruct ty; simpl;
    try destruct (findDecorator ["JoinColumn"] _);
    try destruct (findDecorator ["JoinTable"] _);
    repeat split; exact Hrt.
Qed.

Lemma extractRelationFromProperty_propertyName
  (property : PropertyDeclaration) :
  match RelationExtractor.extractRelationFromProperty property with
  | None => isRelationProperty property = false
  | Some r =>
      isRelationProperty property = true
      /\ RelationMetadata.propertyName r = propertyGetName property
  end.
Proof.
  unfold RelationExtractor.extractRelationFromProperty, isRelationProperty.
  destruct (findDecorator RelationExtractor.relationDecorators _) as [d|]
    eqn:Hfind; [|reflexivity].
  pose proof (relationType_of_found _ _ Hfind) as Hty.
  destruct (RelationExtractor.relationType (decoratorName d)) as [ty|];
    [|now elim Hty].
  destruct ty; simpl;
    try destruct (findDecorator ["JoinColumn"] _);
    try destruct (findDecorator ["JoinTable"] _);
    split; reflexivity.
Qed.

Lemma extractRelations_fold properties :
  map RelationMetadata.propertyName
    (flat_map
       (fun property =>
          match RelationExtractor.extractRelationFromProperty property with
          | Some r => [r]
          | None => []
          end)
       properties)
  = map propertyGetName (filter isRelationProperty properties).
Proof.
  induction properties as [|p ps IH]; [reflexivity|].
  cbn [flat_map filter]. rewrite map_app, IH.
  pose proof (extractRelationFromProperty_propertyName p) as Hp.
  destruct (RelationExtractor.extractRelationFromProperty p) as [r|].
  - destruct Hp as [Hrel Hname].
    rewrite Hrel. simpl. rewrite Hname. reflexivity.
  - rewrite Hp. reflexivity.
Qed.

(** X25: the relations of a class are those of its properties that carry
    a relation decorator, one each, in declaration order. *)
Theorem extractRelations_one_per_relation_property
  (classDecl : ClassDeclaration) :
  map RelationMetadata.propertyName
    (RelationExtractor.extractRelations classDecl)
  = map propertyGetName
      (filter isRelationProperty (classProperties classDecl)).
Proof. apply extractRelations_fold. Qed.

(** ** The two tables of default types *)

Lemma existsChar_rev_onto p s acc :
  Js.existsChar p (Js.rev_onto s acc)
  = Js.existsChar p s || Js.existsChar p acc.
Proof.
  revert acc. induction s as [|c s IH]; intros acc; [reflexivity|].
  change (Js.rev_onto (String c s) acc) with (Js.rev_onto s (String c acc)).
  rewrite IH, !existsChar_cons.
  destruct (p c); simpl; [apply orb_true_r | reflexivity].
Qed.

Lemma rev_onto_rev_onto s a b :
  Js.rev_onto (Js.rev_onto s a) b = Js.rev_onto a (s ++ b).
Proof.
  revert a b. induction s as [|c s IH]; intros a b; [reflexivity|].
  change (Js.rev_onto (String c s) a) with (Js.rev_onto s (String c a)).
  rewrite IH. reflexivity.
Qed.

Lemma reverse_reverse s : Js.reverse (Js.reverse s) = s.
Proof.
  unfold Js.reverse. rewrite rev_onto_rev_onto. simpl. apply append_empty.
Qed.

Lemma trimStart_no_space s :
  Js.existsChar Js.isSpace s = false -> Js.trimStart s = s.
Proof.
  destruct s as [|c s]; [reflexivity|].
  rewrite existsChar_cons. intros H. apply orb_false_iff in H.
  destruct H as [Hc _]. simpl. rewrite Hc. reflexivity.
Qed.

Lemma trim_no_space s : Js.existsChar Js.isSpace s = false -> Js.trim s = s.
Proof.
  intros H. unfold Js.trim, Js.trimEnd.
  rewrite (trimStart_no_space s H), trimStart_no_space.
  - apply reverse_reverse.
  - unfold Js.reverse. rewrite existsChar_rev_onto, H. reflexivity.
Qed.

Lemma plainTypeName_no_space t :
  plainTypeName t = true -> Js.existsChar Js.isSpace t = false.
Proof.
  unfold plainTypeName. rewrite negb_true_iff.
  induction t as [|c t IH]; [reflexivity|].
  rewrite !existsChar_cons. intros H. apply orb_false_iff in H.
  destruct H as [Hc Ht]. apply orb_false_iff in Hc.
  rewrite (proj1 Hc), (IH Ht). reflexivity.
Qed.

(** X26: on a type text without white space, bars, array suffix and
    braces that the table of default types lists, or that names no
    property of the object prototype, the inference of the column
    extractor returns the type of [getDefaultTypeForTsType] and leaves
    the metadata as it is. *)
Theorem default_type_agrees_with_inference (ambient : Js.ObjectPrototype)
  (tsType : string) (metadata : ColumnMetadata.t) :
  plainTypeName tsType = true ->
  Js.endsWith "[]" tsType = false ->
  Js.includes "{" tsType = false ->
  Js.isDefined (Js.lookupLast TypeMapper.defaultTypes tsType) = true
  \/ Js.Map.get ambient tsType = None ->
  exists type,
    ColumnExtractor.inferTypeFromTsType tsType metadata = (type, metadata)
    /\ TypeMapper.getDefaultTypeForTsType ambient tsType = Js.Str type.
Proof.
  intros Hplain Harray Hobject Hread.
  unfold ColumnExtractor.inferTypeFromTsType.
  rewrite (removeNullable_plain_same _ Hplain),
    (trim_no_space _ (plainTypeName_no_space _ Hplain)), Harray, Hobject.
  unfold TypeMapper.getDefaultTypeForTsType.
  rewrite (readProperty_own_or_absent _ _ _ Hread).
  unfold TypeMapper.defaultTypes.
  destruct (String.eqb_spec tsType "string") as [->|H1];
    [eexists; split; reflexivity|].
  destruct (String.eqb_spec tsType "number") as [->|H2];
    [eexists; split; reflexivity|].
  destruct (String.eqb_spec tsType "boolean") as [->|H3];
    [eexists; split; reflexivity|].
  destruct (String.eqb_spec tsType "Date") as [->|H4];
    [eexists; split; reflexivity|].
  destruct (String.eqb_spec tsType "Buffer") as [->|H5];
    [eexists; split; reflexivity|].
  cbn [Js.lookupLast].
  rewrite !(String.eqb_sym _ tsType).
  apply String.eqb_neq in H1, H2, H3, H4, H5.
  rewrite H1, H2, H3, H4, H5. eexists. split; reflexivity.
Qed.

Lemma default_type_witness :
  plainTypeName "number" = true
  /\ Js.endsWith "[]" "number" = false
  /\ Js.includes "{" "number" = false
  /\ Js.Map.get Js.objectPrototype "number" = None
  /\ ColumnExtractor.inferTypeFromTsType "number"
       (ColumnExtractor.initialColumn "Column" "age" [])
     = ("integer", ColumnExtractor.initialColumn "Column" "age" [])
  /\ TypeMapper.getDefaultTypeForTsType Js.objectPrototype "number"
     = Js.Str "integer".
Proof.
  split; [reflexivity|]. split; [reflexivity|]. split; [reflexivity|].
  split; [reflexivity|].
  destruct (default_type_agrees_with_inference Js.objectPrototype "number"
              (ColumnExtractor.initialColumn "Column" "age" [])
              eq_refl eq_refl eq_refl (or_intror eq_refl))
    as [type [E1 E2]].
  assert (Et : type = "integer")
    by (vm_compute in E2; injection E2 as <-; reflexivity).
  subst type. split; [exact E1 | exact E2].
Defined.

(** On the name of a property of the object prototype the two differ:
    the inference gives varchar, the other method what it inherits. *)
Example default_type_inherited :
  fst (ColumnExtractor.inferTypeFromTsType "valueOf"
         (ColumnExtractor.initialColumn "Column" "age" []))
  = "varchar"
  /\ TypeMapper.getDefaultTypeForTsType Js.objectPrototype "valueOf"
     = Js.nativeFunction "valueOf".
Proof. split; reflexivity. Qed.

(** ** Quotes in extracted texts *)

Lemma stripQuotes_hasQuote s : hasQuote (Js.stripQuotes s) = false.
Proof.
  unfold hasQuote, Js.stripQuotes.
  induction s as [|c s IH]; [reflexivity|].
  cbn [Js.filterChars].
  destruct (Ascii.eqb c Js.squote || Ascii.eqb c Js.dquote) eqn:Hc;
    cbn [negb]; [exact IH|].
  cbn [Js.existsChar]. rewrite Hc, IH. reflexivity.
Qed.

Lemma columnOption_default st prop d :
  ColumnMetadata.default (fst (ColumnExtractor.columnOption st prop)) = Some d ->
  ColumnMetadata.default (fst st) = Some d \/ hasQuote d = false.
Proof.
  destruct st as [m enums]. unfold ColumnExtractor.columnOption.
  split_ifs; try (destruct m; simpl; intros H; left; exact H).
  - destruct m; simpl. intros H. injection H as <-. right.
    apply stripQuotes_hasQuote.
  - unfold ColumnExtractor.extractEnumMetadata.
    destruct m, (getTypeSymbol (snd prop)) as [[n [|[members|] ds]]|];
      simpl; split_ifs; intros H; left; exact H.
Qed.

Lemma finishColumn_default property m :
  ColumnMetadata.default (finishColumn property m) = ColumnMetadata.default m.
Proof.
  unfold finishColumn, ColumnExtractor.inferTypeFromTsType.
  destruct m; simpl.
  destruct (firstDocComment _); split_ifs; reflexivity.
Qed.

Lemma initialColumn_default dn pn args :
  ColumnMetadata.default (ColumnExtractor.initialColumn dn pn args) = None.
Proof.
  unfold ColumnExtractor.initialColumn, ColumnExtractor.generatedColumn.
  destruct args as [|arg0 args]; split_ifs; reflexivity.
Qed.

(** X27: the default of an extracted column has no single and no double
    quote: the only place that sets it removes them from the text of the
    option. *)
Theorem extracted_default_has_no_quote
  (property : PropertyDeclaration) (enums enums' : ColumnExtractor.EnumsMap)
  (column : ColumnMetadata.t) (d : string) :
  ColumnExtractor.extractColumnFromProperty property enums
  = (Some column, enums') ->
  ColumnMetadata.default column = Some d ->
  hasQuote d = false.
Proof.
  intros Hex. rewrite extractColumnFromProperty_unfold in Hex.
  destruct (findDecorator _ _) as [dec|]; [|discriminate]. cbv zeta in Hex.
  injection Hex as Hc _. subst column. rewrite finishColumn_default.
  revert d.
  apply (applyOptions_keeps (decoratorArguments dec)
           (ColumnExtractor.initialColumn (decoratorName dec)
              (propertyGetName property) (decoratorArguments dec), enums)
           (fun m => forall d, ColumnMetadata.default m = Some d ->
                               hasQuote d = false)).
  - intros st prop _ IH d Hd.
    destruct (columnOption_default st prop d Hd) as [H|H];
      [exact (IH d H) | exact H].
  - intros d Hd. simpl fst in Hd. rewrite initialColumn_default in Hd.
    discriminate Hd.
Qed.

Lemma extracted_default_witness :
  exists column enums',
    ColumnExtractor.extractColumnFromProperty surnameColumn Js.Map.empty
    = (Some column, enums')
    /\ ColumnMetadata.default column = Some "O\Brien"
    /\ hasQuote "O\Brien" = false.
Proof.
  destruct (ColumnExtractor.extractColumnFromProperty surnameColumn
              Js.Map.empty) as [[column|] enums'] eqn:Hex.
  - exists column, enums'. split; [reflexivity|].
    assert (Hd : ColumnMetadata.default column = Some "O\Brien")
      by (vm_compute in Hex; injection Hex as <- _; reflexivity).
    split; [exact Hd|].
    exact (extracted_default_has_no_quote surnameColumn Js.Map.empty enums'
             column "O\Brien" Hex Hd).
  - vm_compute in Hex. discriminate Hex.
Defined.

(** ** What the document leaves out *)

(** X28: the document does not depend on the class names, the unique
    and check constraints and the inheritance of the entities, nor on
    the join tables of the schema. *)
Theorem constraints_and_inheritance_are_not_serialized
  (ambient : Js.ObjectPrototype) (self : DBMLGenerator.t) (schema : DBMLSchema.t) :
  fst (DBMLGenerator.generate ambient self
         (DBMLSchema.mk (map serializedPart (DBMLSchema.entities schema))
            (DBMLSchema.enums schema) []))
  = fst (DBMLGenerator.generate ambient self schema).
Proof.
  unfold DBMLGenerator.generate. simpl fst. f_equal. f_equal.
  unfold DBMLGenerator.sections, DBMLGenerator.generateTables,
    RelationGenerator.generateRelations, DBMLGenerator.generateTableGroups.
  simpl DBMLSchema.entities. simpl DBMLSchema.enums.
  rewrite map_map.
  rewrite (map_ext
             (fun e => TableGenerator.generateTable ambient
                         (DBMLGenerator.tableGenerator self)
                         (serializedPart e))
             (TableGenerator.generateTable ambient (DBMLGenerator.tableGenerator self))
             (fun e => eq_refl)).
  rewrite (relationRefs_map ambient serializedPart); [|reflexivity|reflexivity].
  rewrite (schemaGroups_map serializedPart); reflexivity.
Qed.
